(** * Viability and ranking engine of the planner

    A shallow embedding of the planner's core
    ([src/planner/planner_utils.py], [src/planner/planner_neo4j.py],
    [src/planner/planner_core.py]) and the properties of its specification.

    Conventions of the embedding.
    - A Python [dict] with string keys whose values are strings or [None]
      (the rows read from the graph store, the scope constraints and the
      requirement records) is a [gmap string (option string)]: an absent key
      and a key bound to [None] are different maps, and [d.get(k)] sends both
      to [None].
    - [Dict[str, str]] (the user's scopes and facts) is a [gmap string string].
    - A call that may raise returns a [result]; [try]/[except] is
      [try_except].  [print] has no effect on any returned value and is left
      out.
    - A [for] loop with [continue] and an early [return] is a recursion over
      the list it iterates. *)

From Stdlib Require QArith.
From Stdlib Require Import Ascii.
From stdpp Require Import base option list gmap strings sorting.

Local Open Scope string_scope.
Local Open Scope list_scope.

(** ** Python values and exceptions *)

(** The classes of exception the code names in an [except] clause or raises
    itself; [OtherError] stands for any other class (driver errors). *)
Inductive exn_class : Type :=
  | Exception
  | JSONDecodeError
  | TypeError
  | KeyError
  | OtherError (name : string).

(** An exception: its class and [str(e)]. *)
Record exn : Type := MkExn { exn_cls : exn_class; exn_msg : string }.

Inductive result (A : Type) : Type :=
  | Ok (a : A)
  | Raise (e : exn).
Arguments Ok {A} a.
Arguments Raise {A} e.

(** [result] is a monad in stdpp's sense, which gives the [x ← m; k]
    notation: the first exception raised ends the computation. *)
#[global] Instance result_ret : MRet result := @Ok.

#[global] Instance result_bind : MBind result := λ A B k m,
  match m with
  | Ok a => k a
  | Raise e => Raise e
  end.

(** [try: body except <classes> as e: handler e]; a handler that does not
    catch the class re-raises. *)
Definition try_except {A : Type} (body : result A) (handler : exn -> result A)
  : result A :=
  match body with
  | Ok a => Ok a
  | Raise e => handler e
  end.

(** [raise Exception(msg)] *)
Definition raise_Exception {A : Type} (msg : string) : result A :=
  Raise (MkExn Exception msg).

(** [d.get(k)] on a dict of strings-or-[None]. *)
Definition py_get (d : gmap string (option string)) (k : string) : option string :=
  match d !! k with
  | Some v => v
  | None => None
  end.

(** [d.get(k, default)] *)
Definition py_get_default (d : gmap string (option string)) (k : string)
    (default : option string) : option string :=
  match d !! k with
  | Some v => v
  | None => default
  end.

(** Truth value of a string-or-[None]: [None] and [""] are falsy. *)
Definition truthy (v : option string) : bool :=
  match v with
  | Some s => negb (String.eqb s "")
  | None => false
  end.

(** [str(v)] inside an f-string. *)
Definition py_str (v : option string) : string :=
  match v with
  | Some s => s
  | None => "None"
  end.

(** [x or default] *)
Definition py_or (v : option string) (default : string) : string :=
  match v with
  | Some s => if String.eqb s "" then default else s
  | None => default
  end.

(** [v in S] for a set of strings [S]. *)
Definition py_in (v : option string) (S : gset string) : bool :=
  match v with
  | Some s => bool_decide (s ∈ S)
  | None => false
  end.

(** [s] occurs in [t] as a substring. *)
Definition contains (t s : string) : Prop :=
  ∃ pre post : string, t = pre +:+ s +:+ post.

(** ** planner_utils.py *)

Module ScopeValidator.

Definition REQUIRED_SCOPE_TYPES : gset string :=
  {[ "state"; "nationality"; "visa_type"; "age";
     "credit_score"; "asset_band"; "previous_residence" ]}.

Definition OPTIONAL_SCOPE_TYPES : gset string := {[ "provider" ]}.

(** The body of the [for] loop of [is_viable].  With the constraint fields
    and the user's values typed as strings (or absent), no operation of
    the [try] block raises, and the [except] branch is never taken. *)
Fixpoint is_viable_loop (user_scopes : gmap string string)
    (claim_scopes : list (gmap string (option string))) : bool :=
  match claim_scopes with
  | [] => true
  | claim_scope :: rest =>
      let scope_type := py_get claim_scope "scope_type" in
      let required_value := py_get claim_scope "value" in
      if negb (truthy scope_type) || negb (truthy required_value) then
        is_viable_loop user_scopes rest
      else if py_in scope_type OPTIONAL_SCOPE_TYPES then
        is_viable_loop user_scopes rest
      else if py_in scope_type REQUIRED_SCOPE_TYPES then
        let user_value := scope_type ≫= (user_scopes !!.) in
        if negb (truthy user_value) then false
        else if negb (bool_decide (user_value = required_value)) then false
        else is_viable_loop user_scopes rest
      else is_viable_loop user_scopes rest
  end.

Definition is_viable (user_scopes : gmap string string)
    (claim_scopes : list (gmap string (option string))) : bool :=
  match claim_scopes with
  | [] => true
  | _ => is_viable_loop user_scopes claim_scopes
  end.

(** The record appended by [get_missing_scopes]. *)
Record missing_scope : Type := MissingScope {
  ms_scope_type : option string;
  ms_required_value : option string;
  ms_user_value : string
}.

(** The loop of [get_missing_scopes]; as in [is_viable], its [except] branch
    is never taken on constraints with string fields. *)
Fixpoint get_missing_scopes (user_scopes : gmap string string)
    (claim_scopes : list (gmap string (option string))) : list missing_scope :=
  match claim_scopes with
  | [] => []
  | claim_scope :: rest =>
      let scope_type := py_get claim_scope "scope_type" in
      let required_value := py_get claim_scope "value" in
      if negb (truthy scope_type) || negb (truthy required_value) then
        get_missing_scopes user_scopes rest
      else if py_in scope_type OPTIONAL_SCOPE_TYPES then
        get_missing_scopes user_scopes rest
      else if py_in scope_type REQUIRED_SCOPE_TYPES then
        let user_value := scope_type ≫= (user_scopes !!.) in
        if negb (truthy user_value)
           || negb (bool_decide (user_value = required_value)) then
          MissingScope scope_type required_value (py_or user_value "missing")
            :: get_missing_scopes user_scopes rest
        else get_missing_scopes user_scopes rest
      else get_missing_scopes user_scopes rest
  end.

End ScopeValidator.

Module RequirementChecker.

Definition not_tracked_message (req_name req_id : option string) : string :=
  "Required capability '" +:+ py_str req_name +:+ "' (" +:+ py_str req_id
    +:+ ") not tracked in user facts - system error".

Fixpoint is_viable_loop (user_facts : gmap string string)
    (requirements : list (gmap string (option string))) : result bool :=
  match requirements with
  | [] => Ok true
  | requirement :: rest =>
      let req_id := py_get requirement "id" in
      let req_name := py_get_default requirement "name" req_id in
      if negb (truthy req_id) then is_viable_loop user_facts rest
      else
        match req_id ≫= (user_facts !!.) with
        | None => raise_Exception (not_tracked_message req_name req_id)
        | Some user_status =>
            if negb (String.eqb user_status "have") then Ok false
            else is_viable_loop user_facts rest
        end
  end.

(** The handler prints and re-raises the exception it caught. *)
Definition is_viable (user_facts : gmap string string)
    (requirements : list (gmap string (option string))) : result bool :=
  try_except
    (match requirements with
     | [] => Ok true
     | _ => is_viable_loop user_facts requirements
     end)
    (fun e => Raise e).

End RequirementChecker.

(** ** Decoded JSON values

    What [json.loads] produces: [None], booleans, integers, floats (by their
    exact rational value), strings, lists, and dicts with string keys.  A
    dict is the list of its entries in insertion order; [dict_get] reads the
    first entry of a key (after [json.loads] the keys are distinct). *)
#[local] Unset Elimination Schemes.
Inductive pyval : Type :=
  | PyNone
  | PyBool (b : bool)
  | PyInt (n : Z)
  | PyFloat (q : QArith_base.Q)
  | PyStr (s : string)
  | PyList (items : list pyval)
  | PyDict (entries : list (string * pyval)).
#[local] Set Elimination Schemes.

(** [node[key]] when [key in node] *)
Fixpoint dict_get (entries : list (string * pyval)) (key : string) : option pyval :=
  match entries with
  | [] => None
  | (k, v) :: rest => if String.eqb k key then Some v else dict_get rest key
  end.

(** [key in node] *)
Definition dict_has (entries : list (string * pyval)) (key : string) : bool :=
  match dict_get entries key with Some _ => true | None => false end.

(** Truth value of a decoded value. *)
Definition pyval_truthy (v : pyval) : bool :=
  match v with
  | PyNone => false
  | PyBool b => b
  | PyInt n => negb (n =? 0)%Z
  | PyFloat q => negb (QArith_base.Qeq_bool q (QArith_base.inject_Z 0))
  | PyStr s => negb (String.eqb s "")
  | PyList items => match items with [] => false | _ :: _ => true end
  | PyDict entries => match entries with [] => false | _ :: _ => true end
  end.

(** [v == s] for a string literal [s]: only the string [s] itself is equal
    to it; [v] is the result of [node.get(key)]. *)
Definition py_eq_str (v : option pyval) (s : string) : bool :=
  match v with
  | Some (PyStr t) => String.eqb t s
  | _ => false
  end.

(** ** planner_neo4j.py: requirement ids of a logic tree *)

(** The identity a node contributes itself: [node.get("op") == "has" and
    "id" in node], then [node["id"]]. *)
Definition has_leaf_id (entries : list (string * pyval)) : list pyval :=
  if py_eq_str (dict_get entries "op") "has" && dict_has entries "id" then
    match dict_get entries "id" with
    | Some v => [v]
    | None => []
    end
  else [].

(** The closure [extract_ids_recursive]; the list it appends to
    ([requirement_ids]) is returned, in the order of the appends.  The walk
    to the [children] entry and over the child list is written with local
    fixpoints so that the recursion is structural;
    [extract_ids_recursive_dict] and [extract_ids_recursive_list] below give
    the equations in terms of [dict_get] and [flat_map]. *)
Fixpoint extract_ids_recursive (node : pyval) : list pyval :=
  match node with
  | PyDict entries =>
      has_leaf_id entries ++
      (fix children (es : list (string * pyval)) : list pyval :=
         match es with
         | [] => []
         | (k, v) :: es' =>
             if String.eqb k "children" then
               match v with
               | PyList cs =>
                   (fix each (l : list pyval) : list pyval :=
                      match l with
                      | [] => []
                      | child :: l' => extract_ids_recursive child ++ each l'
                      end) cs
               | _ => []
               end
             else children es'
         end) entries
  | PyList items =>
      (fix each (l : list pyval) : list pyval :=
         match l with
         | [] => []
         | item :: l' => extract_ids_recursive item ++ each l'
         end) items
  | _ => []
  end.

Section LogicTree.

(** [json.loads] on a string: the decoded value, or [None] when the
    document is not valid JSON (the call then raises [JSONDecodeError]).
    The decoder is Python's, not the repository's. *)
Variable json_decode : string -> option pyval.

Definition json_loads (s : string) : result pyval :=
  match json_decode s with
  | Some v => Ok v
  | None => Raise (MkExn JSONDecodeError "Expecting value")
  end.

Definition _extract_requirement_ids_from_logic_tree (logic_tree : pyval)
  : result (list pyval) :=
  try_except
    (if negb (pyval_truthy logic_tree) then Ok []
     else
       tree ← match logic_tree with
              | PyStr s => json_loads s
              | _ => Ok logic_tree
              end;
       Ok (extract_ids_recursive tree))
    (fun e =>
       match exn_cls e with
       | JSONDecodeError | TypeError | KeyError => Ok []
       | _ => Raise e
       end).

End LogicTree.

(** ** Records exchanged between the store interface and the planner *)

(** The goal dict built by [get_goals_by_phase]. *)
Module Goal.
Record t : Type := mk {
  id : option string;
  name : option string;
  phase : option string;
  description : option string
}.
End Goal.

(** The solution dict built by [get_solutions_for_goal]. *)
Module Solution.
Record t : Type := mk {
  id : option string;
  name : option string;
  description : option string
}.
End Solution.

(** The strategy dict built by [get_strategy_for_goal]. *)
Module Strategy.
Record t : Type := mk {
  ranking_rules : list (option string);
  user_rationale : string;
  internal_rationale : string;
  confidence : string
}.
End Strategy.

(** The graphlet dict built by [get_complete_graphlet]. *)
Module Graphlet.
Record t : Type := mk {
  assessed_claim : gmap string (option string);
  clauses : list (gmap string (option string));
  scopes : list (gmap string (option string));
  qualifiers : list (gmap string (option string));
  requirements : list (gmap string (option string))
}.
End Graphlet.

(** The methods of [PlannerNeo4j] that [PlannerCore] calls, as the planner
    sees them (and as the unit tests mock them). *)
Record PlannerNeo4j : Type := MkPlannerNeo4j {
  get_goals_by_phase : option string -> result (list Goal.t);
  get_solutions_for_goal : option string -> result (list Solution.t);
  get_assessed_claims_for_solution : option string -> result (list (option string));
  get_complete_graphlet : option string -> result (option Graphlet.t);
  get_strategy_for_goal : option string -> result (option Strategy.t)
}.

(** The fields of the dataclass [UserState] that the planner reads. *)
Module UserState.
Record t : Type := mk {
  user_id : string;
  scopes : gmap string string;
  facts : gmap string string
}.
End UserState.

(** ** planner_neo4j.py: the store methods over the driver *)

(** Python's [==] on hashable decoded values, as a [set] uses it: numbers
    compare by value across [bool], [int] and [float]. *)
Definition py_number (v : pyval) : option QArith_base.Q :=
  match v with
  | PyBool b => Some (QArith_base.inject_Z (if b then 1 else 0))
  | PyInt n => Some (QArith_base.inject_Z n)
  | PyFloat q => Some q
  | _ => None
  end.

Definition py_eqb (v w : pyval) : bool :=
  match v, w with
  | PyNone, PyNone => true
  | PyStr s, PyStr t => String.eqb s t
  | _, _ =>
      match py_number v, py_number w with
      | Some p, Some q => QArith_base.Qeq_bool p q
      | _, _ => false
      end
  end.

Definition py_hashable (v : pyval) : bool :=
  match v with
  | PyList _ | PyDict _ => false
  | _ => true
  end.

(** [s.update(xs)] on a [set], kept as the list of its elements in order
    of first insertion; an unhashable element raises [TypeError].  Python
    leaves the iteration order of a set unspecified; the one query that
    receives [list(requirement_ids)] tests membership only. *)
Fixpoint set_update (s : list pyval) (xs : list pyval) : result (list pyval) :=
  match xs with
  | [] => Ok s
  | x :: xs' =>
      if py_hashable x then
        set_update (if existsb (py_eqb x) s then s else s ++ [x]) xs'
      else Raise (MkExn TypeError "unhashable type")
  end.

(** [d[k]] on a row: [KeyError] when the key is absent. *)
Definition py_getitem (d : gmap string (option string)) (k : string)
  : result (option string) :=
  match d !! k with
  | Some v => Ok v
  | None => Raise (MkExn KeyError ("'" +:+ k +:+ "'"))
  end.

(** [[r for r in rows if r["id"]]] *)
Fixpoint rows_with_id (rows : list (gmap string (option string)))
  : result (list (gmap string (option string))) :=
  match rows with
  | [] => Ok []
  | r :: rest =>
      v ← py_getitem r "id";
      kept ← rows_with_id rest;
      Ok (if truthy v then r :: kept else kept)
  end.

Module Neo4j.

(** The single record of the graphlet query. *)
Record graphlet_record : Type := {
  ac : gmap string (option string);
  clauses : list (gmap string (option string));
  scopes : list (gmap string (option string));
  qualifiers : list (gmap string (option string))
}.

(** The single record of the strategy query. *)
Record strategy_record : Type := {
  ranking_rules : option (list (option string));
  user_rationale : option string;
  internal_rationale : option string;
  confidence : option string
}.

(** What a session answers to each Cypher query of the module; opening
    the session or running the query may raise. *)
Record driver : Type := {
  match_goals_of_phase : option string -> result (list (gmap string (option string)));
  match_all_goals : result (list (gmap string (option string)));
  match_solutions : option string -> result (list (gmap string (option string)));
  match_assessed_claims : option string -> result (list (option string));
  match_graphlet : option string -> result (option graphlet_record);
  match_requirements : list pyval -> result (list (gmap string (option string)));
  match_strategy : option string -> result (option strategy_record)
}.

End Neo4j.

Module PlannerNeo4jImpl.
Section Methods.

Variable json_decode : string -> option pyval.
Variable driver : Neo4j.driver.

Definition get_goals_by_phase (phase : option string) : result (list Goal.t) :=
try_except
(result ← (if truthy phase then Neo4j.match_goals_of_phase driver phase
           else Neo4j.match_all_goals driver);
 let goals :=
   map (fun goal_node =>
          Goal.mk (py_get goal_node "id") (py_get goal_node "name")
            (py_get goal_node "phase")
            (py_get_default goal_node "description" (Some "")))
     result in
 match goals with
 | [] =>
     if truthy phase then
       raise_Exception ("No goals found for phase '" +:+ py_str phase
                          +:+ "' - check goal seeding")
     else raise_Exception "No goals found in database - check goal seeding"
 | _ => Ok goals
 end)
(fun e => raise_Exception ("Failed to get goals by phase: " +:+ exn_msg e)).

Definition get_solutions_for_goal (goal_id : option string)
: result (list Solution.t) :=
try_except
(result ← Neo4j.match_solutions driver goal_id;
 Ok (map (fun solution_node =>
            Solution.mk (py_get solution_node "id")
              (py_get solution_node "name")
              (py_get_default solution_node "description" (Some "")))
       result))
(fun e =>
   raise_Exception ("Failed to get solutions for goal " +:+ py_str goal_id
                      +:+ ": " +:+ exn_msg e)).

Definition get_assessed_claims_for_solution (solution_id : option string)
: result (list (option string)) :=
try_except
(Neo4j.match_assessed_claims driver solution_id)
(fun e =>
   raise_Exception ("Failed to get AssessedClaims for solution "
                      +:+ py_str solution_id +:+ ": " +:+ exn_msg e)).

(** The loop over the clauses that fills the set [requirement_ids]. *)
Fixpoint collect_requirement_ids (clauses : list (gmap string (option string)))
(requirement_ids : list pyval) : result (list pyval) :=
match clauses with
| [] => Ok requirement_ids
| clause :: rest =>
  let logic_tree := py_get clause "logic_tree" in
  match logic_tree with
  | Some s =>
      if truthy logic_tree then
        req_ids ← _extract_requirement_ids_from_logic_tree json_decode (PyStr s);
        requirement_ids' ← set_update requirement_ids req_ids;
        collect_requirement_ids rest requirement_ids'
      else collect_requirement_ids rest requirement_ids
  | None => collect_requirement_ids rest requirement_ids
  end
end.

Definition get_complete_graphlet (assessed_claim_id : option string)
: result (option Graphlet.t) :=
try_except
(record ← Neo4j.match_graphlet driver assessed_claim_id;
 match record with
 | None => Ok None
 | Some record =>
     let ac := Neo4j.ac record in
     clauses ← rows_with_id (Neo4j.clauses record);
     scopes ← rows_with_id (Neo4j.scopes record);
     qualifiers ← rows_with_id (Neo4j.qualifiers record);
     requirement_ids ← collect_requirement_ids clauses [];
     requirements ←
       match requirement_ids with
       | [] => Ok []
       | _ =>
           req_result ← Neo4j.match_requirements driver requirement_ids;
           Ok (map (fun req_record =>
                      ({[ "id" := py_get req_record "id";
                          "name" := py_get req_record "name";
                          "type" := py_get req_record "type";
                          "description" :=
                            py_get_default req_record "description" (Some "") ]}
                       : gmap string (option string)))
                 req_result)
       end;
     Ok (Some (Graphlet.mk
                 {[ "id" := py_get ac "id";
                    "outcome" := py_get ac "outcome";
                    "rationale" := py_get ac "rationale";
                    "confidence" := py_get ac "confidence" ]}
                 clauses scopes qualifiers requirements))
 end)
(fun e =>
   raise_Exception ("Failed to get complete graphlet for "
                      +:+ py_str assessed_claim_id +:+ ": " +:+ exn_msg e)).

Definition get_strategy_for_goal (goal_id : option string)
: result (option Strategy.t) :=
try_except
(record ← Neo4j.match_strategy driver goal_id;
 match record with
 | None => Ok None
 | Some record =>
     Ok (Some (Strategy.mk
                 (default [] (Neo4j.ranking_rules record))
                 (py_or (Neo4j.user_rationale record) "")
                 (py_or (Neo4j.internal_rationale record) "")
                 (py_or (Neo4j.confidence record) "medium")))
 end)
(fun e =>
   raise_Exception ("Failed to get strategy for goal " +:+ py_str goal_id
                      +:+ ": " +:+ exn_msg e)).

(** The object [self.neo4j] of [PlannerCore]. *)
Definition planner_neo4j : PlannerNeo4j :=
MkPlannerNeo4j get_goals_by_phase get_solutions_for_goal
  get_assessed_claims_for_solution get_complete_graphlet get_strategy_for_goal.

End Methods.
End PlannerNeo4jImpl.

(** ** Python list operations used by the planner *)

(** [l.index(x)]: the first position holding a value equal to [x];
    [None] stands for [ValueError]. *)
Fixpoint list_index (l : list (option string)) (x : option string) : option nat :=
  match l with
  | [] => None
  | y :: l' => if bool_decide (y = x) then Some 0 else S <$> list_index l' x
  end.

(** [l.sort(key=...)] is a stable sort on integer keys; the model is the
    stable insertion sort ([sort_by_key_sorted], [sort_by_key_perm] and
    [sort_by_key_stable] below determine its result). *)
Fixpoint insert_by_key {A : Type} (key : A -> nat) (x : A) (l : list A) : list A :=
  match l with
  | [] => [x]
  | y :: l' =>
      if (key x <=? key y)%nat then x :: y :: l' else y :: insert_by_key key x l'
  end.

Fixpoint sort_by_key {A : Type} (key : A -> nat) (l : list A) : list A :=
  match l with
  | [] => []
  | x :: l' => insert_by_key key x (sort_by_key key l')
  end.

(** [for x in xs: body], where the body updates the loop's state [s] or
    raises; [continue] returns the state as it is. *)
Fixpoint for_each {A S : Type} (body : A -> S -> result S) (xs : list A) (s : S)
  : result S :=
  match xs with
  | [] => Ok s
  | x :: xs' => s' ← body x s; for_each body xs' s'
  end.

(** ** planner_core.py *)

Record SolutionData : Type := {
  solution_id : option string;
  solution_name : option string;
  solution_description : option string;
  viable_assessed_claims : list Graphlet.t;
  strategy_ranking : nat;
  user_rationale : string
}.

Record GoalData : Type := {
  goal_id : option string;
  goal_name : option string;
  goal_phase : option string;
  goal_description : option string;
  viable_solutions : list SolutionData
}.

(** The dicts of the returned roadmap. *)
Module Out.
Record solution_dict : Type := {
  solution_id : option string;
  solution_name : option string;
  solution_description : option string;
  strategy_ranking : nat;
  user_rationale : string;
  assessed_claims_count : nat
}.

Record goal_dict : Type := {
  goal_id : option string;
  goal_name : option string;
  goal_phase : option string;
  goal_description : option string;
  solutions : list solution_dict
}.

Record roadmap_data : Type := {
  user_id : string;
  generated_at : string;
  total_goals : nat;
  goals : list goal_dict
}.
End Out.

Module PlannerCore.

Definition default_rationale : string :=
  "Strategy data not available - using default ranking".

(** "Find this solution's ranking position": [ranking_rules.index], and
    [len(ranking_rules)] on [ValueError]. *)
Definition ranking_position (ranking_rules : list (option string))
    (solution_id : option string) : nat :=
  match list_index ranking_rules solution_id with
  | Some strategy_ranking => strategy_ranking
  | None => length ranking_rules
  end.

Definition solution_dict_of (solution_data : SolutionData) : Out.solution_dict :=
  {| Out.solution_id := solution_id solution_data;
     Out.solution_name := solution_name solution_data;
     Out.solution_description := solution_description solution_data;
     Out.strategy_ranking := strategy_ranking solution_data;
     Out.user_rationale := user_rationale solution_data;
     Out.assessed_claims_count := length (viable_assessed_claims solution_data) |}.

Definition goal_dict_of (goal_data : GoalData) : Out.goal_dict :=
  {| Out.goal_id := goal_id goal_data;
     Out.goal_name := goal_name goal_data;
     Out.goal_phase := goal_phase goal_data;
     Out.goal_description := goal_description goal_data;
     Out.solutions := map solution_dict_of (viable_solutions goal_data) |}.

Section Roadmap.

Variable neo4j : PlannerNeo4j.
Variable user_state : UserState.t.

(** Body of [for claim_id in assessed_claims]. *)
Definition claim_body (claim_id : option string)
    (viable_claims : list Graphlet.t) : result (list Graphlet.t) :=
  graphlet ← get_complete_graphlet neo4j claim_id;
  match graphlet with
  | None => Ok viable_claims
  | Some graphlet =>
      let scopes := Graphlet.scopes graphlet in
      if negb (ScopeValidator.is_viable (UserState.scopes user_state) scopes)
      then Ok viable_claims
      else
        let requirements := Graphlet.requirements graphlet in
        viable ← RequirementChecker.is_viable (UserState.facts user_state) requirements;
        if negb viable then Ok viable_claims
        else Ok (viable_claims ++ [graphlet])
  end.

(** Body of [for solution in solutions]. *)
Definition solution_body (goal_id : option string) (solution : Solution.t)
    (viable_solutions : list SolutionData) : result (list SolutionData) :=
  let solution_id := Solution.id solution in
  let solution_name := Solution.name solution in
  let solution_description := Solution.description solution in
  assessed_claims ← get_assessed_claims_for_solution neo4j solution_id;
  match assessed_claims with
  | [] => Ok viable_solutions
  | _ =>
      viable_claims ← for_each claim_body assessed_claims [];
      match viable_claims with
      | [] => Ok viable_solutions
      | _ =>
          strategy_data ← get_strategy_for_goal neo4j goal_id;
          let '(ranking_rules, user_rationale) :=
            match strategy_data with
            | None => ([], default_rationale)
            | Some strategy_data =>
                (Strategy.ranking_rules strategy_data,
                 Strategy.user_rationale strategy_data)
            end in
          let strategy_ranking := ranking_position ranking_rules solution_id in
          Ok (viable_solutions ++
                [ {| solution_id := solution_id;
                     solution_name := solution_name;
                     solution_description := solution_description;
                     viable_assessed_claims := viable_claims;
                     strategy_ranking := strategy_ranking;
                     user_rationale := user_rationale |} ])
      end
  end.

(** Body of [for goal in all_goals]. *)
Definition goal_body (goal : Goal.t) (viable_goals : list GoalData)
  : result (list GoalData) :=
  let goal_id := Goal.id goal in
  solutions ← get_solutions_for_goal neo4j goal_id;
  match solutions with
  | [] => Ok viable_goals
  | _ =>
      viable_solutions ← for_each (solution_body goal_id) solutions [];
      match viable_solutions with
      | [] => Ok viable_goals
      | _ =>
          let viable_solutions := sort_by_key strategy_ranking viable_solutions in
          Ok (viable_goals ++
                [ {| goal_id := goal_id;
                     goal_name := Goal.name goal;
                     goal_phase := Goal.phase goal;
                     goal_description := Goal.description goal;
                     viable_solutions := viable_solutions |} ])
      end
  end.

Definition roadmap : result Out.roadmap_data :=
  try_except
    (all_goals ← get_goals_by_phase neo4j None;
     match all_goals with
     | [] =>
         raise_Exception
           "No goals found in database - system not properly initialized"
     | _ =>
         viable_goals ← for_each goal_body all_goals [];
         Ok {| Out.user_id := UserState.user_id user_state;
               Out.generated_at := "2025-09-09T16:27:00Z";
               Out.total_goals := length viable_goals;
               Out.goals := map goal_dict_of viable_goals |}
     end)
    (fun e => raise_Exception ("Roadmap generation failed: " +:+ exn_msg e)).

End Roadmap.

End PlannerCore.

(** ** Statements about the scope gate *)

(** A constraint binds the user on dimension [t] with value [v]: its
    [scope_type] and [value] are present and non-empty, and the
    [scope_type] is one of the seven required dimensions. *)
Definition binding_constraint (c : gmap string (option string)) (t v : string) : Prop :=
  py_get c "scope_type" = Some t ∧ py_get c "value" = Some v ∧
  t ≠ "" ∧ v ≠ "" ∧ t ∈ ScopeValidator.REQUIRED_SCOPE_TYPES.

(** The user has a non-empty value for dimension [t], equal to [v]. *)
Definition user_matches (user_scopes : gmap string string) (t v : string) : Prop :=
  ∃ u : string, user_scopes !! t = Some u ∧ u ≠ "" ∧ u = v.


(** ** Statements about the requirement gate *)

(** The requirement does not stop the loop: its id is missing or empty (it
    is skipped), or the user's status for it is ["have"]. *)
Definition satisfied (user_facts : gmap string string)
    (r : gmap string (option string)) : Prop :=
  truthy (py_get r "id") = false ∨
  ∃ i : string, py_get r "id" = Some i ∧ user_facts !! i = Some "have".

(** Every requirement's id maps to ["have"]. *)
Definition all_have (user_facts : gmap string string)
    (requirements : list (gmap string (option string))) : Prop :=
  ∀ r, r ∈ requirements →
       ∃ i : string, py_get r "id" = Some i ∧ user_facts !! i = Some "have".

(** Some requirement's id maps to ["need"] or ["blocked"]. *)
Definition some_need_or_blocked (user_facts : gmap string string)
    (requirements : list (gmap string (option string))) : Prop :=
  ∃ r (i : string), r ∈ requirements ∧ py_get r "id" = Some i ∧
    (user_facts !! i = Some "need" ∨ user_facts !! i = Some "blocked").

(** Some requirement's id is absent from the user's facts. *)
Definition some_untracked (user_facts : gmap string string)
    (requirements : list (gmap string (option string))) : Prop :=
  ∃ r (i : string), r ∈ requirements ∧ py_get r "id" = Some i ∧
    user_facts !! i = None.

(** The call raised the "not tracked in user facts" failure. *)
Definition raises_not_tracked (outcome : result bool) : Prop :=
  ∃ e, outcome = Raise e ∧ contains (exn_msg e) "not tracked in user facts".

(** The user facts of the repository's tests. *)
Definition sample_user_facts : gmap string string :=
  {[ "req_ssn" := "have"; "req_address_proof" := "have";
     "req_passport" := "have"; "req_itin" := "need";
     "req_credit_history" := "blocked" ]}.

(** A requirement record with an id and a name. *)
Definition requirement (id name : string) : gmap string (option string) :=
  {[ "id" := Some id; "name" := Some name ]}.

(** A tracked-but-needed requirement followed by an untracked one, and the
    same two in the other order. *)
Definition need_then_untracked : list (gmap string (option string)) :=
  [ requirement "req_itin" "Individual Taxpayer ID";
    requirement "req_unknown" "Unknown Requirement" ].

Definition untracked_then_need : list (gmap string (option string)) :=
  [ requirement "req_unknown" "Unknown Requirement";
    requirement "req_itin" "Individual Taxpayer ID" ].

(** ** Statements about the roadmap *)

(** The loop body only appends to the loop's list, and what it appends (or
    the exception it raises) does not depend on the list so far. *)
Definition appending {A B : Type} (body : A -> list B -> result (list B)) : Prop :=
  ∀ x acc, body x acc = (items ← body x []; Ok (acc ++ items)).

(** The claims of a solution that pass both gates, as the planner computes
    them: the [viable_claims] of the solution loop. *)
Definition viable_claims_of (neo4j : PlannerNeo4j) (user_state : UserState.t)
    (solution : Solution.t) : result (list Graphlet.t) :=
  assessed_claims ← get_assessed_claims_for_solution neo4j (Solution.id solution);
  for_each (PlannerCore.claim_body neo4j user_state) assessed_claims [].

(** The claim is evaluated as viable: its graphlet exists and passes the
    scope gate and the requirement gate. *)
Definition passes_both_gates (neo4j : PlannerNeo4j) (user_state : UserState.t)
    (claim_id : option string) : Prop :=
  ∃ graphlet,
    get_complete_graphlet neo4j claim_id = Ok (Some graphlet) ∧
    ScopeValidator.is_viable (UserState.scopes user_state)
      (Graphlet.scopes graphlet) = true ∧
    RequirementChecker.is_viable (UserState.facts user_state)
      (Graphlet.requirements graphlet) = Ok true.

(** The [SolutionData] the solution loop builds for a solution, from its
    viable claims and the strategy the store returned for the goal. *)
Definition solution_data_of (solution : Solution.t)
    (viable_claims : list Graphlet.t) (strategy_data : option Strategy.t)
  : SolutionData :=
  {| solution_id := Solution.id solution;
     solution_name := Solution.name solution;
     solution_description := Solution.description solution;
     viable_assessed_claims := viable_claims;
     strategy_ranking :=
       PlannerCore.ranking_position
         (match strategy_data with
          | Some d => Strategy.ranking_rules d
          | None => []
          end) (Solution.id solution);
     user_rationale :=
       match strategy_data with
       | Some d => Strategy.user_rationale d
       | None => PlannerCore.default_rationale
       end |}.

(** The [GoalData] the goal loop builds for a goal from its viable
    solutions, before the sort. *)
Definition goal_data_of (goal : Goal.t) (viable_solutions : list SolutionData)
  : GoalData :=
  {| goal_id := Goal.id goal;
     goal_name := Goal.name goal;
     goal_phase := Goal.phase goal;
     goal_description := Goal.description goal;
     viable_solutions := sort_by_key strategy_ranking viable_solutions |}.

(** The failure the roadmap's handler raises for the exception [e]. *)
Definition roadmap_failure {A : Type} (msg : string) : result A :=
  raise_Exception ("Roadmap generation failed: " +:+ msg).

(** ** A small catalog and the sample user of the repository

    [sample_user_state] is [create_sample_user_state()].  The catalog has two
    goals: a bank-account goal with two solutions that its strategy ranks in
    the reverse of their catalog order, and a credit-card goal with one
    solution and no strategy. *)
Definition sample_user_state : UserState.t :=
  UserState.mk "u_test_123"
    {[ "state" := "CA"; "visa_type" := "H-1B"; "nationality" := "CH";
       "age" := "21_65"; "credit_score" := "no_credit";
       "asset_band" := "100k_1m"; "previous_residence" := "CH" ]}
    {[ "req.elig.ssn" := "have"; "req.elig.itin" := "need";
       "req_address_proof" := "have"; "req_613e1063" := "have";
       "req_d3fbb190" := "have" ]}.

(** The same user with no requirement tracked. *)
Definition untracked_user_state : UserState.t :=
  UserState.mk "u_test_123" (UserState.scopes sample_user_state) ∅.

Definition scope_of (scope_type value : string) : gmap string (option string) :=
  {[ "scope_type" := Some scope_type; "value" := Some value ]}.

Definition sample_graphlet (claim_id : string)
    (scopes requirements : list (gmap string (option string))) : Graphlet.t :=
  Graphlet.mk {[ "id" := Some claim_id ]} [] scopes [] requirements.

Definition goal_bank_account : Goal.t :=
  Goal.mk (Some "goal_bank_account") (Some "Open a bank account")
    (Some "ARRIVE") (Some "").

Definition goal_credit_card : Goal.t :=
  Goal.mk (Some "goal_credit_card") (Some "Get a credit card")
    (Some "BUILD") (Some "").

Definition sol_chase_checking : Solution.t :=
  Solution.mk (Some "sol_chase_checking") (Some "Chase Checking") (Some "").

Definition sol_online_bank : Solution.t :=
  Solution.mk (Some "sol_online_bank") (Some "Online Bank") (Some "").

Definition sol_secured_card : Solution.t :=
  Solution.mk (Some "sol_secured_card") (Some "Secured Card") (Some "").

Definition graphlet_chase_ca : Graphlet.t :=
  sample_graphlet "ac_chase_ca" [scope_of "state" "CA"]
    [requirement "req_613e1063" "Passport"].

Definition graphlet_online_ny : Graphlet.t :=
  sample_graphlet "ac_online_ny" [scope_of "state" "NY"] [].

Definition graphlet_online_any : Graphlet.t :=
  sample_graphlet "ac_online_any" [scope_of "provider" "Chase"]
    [requirement "req.elig.ssn" "Social Security Number"].

Definition graphlet_secured : Graphlet.t :=
  sample_graphlet "ac_secured" []
    [requirement "req_address_proof" "Proof of Address"].

Definition sample_strategy : Strategy.t :=
  Strategy.mk [Some "sol_online_bank"; Some "sol_chase_checking"]
    "Online banks open accounts faster" "" "medium".

Definition sample_neo4j : PlannerNeo4j :=
  {| get_goals_by_phase := fun _ => Ok [goal_bank_account; goal_credit_card];
     get_solutions_for_goal := fun goal_id =>
       match goal_id with
       | Some "goal_bank_account" => Ok [sol_chase_checking; sol_online_bank]
       | Some "goal_credit_card" => Ok [sol_secured_card]
       | _ => Ok []
       end;
     get_assessed_claims_for_solution := fun solution_id =>
       match solution_id with
       | Some "sol_chase_checking" => Ok [Some "ac_chase_ca"]
       | Some "sol_online_bank" => Ok [Some "ac_online_ny"; Some "ac_online_any"]
       | Some "sol_secured_card" => Ok [Some "ac_secured"]
       | _ => Ok []
       end;
     get_complete_graphlet := fun claim_id =>
       match claim_id with
       | Some "ac_chase_ca" => Ok (Some graphlet_chase_ca)
       | Some "ac_online_ny" => Ok (Some graphlet_online_ny)
       | Some "ac_online_any" => Ok (Some graphlet_online_any)
       | Some "ac_secured" => Ok (Some graphlet_secured)
       | _ => Ok None
       end;
     get_strategy_for_goal := fun goal_id =>
       match goal_id with
       | Some "goal_bank_account" => Ok (Some sample_strategy)
       | _ => Ok None
       end |}.

(** The roadmap of the sample user over the sample catalog. *)
Definition sample_roadmap : Out.roadmap_data :=
  {| Out.user_id := "u_test_123";
     Out.generated_at := "2025-09-09T16:27:00Z";
     Out.total_goals := 2;
     Out.goals :=
       [ {| Out.goal_id := Some "goal_bank_account";
            Out.goal_name := Some "Open a bank account";
            Out.goal_phase := Some "ARRIVE";
            Out.goal_description := Some "";
            Out.solutions :=
              [ {| Out.solution_id := Some "sol_online_bank";
                   Out.solution_name := Some "Online Bank";
                   Out.solution_description := Some "";
                   Out.strategy_ranking := 0;
                   Out.user_rationale := "Online banks open accounts faster";
                   Out.assessed_claims_count := 1 |};
                {| Out.solution_id := Some "sol_chase_checking";
                   Out.solution_name := Some "Chase Checking";
                   Out.solution_description := Some "";
                   Out.strategy_ranking := 1;
                   Out.user_rationale := "Online banks open accounts faster";
                   Out.assessed_claims_count := 1 |} ] |};
         {| Out.goal_id := Some "goal_credit_card";
            Out.goal_name := Some "Get a credit card";
            Out.goal_phase := Some "BUILD";
            Out.goal_description := Some "";
            Out.solutions :=
              [ {| Out.solution_id := Some "sol_secured_card";
                   Out.solution_name := Some "Secured Card";
                   Out.solution_description := Some "";
                   Out.strategy_ranking := 0;
                   Out.user_rationale :=
                     "Strategy data not available - using default ranking";
                   Out.assessed_claims_count := 1 |} ] |} ] |}.

(** A driver over an empty database: every query succeeds and finds
    nothing. *)
Definition empty_driver : Neo4j.driver :=
  {| Neo4j.match_goals_of_phase := fun _ => Ok [];
     Neo4j.match_all_goals := Ok [];
     Neo4j.match_solutions := fun _ => Ok [];
     Neo4j.match_assessed_claims := fun _ => Ok [];
     Neo4j.match_graphlet := fun _ => Ok None;
     Neo4j.match_requirements := fun _ => Ok [];
     Neo4j.match_strategy := fun _ => Ok None |}.

(** A decoder that accepts no document; the empty database holds no logic
    tree to decode. *)
Definition no_json : string -> option pyval := fun _ => None.

(** An emitted solution is well formed: it counts at least one claim, and
    one of the claims targeting it passes both gates. *)
Definition well_formed_solution (neo4j : PlannerNeo4j) (user_state : UserState.t)
    (d : Out.solution_dict) : Prop :=
  (1 ≤ Out.assessed_claims_count d)%nat ∧
  ∃ assessed_claims claim_id,
    get_assessed_claims_for_solution neo4j (Out.solution_id d) = Ok assessed_claims ∧
    claim_id ∈ assessed_claims ∧
    passes_both_gates neo4j user_state claim_id.

(** An emitted goal is well formed: it has a solution, its solutions are
    well formed, and they are in ascending order of [strategy_ranking]. *)
Definition well_formed_goal (neo4j : PlannerNeo4j) (user_state : UserState.t)
    (g : Out.goal_dict) : Prop :=
  Out.solutions g ≠ [] ∧
  Forall (well_formed_solution neo4j user_state) (Out.solutions g) ∧
  Sorted le (map Out.strategy_ranking (Out.solutions g)).

(** The planner evaluates the claim: it targets a solution of a goal of the
    catalog. *)
Definition evaluated_claim (neo4j : PlannerNeo4j) (claim_id : option string) : Prop :=
  ∃ all_goals goal solutions solution assessed_claims,
    get_goals_by_phase neo4j None = Ok all_goals ∧ goal ∈ all_goals ∧
    get_solutions_for_goal neo4j (Goal.id goal) = Ok solutions ∧
    solution ∈ solutions ∧
    get_assessed_claims_for_solution neo4j (Solution.id solution)
      = Ok assessed_claims ∧
    claim_id ∈ assessed_claims.

(** The requirement check of the claim raises [e]: the claim's graphlet
    exists, passes the scope gate, and [RequirementChecker.is_viable]
    raises on its requirements. *)
Definition requirement_check_raises (neo4j : PlannerNeo4j)
    (user_state : UserState.t) (claim_id : option string) (e : exn) : Prop :=
  ∃ graphlet,
    get_complete_graphlet neo4j claim_id = Ok (Some graphlet) ∧
    ScopeValidator.is_viable (UserState.scopes user_state)
      (Graphlet.scopes graphlet) = true ∧
    RequirementChecker.is_viable (UserState.facts user_state)
      (Graphlet.requirements graphlet) = Raise e.

(** The claim is the first point of the run at which anything raises: the
    goals, solutions and claims before it are processed without failure. *)
Definition first_failure_at (neo4j : PlannerNeo4j) (user_state : UserState.t)
    (claim_id : option string) : Prop :=
  ∃ goals_before goal goals_after viable_goals
    solutions_before solution solutions_after viable_solutions
    claims_before claims_after viable_claims,
    get_goals_by_phase neo4j None = Ok (goals_before ++ goal :: goals_after) ∧
    for_each (PlannerCore.goal_body neo4j user_state) goals_before []
      = Ok viable_goals ∧
    get_solutions_for_goal neo4j (Goal.id goal)
      = Ok (solutions_before ++ solution :: solutions_after) ∧
    for_each (PlannerCore.solution_body neo4j user_state (Goal.id goal))
      solutions_before [] = Ok viable_solutions ∧
    get_assessed_claims_for_solution neo4j (Solution.id solution)
      = Ok (claims_before ++ claim_id :: claims_after) ∧
    for_each (PlannerCore.claim_body neo4j user_state) claims_before []
      = Ok viable_claims.

(** The exception the requirement check raises for the passport claim of the
    sample catalog when the user tracks nothing. *)
Definition passport_not_tracked : exn :=
  MkExn Exception
    "Required capability 'Passport' (req_613e1063) not tracked in user facts - system error".

(** The solutions of a goal that have a viable claim, each with the data the
    planner builds for it when the goal has no strategy. *)
Definition default_ranked (neo4j : PlannerNeo4j) (user_state : UserState.t)
    (solutions : list Solution.t) : list SolutionData :=
  flat_map
    (fun solution =>
       match viable_claims_of neo4j user_state solution with
       | Ok (g :: gs) => [solution_data_of solution (g :: gs) None]
       | _ => []
       end)
    solutions.

(** The goal data emitted for [goal] with the solutions [viable]. *)
Definition goal_data_with (goal : Goal.t) (viable : list SolutionData) : GoalData :=
  {| goal_id := Goal.id goal;
     goal_name := Goal.name goal;
     goal_phase := Goal.phase goal;
     goal_description := Goal.description goal;
     viable_solutions := viable |}.

(** ** Statements about the logic-tree extraction *)





(** Leaves and inner nodes in the format of the docstring. *)
Definition has (id : string) : pyval :=
  PyDict [("op", PyStr "has"); ("id", PyStr id)].

Definition node (op : string) (children : list pyval) : pyval :=
  PyDict [("op", PyStr op); ("children", PyList children)].


(** The JSON text [{"op": "has", "id": "req_ssn"}] of the tests' simple
    tree, and a decoder that knows this text and [null]. *)
Definition quoted (s : string) : string :=
  String "034"%char s +:+ String "034"%char "".

Definition simple_tree_text : string :=
  "{" +:+ quoted "op" +:+ ": " +:+ quoted "has" +:+ ", "
      +:+ quoted "id" +:+ ": " +:+ quoted "req_ssn" +:+ "}".

Definition decode_sample (s : string) : option pyval :=
  if String.eqb s simple_tree_text then Some (has "req_ssn")
  else if String.eqb s "null" then Some PyNone
  else None.

(** ** The fixtures of the repository's unit tests ([planner_test.py]) *)

Definition sample_user_scopes : gmap string string :=
  {[ "state" := "CA"; "nationality" := "CH"; "visa_type" := "H-1B";
     "age" := "21_65"; "credit_score" := "no_credit";
     "asset_band" := "100k_1m"; "previous_residence" := "CH" ]}.

(** The mocked store of [test_roadmap_filters_non_viable_solutions]: every
    method returns the same value whatever its argument. *)
Definition mock_neo4j : PlannerNeo4j :=
  {| get_goals_by_phase := fun _ =>
       Ok [Goal.mk (Some "goal_1") (Some "Test Goal") (Some "ARRIVE") (Some "Test")];
     get_solutions_for_goal := fun _ =>
       Ok [Solution.mk (Some "sol_1") (Some "Test Solution") (Some "Test")];
     get_assessed_claims_for_solution := fun _ => Ok [Some "claim_1"];
     get_complete_graphlet := fun _ =>
       Ok (Some (Graphlet.mk
                   {[ "id" := Some "claim_1"; "outcome" := Some "consensus" ]}
                   [] [scope_of "state" "NY"] [] []));
     get_strategy_for_goal := fun _ =>
       Ok (Some (Strategy.mk [Some "sol_1"] "Test strategy" "" "medium")) |}.

(** The complex tree of [test_extract_requirement_ids_from_logic_tree]. *)
Definition complex_tree : pyval :=
  node "AND" [has "req_ssn";
              node "OR" [has "req_passport"; has "req_driver_license"]].

(** * Further code of the planner *)

(** ** planner_utils.py: the diagnostic queries of [RequirementChecker] *)

Module RequirementDiagnostics.

(** The record appended by [get_missing_requirements]. *)
Record missing_requirement : Type := MissingRequirement {
  mr_req_id : option string;
  mr_req_name : option string;
  mr_status : string
}.

(** The loop of [get_missing_requirements]: [user_facts.get(req_id,
    "unknown")] never raises, so the [except] branch is never taken on
    requirement records with string fields. *)
Fixpoint get_missing_requirements (user_facts : gmap string string)
    (requirements : list (gmap string (option string)))
  : list missing_requirement :=
  match requirements with
  | [] => []
  | requirement :: rest =>
      let req_id := py_get requirement "id" in
      let req_name := py_get_default requirement "name" req_id in
      if negb (truthy req_id) then get_missing_requirements user_facts rest
      else
        let user_status := default "unknown" (req_id ≫= (user_facts !!.)) in
        if negb (String.eqb user_status "have") then
          MissingRequirement req_id req_name user_status
            :: get_missing_requirements user_facts rest
        else get_missing_requirements user_facts rest
  end.


End RequirementDiagnostics.



(** ** Statements about the failures of the roadmap *)

(** [t] starts with [p]. *)
Definition starts_with (t p : string) : Prop := ∃ rest : string, t = p +:+ rest.

(** The places at which the roadmap computation can raise [e]: the five
    store calls, each on an entity the loops reach, the planner's own check
    of the goal list, and the requirement check of a claim that passed the
    scope gate. *)
Inductive failure_cause (neo4j : PlannerNeo4j) (user_state : UserState.t)
  : exn -> Prop :=
  | cause_goals e :
      get_goals_by_phase neo4j None = Raise e ->
      failure_cause neo4j user_state e
  | cause_no_goals :
      get_goals_by_phase neo4j None = Ok [] ->
      failure_cause neo4j user_state
        (MkExn Exception
           "No goals found in database - system not properly initialized")
  | cause_solutions all_goals goal e :
      get_goals_by_phase neo4j None = Ok all_goals -> goal ∈ all_goals ->
      get_solutions_for_goal neo4j (Goal.id goal) = Raise e ->
      failure_cause neo4j user_state e
  | cause_claims all_goals goal solutions solution e :
      get_goals_by_phase neo4j None = Ok all_goals -> goal ∈ all_goals ->
      get_solutions_for_goal neo4j (Goal.id goal) = Ok solutions ->
      solution ∈ solutions ->
      get_assessed_claims_for_solution neo4j (Solution.id solution) = Raise e ->
      failure_cause neo4j user_state e
  | cause_graphlet claim_id e :
      evaluated_claim neo4j claim_id ->
      get_complete_graphlet neo4j claim_id = Raise e ->
      failure_cause neo4j user_state e
  | cause_requirement claim_id e :
      evaluated_claim neo4j claim_id ->
      requirement_check_raises neo4j user_state claim_id e ->
      failure_cause neo4j user_state e
  | cause_strategy all_goals goal e :
      get_goals_by_phase neo4j None = Ok all_goals -> goal ∈ all_goals ->
      get_strategy_for_goal neo4j (Goal.id goal) = Raise e ->
      failure_cause neo4j user_state e.

(** The ways a failure message of the roadmap over the real store begins,
    after "Roadmap generation failed: ". *)
Definition failure_prefixes : list string :=
  [ "Failed to get goals by phase: ";
    "Failed to get solutions for goal ";
    "Failed to get AssessedClaims for solution ";
    "Failed to get complete graphlet for ";
    "Failed to get strategy for goal ";
    "Required capability '" ].

(** The goal dict built from a goal node. *)
Definition goal_of_node (goal_node : gmap string (option string)) : Goal.t :=
  Goal.mk (py_get goal_node "id") (py_get goal_node "name")
    (py_get goal_node "phase")
    (py_get_default goal_node "description" (Some "")).

(** ** A small database behind the driver

    One goal in phase ARRIVE, one solution, one claim.  The claim's record
    is what the graphlet query returns for a claim with one clause, one
    scope and no qualifier: [collect(DISTINCT {...})] over the unmatched
    [OPTIONAL MATCH] yields one map of nulls. *)
Definition null_row (keys : list string) : gmap string (option string) :=
  list_to_map ((λ k, (k, None)) <$> keys).

Definition sample_goal_node : gmap string (option string) :=
  {[ "id" := Some "goal_bank_account"; "name" := Some "Open a bank account";
     "phase" := Some "ARRIVE" ]}.

Definition sample_solution_node : gmap string (option string) :=
  {[ "id" := Some "sol_online_bank"; "name" := Some "Online Bank";
     "description" := Some "An account opened online" ]}.

Definition sample_clause_row : gmap string (option string) :=
  {[ "id" := Some "clause_1"; "logic_tree" := Some simple_tree_text ]}.

Definition sample_scope_row : gmap string (option string) :=
  {[ "id" := Some "Scope:state:CA"; "scope_type" := Some "state";
     "name" := Some "California"; "value" := Some "CA";
     "description" := None ]}.

Definition sample_graphlet_record : Neo4j.graphlet_record :=
  {| Neo4j.ac := {[ "id" := Some "ac_online_ca"; "outcome" := Some "consensus" ]};
     Neo4j.clauses := [sample_clause_row];
     Neo4j.scopes := [sample_scope_row];
     Neo4j.qualifiers :=
       [null_row ["id"; "key"; "value"; "evidence"; "confidence"]] |}.

Definition sample_requirement_row : gmap string (option string) :=
  {[ "id" := Some "req_ssn"; "name" := Some "Social Security Number";
     "type" := Some "document"; "description" := Some "" ]}.

Definition sample_driver : Neo4j.driver :=
  {| Neo4j.match_goals_of_phase := fun phase =>
       match phase with
       | Some "ARRIVE" => Ok [sample_goal_node]
       | _ => Ok []
       end;
     Neo4j.match_all_goals := Ok [sample_goal_node];
     Neo4j.match_solutions := fun goal_id =>
       match goal_id with
       | Some "goal_bank_account" => Ok [sample_solution_node]
       | _ => Ok []
       end;
     Neo4j.match_assessed_claims := fun solution_id =>
       match solution_id with
       | Some "sol_online_bank" => Ok [Some "ac_online_ca"]
       | _ => Ok []
       end;
     Neo4j.match_graphlet := fun claim_id =>
       match claim_id with
       | Some "ac_online_ca" => Ok (Some sample_graphlet_record)
       | _ => Ok None
       end;
     Neo4j.match_requirements := fun req_ids =>
       match req_ids with
       | [PyStr "req_ssn"] => Ok [sample_requirement_row]
       | _ => Ok []
       end;
     Neo4j.match_strategy := fun _ => Ok None |}.

(** The user of the unit tests: the tests' scopes and facts. *)
Definition test_user_state : UserState.t :=
  UserState.mk "u_test_123" sample_user_scopes sample_user_facts.

(** A driver whose connection is down: every query raises. *)
Definition connection_refused : exn :=
  MkExn (OtherError "ServiceUnavailable") "Connection refused".

Definition failing_driver : Neo4j.driver :=
  {| Neo4j.match_goals_of_phase := fun _ => Raise connection_refused;
     Neo4j.match_all_goals := Raise connection_refused;
     Neo4j.match_solutions := fun _ => Raise connection_refused;
     Neo4j.match_assessed_claims := fun _ => Raise connection_refused;
     Neo4j.match_graphlet := fun _ => Raise connection_refused;
     Neo4j.match_requirements := fun _ => Raise connection_refused;
     Neo4j.match_strategy := fun _ => Raise connection_refused |}.

(** ** Statements about the graphlet *)

(** The row carries a non-empty id. *)
Definition has_id (row : gmap string (option string)) : Prop :=
  truthy (py_get row "id") = true.

(** A Python [set] of decoded values, as the list of its elements: all
    hashable, no two equal under Python's [==]. *)
Definition py_set (s : list pyval) : Prop :=
  Forall (λ x, py_hashable x = true) s ∧
  ∀ i j x y, s !! i = Some x → s !! j = Some y → py_eqb x y = true → i = j.

(** The identity [x] is referenced by a clause of [clauses]: the clause has
    a non-empty logic tree that decodes to a tree from which [x] is
    extracted. *)
Definition referenced_by (json_decode : string -> option pyval)
    (clauses : list (gmap string (option string))) (x : pyval) : Prop :=
  ∃ clause (s : string) t,
    clause ∈ clauses ∧ py_get clause "logic_tree" = Some s ∧ s ≠ "" ∧
    json_decode s = Some t ∧ x ∈ extract_ids_recursive t.

(** The requirement dict built from a row of the requirement query. *)
Definition requirement_of_row (req_record : gmap string (option string))
  : gmap string (option string) :=
  {[ "id" := py_get req_record "id";
     "name" := py_get req_record "name";
     "type" := py_get req_record "type";
     "description" := py_get_default req_record "description" (Some "") ]}.

(** A leaf whose id is a list: [{"op": "has", "id": ["req_a", "req_b"]}]. *)
Definition list_id_leaf : pyval :=
  PyDict [("op", PyStr "has"); ("id", PyList [PyStr "req_a"; PyStr "req_b"])].

Definition list_id_text : string :=
  "{" +:+ quoted "op" +:+ ": " +:+ quoted "has" +:+ ", "
      +:+ quoted "id" +:+ ": [" +:+ quoted "req_a" +:+ ", "
      +:+ quoted "req_b" +:+ "]}".

Definition decode_list_id (s : string) : option pyval :=
  if String.eqb s list_id_text then Some list_id_leaf else None.

(** A database whose only claim has a clause with that leaf. *)
Definition list_id_driver : Neo4j.driver :=
  {| Neo4j.match_goals_of_phase := fun _ => Ok [sample_goal_node];
     Neo4j.match_all_goals := Ok [sample_goal_node];
     Neo4j.match_solutions := fun _ => Ok [sample_solution_node];
     Neo4j.match_assessed_claims := fun _ => Ok [Some "ac_online_ca"];
     Neo4j.match_graphlet := fun _ =>
       Ok (Some {| Neo4j.ac := {[ "id" := Some "ac_online_ca" ]};
                   Neo4j.clauses :=
                     [ {[ "id" := Some "clause_1";
                          "logic_tree" := Some list_id_text ]} ];
                   Neo4j.scopes := [];
                   Neo4j.qualifiers := [] |});
     Neo4j.match_requirements := fun _ => Ok [];
     Neo4j.match_strategy := fun _ => Ok None |}.

(** The identities one clause contributes to [requirement_ids]: those
    extracted from its logic tree, when it has a non-empty one that
    decodes. *)
Definition clause_ids (json_decode : string -> option pyval)
    (clause : gmap string (option string)) : list pyval :=
  match py_get clause "logic_tree" with
  | Some s =>
      if String.eqb s "" then []
      else match json_decode s with
           | Some t => extract_ids_recursive t
           | None => []
           end
  | None => []
  end.

(** A database whose only claim has no scope and a clause naming a
    requirement for which there is no Requirement node. *)
Definition dangling_graphlet_record : Neo4j.graphlet_record :=
  {| Neo4j.ac := {[ "id" := Some "ac_online_ca"; "outcome" := Some "consensus" ]};
     Neo4j.clauses := [sample_clause_row];
     Neo4j.scopes :=
       [null_row ["id"; "scope_type"; "name"; "value"; "description"]];
     Neo4j.qualifiers :=
       [null_row ["id"; "key"; "value"; "evidence"; "confidence"]] |}.

Definition dangling_driver : Neo4j.driver :=
  {| Neo4j.match_goals_of_phase := fun _ => Ok [sample_goal_node];
     Neo4j.match_all_goals := Ok [sample_goal_node];
     Neo4j.match_solutions := fun _ => Ok [sample_solution_node];
     Neo4j.match_assessed_claims := fun _ => Ok [Some "ac_online_ca"];
     Neo4j.match_graphlet := fun _ => Ok (Some dangling_graphlet_record);
     Neo4j.match_requirements := fun _ => Ok [];
     Neo4j.match_strategy := fun _ => Ok None |}.

(** A user about whom nothing is known. *)
Definition blank_user_state : UserState.t := UserState.mk "u_blank" ∅ ∅.

(** ** Statements about the order and the size of the roadmap *)

(** What the roadmap copies from a goal of the catalog, and the same
    fields of an emitted goal. *)
Definition goal_fields (goal : Goal.t)
  : option string * option string * option string * option string :=
  (Goal.id goal, Goal.name goal, Goal.phase goal, Goal.description goal).

Definition emitted_goal_fields (g : Out.goal_dict)
  : option string * option string * option string * option string :=
  (Out.goal_id g, Out.goal_name g, Out.goal_phase g, Out.goal_description g).

(** What the roadmap copies from a solution of the catalog, and the same
    fields of an emitted solution. *)
Definition solution_fields (solution : Solution.t)
  : option string * option string * option string :=
  (Solution.id solution, Solution.name solution, Solution.description solution).

Definition emitted_solution_fields (d : Out.solution_dict)
  : option string * option string * option string :=
  (Out.solution_id d, Out.solution_name d, Out.solution_description d).

(** The claim is evaluated without failure and not kept: it has no
    graphlet, or its graphlet fails the scope gate, or it passes the scope
    gate and the requirement gate answers no. *)
Definition rejected (neo4j : PlannerNeo4j) (user_state : UserState.t)
    (claim_id : option string) : Prop :=
  get_complete_graphlet neo4j claim_id = Ok None ∨
  ∃ graphlet,
    get_complete_graphlet neo4j claim_id = Ok (Some graphlet) ∧
    (ScopeValidator.is_viable (UserState.scopes user_state)
       (Graphlet.scopes graphlet) = false ∨
     RequirementChecker.is_viable (UserState.facts user_state)
       (Graphlet.requirements graphlet) = Ok false).

(** The catalog has a goal, every goal's solutions and every solution's
    claims are read without failure, and every claim is rejected. *)
Definition no_viable_claim (neo4j : PlannerNeo4j) (user_state : UserState.t)
  : Prop :=
  ∃ all_goals,
    get_goals_by_phase neo4j None = Ok all_goals ∧ all_goals ≠ [] ∧
    ∀ goal, goal ∈ all_goals →
      ∃ solutions,
        get_solutions_for_goal neo4j (Goal.id goal) = Ok solutions ∧
        ∀ solution, solution ∈ solutions →
          ∃ assessed_claims,
            get_assessed_claims_for_solution neo4j (Solution.id solution)
              = Ok assessed_claims ∧
            ∀ claim_id, claim_id ∈ assessed_claims →
              rejected neo4j user_state claim_id.

(** The roadmap without goals. *)
Definition empty_roadmap (user_state : UserState.t) : Out.roadmap_data :=
  {| Out.user_id := UserState.user_id user_state;
     Out.generated_at := "2025-09-09T16:27:00Z";
     Out.total_goals := 0;
     Out.goals := [] |}.

(** A store whose only claim has no graphlet and whose strategy query is
    down. *)
Definition hollow_neo4j : PlannerNeo4j :=
  {| get_goals_by_phase := fun _ => Ok [goal_bank_account];
     get_solutions_for_goal := fun _ => Ok [sol_online_bank];
     get_assessed_claims_for_solution := fun _ => Ok [Some "ac_gone"];
     get_complete_graphlet := fun _ => Ok None;
     get_strategy_for_goal := fun _ => Raise connection_refused |}.

(** The first goal of [sample_roadmap]: its strategy puts the catalog's
    second solution first. *)
Definition sample_bank_goal : Out.goal_dict :=
  {| Out.goal_id := Some "goal_bank_account";
     Out.goal_name := Some "Open a bank account";
     Out.goal_phase := Some "ARRIVE";
     Out.goal_description := Some "";
     Out.solutions :=
       [ {| Out.solution_id := Some "sol_online_bank";
            Out.solution_name := Some "Online Bank";
            Out.solution_description := Some "";
            Out.strategy_ranking := 0;
            Out.user_rationale := "Online banks open accounts faster";
            Out.assessed_claims_count := 1 |};
         {| Out.solution_id := Some "sol_chase_checking";
            Out.solution_name := Some "Chase Checking";
            Out.solution_description := Some "";
            Out.strategy_ranking := 1;
            Out.user_rationale := "Online banks open accounts faster";
            Out.assessed_claims_count := 1 |} ] |}.

(** The claim passes both gates, as a test. *)
Definition passes_gates (neo4j : PlannerNeo4j) (user_state : UserState.t)
    (claim_id : option string) : bool :=
  match get_complete_graphlet neo4j claim_id with
  | Ok (Some graphlet) =>
      ScopeValidator.is_viable (UserState.scopes user_state)
        (Graphlet.scopes graphlet)
      && match RequirementChecker.is_viable (UserState.facts user_state)
                 (Graphlet.requirements graphlet) with
         | Ok viable => viable
         | Raise _ => false
         end
  | _ => false
  end.

(** ** api/models.py and api/endpoints.py

    The response models are pydantic models whose [str] fields do not
    accept [None]: constructing one with a [None] raises a
    [ValidationError].  The roadmap dict the endpoint reads is the record
    [Out.roadmap_data]; its keys are the record's fields, so [d[key]] and
    [d.get(key, default)] on one of them read the field, and [d.get] on any
    other key returns the default.

    What the endpoint takes from its environment is a parameter: the text of
    [str(e)] for a [ValidationError] and for an [HTTPException], which the
    libraries choose, and the reading of the clock. *)
Module Api.

Record SolutionResponse : Type := {
  solution_id : string;
  solution_name : string;
  solution_description : string;
  strategy_ranking : nat;
  user_rationale : string;
  assessed_claims_count : nat
}.

Record GoalResponse : Type := {
  goal_id : string;
  goal_name : string;
  goal_phase : string;
  goal_description : string;
  solutions : list SolutionResponse
}.

Record RoadmapResponse : Type := {
  user_id : string;
  generated_at : string;
  total_goals : nat;
  goals : list GoalResponse
}.

(** What the client receives: the response model, or the status and detail
    of the [HTTPException] the handler raises. *)
Inductive outcome : Type :=
  | Response (r : RoadmapResponse)
  | HTTPError (status_code : nat) (detail : string).

(** The part of a [PlannerCore] instance the endpoint uses: its store and
    [user_repo.get_user_state]. *)
Record Planner : Type := {
  neo4j : PlannerNeo4j;
  get_user_state : string -> result (option UserState.t)
}.

(** [get_planner]: the module's [_planner] is the state; [construct] is
    what [PlannerCore()] does when it is called. *)
Definition get_planner (construct : result Planner) (_planner : option Planner)
  : result Planner * option Planner :=
  match _planner with
  | None =>
      match construct with
      | Ok planner => (Ok planner, Some planner)
      | Raise e => (Raise e, None)
      end
  | Some planner => (Ok planner, Some planner)
  end.

Section Endpoint.

(** [str(e)] for the [ValidationError] of the named model, given the
    fields that received [None], in the order of the model. *)
Variable validation_error : string -> list string -> string.

(** [str(e)] for [HTTPException(status_code, detail)]. *)
Variable str_http_exception : nat -> string -> string.

(** [datetime.utcnow().isoformat()] at the time of the request. *)
Variable utcnow : string.

Definition none_fields (field : string) (value : option string) : list string :=
  match value with
  | Some _ => []
  | None => [field]
  end.

Definition new_SolutionResponse (solution_id solution_name
    solution_description : option string) (strategy_ranking : nat)
    (user_rationale : string) (assessed_claims_count : nat)
  : result SolutionResponse :=
  match solution_id, solution_name, solution_description with
  | Some solution_id, Some solution_name, Some solution_description =>
      Ok {| solution_id := solution_id;
            solution_name := solution_name;
            solution_description := solution_description;
            strategy_ranking := strategy_ranking;
            user_rationale := user_rationale;
            assessed_claims_count := assessed_claims_count |}
  | _, _, _ =>
      Raise (MkExn (OtherError "ValidationError")
               (validation_error "SolutionResponse"
                  (none_fields "solution_id" solution_id
                   ++ none_fields "solution_name" solution_name
                   ++ none_fields "solution_description" solution_description)))
  end.

Definition new_GoalResponse (goal_id goal_name goal_phase
    goal_description : option string) (solutions : list SolutionResponse)
  : result GoalResponse :=
  match goal_id, goal_name, goal_phase, goal_description with
  | Some goal_id, Some goal_name, Some goal_phase, Some goal_description =>
      Ok {| goal_id := goal_id;
            goal_name := goal_name;
            goal_phase := goal_phase;
            goal_description := goal_description;
            solutions := solutions |}
  | _, _, _, _ =>
      Raise (MkExn (OtherError "ValidationError")
               (validation_error "GoalResponse"
                  (none_fields "goal_id" goal_id
                   ++ none_fields "goal_name" goal_name
                   ++ none_fields "goal_phase" goal_phase
                   ++ none_fields "goal_description" goal_description)))
  end.

(** Body of [for sol in goal_data.get("solutions", [])].  The solution
    dicts of the roadmap have no key ["viable_assessed_claims"], so
    [sol.get("viable_assessed_claims", [])] is the default. *)
Definition sol_body (sol : Out.solution_dict) (solutions : list SolutionResponse)
  : result (list SolutionResponse) :=
  let viable_assessed_claims : list Graphlet.t := [] in
  response ← new_SolutionResponse (Out.solution_id sol) (Out.solution_name sol)
               (Out.solution_description sol) (Out.strategy_ranking sol)
               (Out.user_rationale sol) (length viable_assessed_claims);
  Ok (solutions ++ [response]).

(** Body of [for goal_data in result.get("goals", [])]. *)
Definition goal_data_body (goal_data : Out.goal_dict) (goals : list GoalResponse)
  : result (list GoalResponse) :=
  solutions ← for_each sol_body (Out.solutions goal_data) [];
  response ← new_GoalResponse (Out.goal_id goal_data) (Out.goal_name goal_data)
               (Out.goal_phase goal_data) (Out.goal_description goal_data)
               solutions;
  Ok (goals ++ [response]).

(** [get_roadmap].  An [HTTPException] is an [Exception]: the one raised
    for a missing user is caught by the handler like any other. *)
Definition get_roadmap (construct : result Planner) (user_id : string)
    (_planner : option Planner) : outcome * option Planner :=
  let '(planner, _planner) := get_planner construct _planner in
  (match
     (planner ← planner;
      user_state ← get_user_state planner user_id;
      match user_state with
      | None =>
          Raise (MkExn (OtherError "HTTPException")
                   (str_http_exception 404
                      ("User " +:+ user_id +:+ " not found")))
      | Some user_state =>
          result ← PlannerCore.roadmap (neo4j planner) user_state;
          goals ← for_each goal_data_body (Out.goals result) [];
          Ok {| user_id := user_id;
                generated_at := utcnow;
                total_goals := length goals;
                goals := goals |}
      end)
   with
   | Ok response => Response response
   | Raise e => HTTPError 500 (exn_msg e)
   end,
   _planner).

End Endpoint.

End Api.

(** ** Statements about the endpoint *)

(** The planner a request works with: the one the module holds, or the one
    it constructs when it holds none. *)
Definition planner_in_use (construct : result Api.Planner)
    (_planner : option Api.Planner) (planner : Api.Planner) : Prop :=
  _planner = Some planner ∨ (_planner = None ∧ construct = Ok planner).

(** No text field of the solution, or of the goal and its solutions, is
    [None]. *)
Definition complete_solution (sol : Out.solution_dict) : Prop :=
  is_Some (Out.solution_id sol) ∧ is_Some (Out.solution_name sol) ∧
  is_Some (Out.solution_description sol).

Definition complete_goal (goal_data : Out.goal_dict) : Prop :=
  is_Some (Out.goal_id goal_data) ∧ is_Some (Out.goal_name goal_data) ∧
  is_Some (Out.goal_phase goal_data) ∧ is_Some (Out.goal_description goal_data) ∧
  Forall complete_solution (Out.solutions goal_data).

(** The response solution mirrors the solution of the roadmap, except for
    its count of claims. *)
Definition mirrors_solution (response : Api.SolutionResponse)
    (sol : Out.solution_dict) : Prop :=
  Out.solution_id sol = Some (Api.solution_id response) ∧
  Out.solution_name sol = Some (Api.solution_name response) ∧
  Out.solution_description sol = Some (Api.solution_description response) ∧
  Api.strategy_ranking response = Out.strategy_ranking sol ∧
  Api.user_rationale response = Out.user_rationale sol.

Definition mirrors_goal (response : Api.GoalResponse)
    (goal_data : Out.goal_dict) : Prop :=
  Out.goal_id goal_data = Some (Api.goal_id response) ∧
  Out.goal_name goal_data = Some (Api.goal_name response) ∧
  Out.goal_phase goal_data = Some (Api.goal_phase response) ∧
  Out.goal_description goal_data = Some (Api.goal_description response) ∧
  Forall2 mirrors_solution (Api.solutions response) (Out.solutions goal_data).

(** Stand-ins for the environment of a request. *)
Definition sample_validation_error (model : string) (fields : list string)
  : string :=
  "validation errors for " +:+ model.

Definition sample_str_http_exception (status_code : nat) (detail : string)
  : string :=
  detail.

Definition sample_clock : string := "2025-09-10T08:00:00.000000".

Definition sample_planner : Api.Planner :=
  {| Api.neo4j := sample_neo4j;
     Api.get_user_state := fun user_id =>
       if String.eqb user_id "u_test_123" then Ok (Some sample_user_state)
       else Ok None |}.



(** The response to the sample user's request over the sample catalog. *)
Definition sample_response : Api.RoadmapResponse :=
  {| Api.user_id := "u_test_123";
     Api.generated_at := sample_clock;
     Api.total_goals := 2;
     Api.goals :=
       [ {| Api.goal_id := "goal_bank_account";
            Api.goal_name := "Open a bank account";
            Api.goal_phase := "ARRIVE";
            Api.goal_description := "";
            Api.solutions :=
              [ {| Api.solution_id := "sol_online_bank";
                   Api.solution_name := "Online Bank";
                   Api.solution_description := "";
                   Api.strategy_ranking := 0;
                   Api.user_rationale := "Online banks open accounts faster";
                   Api.assessed_claims_count := 0 |};
                {| Api.solution_id := "sol_chase_checking";
                   Api.solution_name := "Chase Checking";
                   Api.solution_description := "";
                   Api.strategy_ranking := 1;
                   Api.user_rationale := "Online banks open accounts faster";
                   Api.assessed_claims_count := 0 |} ] |};
         {| Api.goal_id := "goal_credit_card";
            Api.goal_name := "Get a credit card";
            Api.goal_phase := "BUILD";
            Api.goal_description := "";
            Api.solutions :=
              [ {| Api.solution_id := "sol_secured_card";
                   Api.solution_name := "Secured Card";
                   Api.solution_description := "";
                   Api.strategy_ranking := 0;
                   Api.user_rationale :=
                     "Strategy data not available - using default ranking";
                   Api.assessed_claims_count := 0 |} ] |} ] |}.
(** * Theorems *)

#[local] Arguments truthy : simpl never.
#[local] Arguments String.eqb : simpl never.

Lemma truthy_Some (s : string) : truthy (Some s) = true ↔ s ≠ "".
Proof.
  unfold truthy. rewrite negb_true_iff.
  destruct (String.eqb_spec s ""); split; congruence.
Qed.

Lemma truthy_true (v : option string) :
  truthy v = true ↔ ∃ s, v = Some s ∧ s ≠ "".
Proof.
  destruct v as [s|].
  - rewrite truthy_Some. split; [eauto | intros (? & [= <-] & ?); done].
  - split; [done | intros (? & ? & ?); done].
Qed.

Lemma provider_not_required : "provider" ∉ ScopeValidator.REQUIRED_SCOPE_TYPES.
Proof. vm_compute. intros H. discriminate H. Qed.

Module ScopeValidatorFacts.
Import ScopeValidator.

Lemma scope_is_viable_eq_loop us cs : is_viable us cs = is_viable_loop us cs.
Proof. by destruct cs. Qed.

(** One iteration of the loop, by the kind of constraint it meets. *)
Lemma is_viable_loop_skip us c cs :
  truthy (py_get c "scope_type") = false ∨ truthy (py_get c "value") = false →
  is_viable_loop us (c :: cs) = is_viable_loop us cs.
Proof. simpl. by intros [-> | ->]; rewrite ?orb_true_r. Qed.

Lemma is_viable_loop_binding us c cs t v :
  binding_constraint c t v →
  is_viable_loop us (c :: cs) =
    bool_decide (us !! t = Some v) && is_viable_loop us cs.
Proof.
  intros (Ht & Hv & Htne & Hvne & Hreq). simpl. rewrite Ht, Hv. simpl.
  apply truthy_Some in Htne as ->. apply truthy_Some in Hvne as Hvt.
  rewrite Hvt. simpl.
  assert (bool_decide (t ∈ OPTIONAL_SCOPE_TYPES) = false) as ->.
  { apply bool_decide_eq_false. unfold OPTIONAL_SCOPE_TYPES.
    rewrite elem_of_singleton. intros ->. by apply provider_not_required. }
  rewrite (bool_decide_eq_true_2 _ Hreq).
  destruct (us !! t) as [u|] eqn:Hu; simpl.
  - destruct (decide (u = v)) as [-> | Hne].
    + rewrite Hvt. simpl. by rewrite !bool_decide_eq_true_2.
    + rewrite (bool_decide_eq_false_2 (Some u = Some v)) by congruence.
      simpl. by destruct (negb (truthy (Some u))).
  - done.
Qed.

Lemma is_viable_loop_not_binding us c cs :
  (∀ t v, ¬ binding_constraint c t v) →
  is_viable_loop us (c :: cs) = is_viable_loop us cs.
Proof.
  intros Hnb. simpl.
  destruct (truthy (py_get c "scope_type")) eqn:Ht; [|done].
  destruct (truthy (py_get c "value")) eqn:Hv; [|done]. simpl.
  apply truthy_true in Ht as (t & Ht & Htne).
  apply truthy_true in Hv as (v & Hv & Hvne).
  rewrite Ht. simpl. case_bool_decide; [done|].
  case_bool_decide as Hreq; [|done].
  destruct (Hnb t v). by repeat split.
Qed.

Lemma binding_or_not c :
  (∃ t v, binding_constraint c t v) ∨ (∀ t v, ¬ binding_constraint c t v).
Proof.
  unfold binding_constraint.
  destruct (py_get c "scope_type") as [t|]; [|right; intros t v (? & _); done].
  destruct (py_get c "value") as [v|]; [|right; intros t' v (_ & ? & _); done].
  destruct (decide (t ≠ "" ∧ v ≠ "" ∧ t ∈ REQUIRED_SCOPE_TYPES)) as [H|H].
  - left. exists t, v. tauto.
  - right. intros t' v' ([= ->] & [= ->] & ?). tauto.
Qed.

Lemma is_viable_loop_true_iff us cs :
  is_viable_loop us cs = true ↔
  ∀ c t v, c ∈ cs → binding_constraint c t v → user_matches us t v.
Proof.
  induction cs as [|c cs IH].
  - split; [|done]. intros _ c t v Hc. by apply elem_of_nil in Hc.
  - destruct (binding_or_not c) as [(t & v & Hb) | Hnb].
    + rewrite (is_viable_loop_binding _ _ _ _ _ Hb), andb_true_iff,
        bool_decide_eq_true, IH.
      split.
      * intros [Hu Hrest] c' t' v' [-> | Hin]%elem_of_cons Hb'; [|eauto].
        destruct Hb as (Ht & Hv & _ & Hvne & _), Hb' as (Ht' & Hv' & _).
        rewrite Ht in Ht'. rewrite Hv in Hv'. simplify_eq. by exists v'.
      * intros Hall. split.
        -- destruct (Hall c t v) as (u & ? & ? & ->); [left | done | done].
        -- intros c' t' v' Hin. apply Hall. by right.
    + rewrite (is_viable_loop_not_binding _ _ _ Hnb), IH. split.
      * intros Hrest c' t' v' [-> | Hin]%elem_of_cons Hb'; [|eauto].
        by destruct (Hnb t' v').
      * intros Hall c' t' v' Hin. apply Hall. by right.
Qed.

Lemma get_missing_scopes_nil_iff us cs :
  get_missing_scopes us cs = [] ↔ is_viable_loop us cs = true.
Proof.
  induction cs as [|c cs IH]; [done|]. simpl.
  destruct (negb (truthy (py_get c "scope_type")) ||
            negb (truthy (py_get c "value"))); [done|].
  destruct (py_in (py_get c "scope_type") OPTIONAL_SCOPE_TYPES); [done|].
  destruct (py_in (py_get c "scope_type") REQUIRED_SCOPE_TYPES); [|done].
  destruct (negb (truthy (py_get c "scope_type" ≫= (us !!.)))); [done|].
  simpl.
  by destruct (negb (bool_decide
                 (py_get c "scope_type" ≫= (us !!.) = py_get c "value"))).
Qed.

End ScopeValidatorFacts.

(** C2.  [ScopeValidator.is_viable] holds exactly when every constraint
    that carries a non-empty [scope_type] among the seven required
    dimensions and a non-empty [value] finds the user with a non-empty value
    for that dimension equal to the constraint's.  In particular the empty
    list is viable, a list of provider constraints is viable, and a
    constraint whose [scope_type] or [value] is missing or empty is skipped. *)
Theorem scope_is_viable_characterisation
    (user_scopes : gmap string string)
    (claim_scopes : list (gmap string (option string))) :
  (ScopeValidator.is_viable user_scopes claim_scopes = true ↔
     ∀ c t v, c ∈ claim_scopes → binding_constraint c t v →
              user_matches user_scopes t v)
  ∧ ScopeValidator.is_viable user_scopes [] = true
  ∧ ((∀ c, c ∈ claim_scopes → py_get c "scope_type" = Some "provider") →
     ScopeValidator.is_viable user_scopes claim_scopes = true)
  ∧ (∀ c, truthy (py_get c "scope_type") = false ∨
          truthy (py_get c "value") = false →
          ScopeValidator.is_viable user_scopes (c :: claim_scopes)
          = ScopeValidator.is_viable user_scopes claim_scopes).
Proof.
  rewrite !ScopeValidatorFacts.scope_is_viable_eq_loop.
  split; [apply ScopeValidatorFacts.is_viable_loop_true_iff|].
  split; [done|]. split.
  - intros Hprov. apply ScopeValidatorFacts.is_viable_loop_true_iff.
    intros c t v Hc (Ht & _ & _ & _ & Hreq).
    rewrite (Hprov c Hc) in Ht. injection Ht as <-.
    by destruct provider_not_required.
  - intros c Hc. rewrite !ScopeValidatorFacts.scope_is_viable_eq_loop.
    by apply ScopeValidatorFacts.is_viable_loop_skip.
Qed.

(** C9.  The gate and the diagnostic query agree: [is_viable] holds exactly
    when [get_missing_scopes] returns the empty list. *)
Theorem scope_is_viable_iff_no_missing_scopes
    (user_scopes : gmap string string)
    (claim_scopes : list (gmap string (option string))) :
  ScopeValidator.is_viable user_scopes claim_scopes = true ↔
  ScopeValidator.get_missing_scopes user_scopes claim_scopes = [].
Proof.
  rewrite ScopeValidatorFacts.scope_is_viable_eq_loop.
  symmetry. apply ScopeValidatorFacts.get_missing_scopes_nil_iff.
Qed.


(** ** The requirement gate *)

Lemma string_app_assoc (a b c : string) : (a +:+ b) +:+ c = a +:+ b +:+ c.
Proof.
  induction a as [|x a IH]; [done|].
  change (String x ((a +:+ b) +:+ c) = String x (a +:+ b +:+ c)).
  by rewrite IH.
Qed.

Lemma contains_app_r (p t s : string) : contains t s → contains (p +:+ t) s.
Proof.
  intros (a & b & ->). exists (p +:+ a), b. by rewrite string_app_assoc.
Qed.

Lemma contains_refl_prefix (s post : string) : contains (s +:+ post) s.
Proof. by exists "", post. Qed.

Module RequirementCheckerFacts.
Import RequirementChecker.

Lemma requirement_is_viable_eq_loop uf reqs : is_viable uf reqs = is_viable_loop uf reqs.
Proof.
  unfold is_viable, try_except. destruct reqs as [|r reqs]; [done|].
  by destruct (is_viable_loop uf (r :: reqs)).
Qed.

Lemma not_tracked_message_contains n i :
  contains (not_tracked_message n i) "not tracked in user facts".
Proof.
  unfold not_tracked_message. do 4 apply contains_app_r.
  by exists ") ", " - system error".
Qed.

Lemma is_viable_loop_satisfied uf r reqs :
  satisfied uf r → is_viable_loop uf (r :: reqs) = is_viable_loop uf reqs.
Proof.
  intros [Hskip | (i & Hid & Hi)]; simpl.
  - by rewrite Hskip.
  - rewrite Hid. destruct (truthy (Some i)); [|done]. simpl. by rewrite Hi.
Qed.

Lemma is_viable_loop_app uf pre rest :
  Forall (satisfied uf) pre →
  is_viable_loop uf (pre ++ rest) = is_viable_loop uf rest.
Proof.
  induction 1 as [|r pre Hr _ IH]; [done|].
  by rewrite <- app_comm_cons, is_viable_loop_satisfied.
Qed.

Lemma is_viable_loop_not_have uf r reqs (i st : string) :
  py_get r "id" = Some i → i ≠ "" → uf !! i = Some st → st ≠ "have" →
  is_viable_loop uf (r :: reqs) = Ok false.
Proof.
  intros Hid Hne Hi Hst. simpl. rewrite Hid.
  apply truthy_Some in Hne as ->. simpl. rewrite Hi.
  by destruct (String.eqb_spec st "have").
Qed.

Lemma is_viable_loop_untracked uf r reqs (i : string) :
  py_get r "id" = Some i → i ≠ "" → uf !! i = None →
  is_viable_loop uf (r :: reqs) =
    raise_Exception
      (not_tracked_message (py_get_default r "name" (Some i)) (Some i)).
Proof.
  intros Hid Hne Hi. simpl. rewrite Hid.
  apply truthy_Some in Hne as ->. simpl. by rewrite Hi.
Qed.

(** The three outcomes are exhaustive: either every requirement lets the
    loop pass, or there is a first one that stops it. *)
Lemma satisfied_or_first_unsatisfied uf reqs :
  Forall (satisfied uf) reqs ∨
  ∃ pre r post (i : string),
    reqs = pre ++ r :: post ∧ Forall (satisfied uf) pre ∧
    py_get r "id" = Some i ∧ i ≠ "" ∧ uf !! i ≠ Some "have".
Proof.
  induction reqs as [|r reqs IH]; [by left|].
  assert (satisfied uf r ∨
          ∃ i : string, py_get r "id" = Some i ∧ i ≠ "" ∧ uf !! i ≠ Some "have")
    as [Hr | (i & Hid & Hne & Hi)].
  { unfold satisfied. destruct (truthy (py_get r "id")) eqn:Ht; [|by left; left].
    apply truthy_true in Ht as (i & Hid & Hne).
    destruct (decide (uf !! i = Some "have")); [left; right | right]; eauto. }
  - destruct IH as [Hall | (pre & r' & post & i & -> & Hpre & ?)].
    + left. by constructor.
    + right. exists (r :: pre), r', post, i. split; [done|].
      split; [by constructor | done].
  - right. by exists [], r, reqs, i.
Qed.

End RequirementCheckerFacts.

(** C1, as stated, fails on lists that mix the two failures: with a needed
    requirement before an untracked one the call returns [False] although an
    id is absent from the facts, and in the other order it raises although
    an id maps to ["need"]. *)
Lemma requirement_is_viable_mixed_failures :
  (some_untracked sample_user_facts need_then_untracked ∧
   RequirementChecker.is_viable sample_user_facts need_then_untracked = Ok false)
  ∧
  (some_need_or_blocked sample_user_facts untracked_then_need ∧
   raises_not_tracked
     (RequirementChecker.is_viable sample_user_facts untracked_then_need)).
Proof.
  split; split.
  - exists (requirement "req_unknown" "Unknown Requirement"), "req_unknown".
    split; [by right; left | by vm_compute].
  - by vm_compute.
  - exists (requirement "req_itin" "Individual Taxpayer ID"), "req_itin".
    split; [by right; left | vm_compute; auto].
  - eexists. split; [by vm_compute|].
    apply (RequirementCheckerFacts.not_tracked_message_contains
             (Some "Unknown Requirement") (Some "req_unknown")).
Qed.

(** C1, amended.  The outcome of [RequirementChecker.is_viable] is decided by
    the first requirement, in list order, that has a non-empty id not mapped
    to ["have"]: with no such requirement (so for the empty list, and when
    every id maps to ["have"]) it returns [True]; when that id maps to
    another status it returns [False]; when that id is absent from the facts
    it raises the "not tracked in user facts" failure.  Requirements whose
    id is missing or empty are skipped. *)
Theorem requirement_is_viable_first_unsatisfied
    (user_facts : gmap string string)
    (requirements : list (gmap string (option string))) :
  (Forall (satisfied user_facts) requirements →
   RequirementChecker.is_viable user_facts requirements = Ok true)
  ∧ (∀ pre r post (i st : string),
       requirements = pre ++ r :: post → Forall (satisfied user_facts) pre →
       py_get r "id" = Some i → i ≠ "" →
       user_facts !! i = Some st → st ≠ "have" →
       RequirementChecker.is_viable user_facts requirements = Ok false)
  ∧ (∀ pre r post (i : string),
       requirements = pre ++ r :: post → Forall (satisfied user_facts) pre →
       py_get r "id" = Some i → i ≠ "" → user_facts !! i = None →
       RequirementChecker.is_viable user_facts requirements =
         raise_Exception
           (RequirementChecker.not_tracked_message
              (py_get_default r "name" (Some i)) (Some i))
       ∧ raises_not_tracked
           (RequirementChecker.is_viable user_facts requirements))
  ∧ RequirementChecker.is_viable user_facts [] = Ok true
  ∧ (all_have user_facts requirements →
     RequirementChecker.is_viable user_facts requirements = Ok true)
  ∧ (Forall (satisfied user_facts) requirements ∨
     ∃ pre r post (i : string),
       requirements = pre ++ r :: post ∧ Forall (satisfied user_facts) pre ∧
       py_get r "id" = Some i ∧ i ≠ "" ∧ user_facts !! i ≠ Some "have").
Proof.
  assert (Hall : Forall (satisfied user_facts) requirements →
                 RequirementChecker.is_viable user_facts requirements = Ok true).
  { intros H. rewrite RequirementCheckerFacts.requirement_is_viable_eq_loop.
    rewrite <- (app_nil_r requirements).
    by rewrite RequirementCheckerFacts.is_viable_loop_app. }
  split; [done|]. split; [|split; [|split; [|split]]].
  - intros pre r post i st -> Hpre Hid Hne Hi Hst.
    rewrite RequirementCheckerFacts.requirement_is_viable_eq_loop,
      RequirementCheckerFacts.is_viable_loop_app by done.
    by eapply RequirementCheckerFacts.is_viable_loop_not_have.
  - intros pre r post i -> Hpre Hid Hne Hi.
    rewrite RequirementCheckerFacts.requirement_is_viable_eq_loop,
      RequirementCheckerFacts.is_viable_loop_app by done.
    rewrite (RequirementCheckerFacts.is_viable_loop_untracked _ _ _ i) by done.
    split; [done|]. eexists. split; [done|].
    apply RequirementCheckerFacts.not_tracked_message_contains.
  - done.
  - intros H. apply Hall. apply Forall_forall. intros r Hr.
    destruct (H r Hr) as (i & ? & ?). right. eauto.
  - apply RequirementCheckerFacts.satisfied_or_first_unsatisfied.
Qed.

(** The amended statement at the facts of the repository's tests: two
    satisfied requirements pass, a needed one after a satisfied one fails,
    and an untracked one after a satisfied one raises. *)
Lemma requirement_is_viable_first_unsatisfied_witness :
  RequirementChecker.is_viable sample_user_facts
    [ requirement "req_ssn" "Social Security Number";
      requirement "req_address_proof" "Proof of Address" ] = Ok true
  ∧ RequirementChecker.is_viable sample_user_facts
      ([ requirement "req_ssn" "Social Security Number" ] ++
       requirement "req_itin" "Individual Taxpayer ID" ::
       [ requirement "req_unknown" "Unknown Requirement" ]) = Ok false
  ∧ raises_not_tracked
      (RequirementChecker.is_viable sample_user_facts
         ([ requirement "req_ssn" "Social Security Number" ] ++
          requirement "req_unknown" "Unknown Requirement" ::
          [ requirement "req_itin" "Individual Taxpayer ID" ])).
Proof.
  assert (Hssn : satisfied sample_user_facts
                   (requirement "req_ssn" "Social Security Number")).
  { right. by exists "req_ssn". }
  split; [|split].
  - apply (proj1 (requirement_is_viable_first_unsatisfied _ _)).
    constructor; [done|]. constructor; [|constructor].
    right. by exists "req_address_proof".
  - eapply (proj1 (proj2 (requirement_is_viable_first_unsatisfied _ _)));
      [reflexivity | by constructor | reflexivity | done
      | by vm_compute | done].
  - eapply (proj1 (proj2 (proj2 (requirement_is_viable_first_unsatisfied _ _))));
      [reflexivity | by constructor | reflexivity | done
      | by vm_compute].
Defined.

(** ** Python list operations *)

Lemma list_index_Some (l : list (option string)) (x : option string) (i : nat) :
  list_index l x = Some i ↔ l !! i = Some x ∧ ∀ j, j < i → l !! j ≠ Some x.
Proof.
  revert i. induction l as [|y l IH]; intros i; simpl.
  - split; [done | by intros [? _]].
  - case_bool_decide as Hy.
    + subst y. split.
      * intros [= <-]. split; [done | lia].
      * intros [Hi Hfirst]. destruct i as [|i]; [done|].
        by destruct (Hfirst 0); [lia|].
    + destruct i as [|i].
      * split; [by destruct (list_index l x) | intros [[= ?] _]; done].
      * split.
        -- intros H.
           assert (list_index l x = Some i) as Hk
             by (destruct (list_index l x); by simplify_eq/=).
           apply IH in Hk as [Hi Hfirst]. split; [done|].
           intros [|j] ?; simpl; [congruence | apply Hfirst; lia].
        -- intros [Hi Hfirst].
           assert (list_index l x = Some i) as ->; [|done].
           apply IH. split; [done|]. intros j ?. apply (Hfirst (S j)). lia.
Qed.

Lemma list_index_None (l : list (option string)) (x : option string) :
  list_index l x = None ↔ x ∉ l.
Proof.
  induction l as [|y l IH]; simpl.
  - split; [intros _; apply not_elem_of_nil | done].
  - rewrite not_elem_of_cons. case_bool_decide as Hy.
    + split; [done | intros [? _]; congruence].
    + destruct (list_index l x); simpl.
      * split; [done | intros [_ Hx]]. by apply IH in Hx.
      * split; [intros _; split; [congruence | by apply IH] | done].
Qed.

Lemma insert_by_key_perm {A} (key : A → nat) x l :
  insert_by_key key x l ≡ₚ x :: l.
Proof.
  induction l as [|y l IH]; simpl; [done|].
  destruct (key x <=? key y)%nat; [done|]. by rewrite IH, Permutation_swap.
Qed.

Lemma sort_by_key_perm {A} (key : A → nat) l : sort_by_key key l ≡ₚ l.
Proof.
  induction l as [|x l IH]; simpl; [done|]. by rewrite insert_by_key_perm, IH.
Qed.

Lemma insert_by_key_sorted {A} (key : A → nat) x l :
  Sorted le (key <$> l) → Sorted le (key <$> insert_by_key key x l).
Proof.
  induction l as [|y l IH]; simpl; intros Hs.
  - by repeat constructor.
  - destruct (Nat.leb_spec (key x) (key y)); simpl.
    + constructor; [done|]. by constructor.
    + apply Sorted_inv in Hs as [Hs Hhd]. constructor; [by apply IH|].
      destruct l as [|z l]; simpl in *.
      * constructor. lia.
      * destruct (key x <=? key z)%nat; constructor; [lia|].
        by apply HdRel_inv in Hhd.
Qed.

Lemma sort_by_key_sorted {A} (key : A → nat) l :
  Sorted le (key <$> sort_by_key key l).
Proof.
  induction l as [|x l IH]; simpl; [constructor|]. by apply insert_by_key_sorted.
Qed.

(** Stability: elements of equal key keep their relative order. *)
Lemma insert_by_key_stable {A} (key : A → nat) (k : nat) x l :
  Sorted le (key <$> l) →
  filter (λ y, key y = k) (insert_by_key key x l)
  = filter (λ y, key y = k) (x :: l).
Proof.
  induction l as [|y l IH]; simpl; intros Hs; [done|].
  destruct (Nat.leb_spec (key x) (key y)) as [Hle | Hlt]; [done|].
  apply Sorted_inv in Hs as [Hs Hhd].
  rewrite !filter_cons, IH by done. rewrite !filter_cons.
  repeat case_decide; try done; lia.
Qed.

Lemma sort_by_key_stable {A} (key : A → nat) (k : nat) l :
  filter (λ y, key y = k) (sort_by_key key l) = filter (λ y, key y = k) l.
Proof.
  induction l as [|x l IH]; simpl; [done|].
  rewrite insert_by_key_stable by apply sort_by_key_sorted.
  by rewrite !filter_cons, IH.
Qed.

Lemma sort_by_key_constant {A} (key : A → nat) (k : nat) l :
  Forall (λ y, key y = k) l → sort_by_key key l = l.
Proof.
  induction 1 as [|x l Hx Hl IH]; simpl; [done|]. rewrite IH.
  destruct Hl as [|y l Hy _]; simpl; [done|].
  by rewrite Hx, Hy, Nat.leb_refl.
Qed.

Lemma sort_by_key_nil_inv {A} (key : A → nat) l : sort_by_key key l = [] → l = [].
Proof.
  intros H. apply Permutation_nil. by rewrite <- H, sort_by_key_perm.
Qed.

(** ** Loops *)

Lemma bind_Ok_inv {A B} (m : result A) (k : A → result B) (b : B) :
  (x ← m; k x) = Ok b → ∃ a, m = Ok a ∧ k a = Ok b.
Proof. destruct m as [a|e]; [by exists a | done]. Qed.

Lemma bind_Raise_inv {A B} (m : result A) (k : A → result B) (e : exn) :
  (x ← m; k x) = Raise e → m = Raise e ∨ ∃ a, m = Ok a ∧ k a = Raise e.
Proof.
  destruct m as [a|e']; simpl; [right; by exists a | left; congruence].
Qed.

Lemma for_each_app {A S} (body : A → S → result S) xs ys s :
  for_each body (xs ++ ys) s = (s' ← for_each body xs s; for_each body ys s').
Proof.
  revert s. induction xs as [|x xs IH]; intros s; simpl; [done|].
  destruct (body x s) as [s'|e]; simpl; [apply IH | done].
Qed.

(** The invariant rule of the loop. *)
Lemma for_each_invariant {A S} (P : S → Prop) (body : A → S → result S) xs s s' :
  P s →
  (∀ x t t', x ∈ xs → P t → body x t = Ok t' → P t') →
  for_each body xs s = Ok s' → P s'.
Proof.
  revert s. induction xs as [|x xs IH]; intros s Hs Hbody; simpl.
  - by intros [= <-].
  - intros (t & Hx & Hrest)%bind_Ok_inv. eapply IH; [| |done].
    + eapply Hbody; [left | done..].
    + intros y u u' Hy. apply Hbody. by right.
Qed.

Lemma for_each_appending {A B} (body : A → list B → result (list B)) xs acc :
  appending body →
  for_each body xs acc = (items ← for_each body xs []; Ok (acc ++ items)).
Proof.
  intros Happ. revert acc. induction xs as [|x xs IH]; intros acc; simpl.
  - by rewrite app_nil_r.
  - rewrite (Happ x acc). destruct (body x []) as [items|e]; simpl; [|done].
    rewrite (IH (acc ++ items)), (IH items).
    destruct (for_each body xs []) as [more|e]; simpl; [|done].
    by rewrite app_assoc.
Qed.

Lemma for_each_cons_appending {A B} (body : A → list B → result (list B)) x xs :
  appending body →
  for_each body (x :: xs) [] =
    (items ← body x []; more ← for_each body xs []; Ok (items ++ more)).
Proof.
  intros Happ. simpl. destruct (body x []) as [items|e]; simpl; [|done].
  by rewrite (for_each_appending body xs items).
Qed.

(** An element whose body raises makes the loop raise. *)
Lemma for_each_raises {A B} (body : A → list B → result (list B)) xs x e :
  appending body → x ∈ xs → body x [] = Raise e →
  ∃ e', for_each body xs [] = Raise e'.
Proof.
  intros Happ Hx Hraise. induction xs as [|y xs IH]; [by apply elem_of_nil in Hx|].
  rewrite for_each_cons_appending by done.
  apply elem_of_cons in Hx as [<- | Hx].
  - rewrite Hraise. by eexists.
  - destruct (body y []) as [items|e1]; simpl; [|by eexists].
    destruct (IH Hx) as [e' ->]. by eexists.
Qed.

(** The first element whose body raises decides the exception. *)
Lemma for_each_first_raise {A B} (body : A → list B → result (list B))
    pre x post acc e :
  appending body → for_each body pre [] = Ok acc → body x [] = Raise e →
  for_each body (pre ++ x :: post) [] = Raise e.
Proof.
  intros Happ Hpre Hx. rewrite for_each_app, Hpre. simpl.
  by rewrite (Happ x acc), Hx.
Qed.

(** When the loop completes, it has completed on every element, and what
    the element appended is part of the result. *)
Lemma for_each_Ok_elem {A B} (body : A → list B → result (list B)) xs x all :
  appending body → for_each body xs [] = Ok all → x ∈ xs →
  ∃ items, body x [] = Ok items ∧ items ⊆ all.
Proof.
  intros Happ. revert all. induction xs as [|y xs IH]; intros all Hall Hx;
    [by apply elem_of_nil in Hx|].
  rewrite for_each_cons_appending in Hall by done.
  apply bind_Ok_inv in Hall as (items & Hy & Hall).
  apply bind_Ok_inv in Hall as (more & Hxs & [= <-]).
  apply elem_of_cons in Hx as [-> | Hx].
  - exists items. split; [done|]. set_solver.
  - destruct (IH more Hxs Hx) as (items' & ? & ?). exists items'.
    split; [done|]. set_solver.
Qed.

Lemma for_each_Ok_origin {A B} (body : A → list B → result (list B)) xs all b :
  appending body → for_each body xs [] = Ok all → b ∈ all →
  ∃ x items, x ∈ xs ∧ body x [] = Ok items ∧ b ∈ items.
Proof.
  intros Happ. revert all. induction xs as [|y xs IH]; intros all Hall Hb.
  - injection Hall as <-. by apply elem_of_nil in Hb.
  - rewrite for_each_cons_appending in Hall by done.
    apply bind_Ok_inv in Hall as (items & Hy & Hall).
    apply bind_Ok_inv in Hall as (more & Hxs & [= <-]).
    apply elem_of_app in Hb as [Hb | Hb].
    + exists y, items. split; [left | done].
    + destruct (IH more Hxs Hb) as (x & items' & ? & ? & ?).
      exists x, items'. split; [by right | done].
Qed.

(** ** The roadmap's loops *)

Module PlannerCoreFacts.
Import PlannerCore.

Section Loops.

Variable neo4j : PlannerNeo4j.
Variable user_state : UserState.t.

Lemma claim_body_appending : appending (claim_body neo4j user_state).
Proof.
  intros claim_id acc. unfold claim_body.
  destruct (get_complete_graphlet neo4j claim_id) as [[g|]|e]; simpl;
    rewrite ?app_nil_r; try done.
  destruct (ScopeValidator.is_viable _ _); simpl; rewrite ?app_nil_r; [|done].
  destruct (RequirementChecker.is_viable _ _) as [[]|e]; simpl;
    by rewrite ?app_nil_r.
Qed.

(** What one claim contributes: its graphlet when it passes both gates. *)
Lemma claim_body_Ok claim_id items :
  claim_body neo4j user_state claim_id [] = Ok items →
  items = [] ∨
  ∃ g, items = [g] ∧
       get_complete_graphlet neo4j claim_id = Ok (Some g) ∧
       ScopeValidator.is_viable (UserState.scopes user_state)
         (Graphlet.scopes g) = true ∧
       RequirementChecker.is_viable (UserState.facts user_state)
         (Graphlet.requirements g) = Ok true.
Proof.
  unfold claim_body.
  destruct (get_complete_graphlet neo4j claim_id) as [[g|]|e]; simpl;
    [|by intros [= <-]; left | done].
  destruct (ScopeValidator.is_viable _ _) eqn:Hscope; simpl;
    [|by intros [= <-]; left].
  destruct (RequirementChecker.is_viable _ _) as [[]|e] eqn:Hreq; simpl;
    [|by intros [= <-]; left | done].
  intros [= <-]. right. by exists g.
Qed.

Lemma claim_body_requirement_raises claim_id g e :
  get_complete_graphlet neo4j claim_id = Ok (Some g) →
  ScopeValidator.is_viable (UserState.scopes user_state)
    (Graphlet.scopes g) = true →
  RequirementChecker.is_viable (UserState.facts user_state)
    (Graphlet.requirements g) = Raise e →
  claim_body neo4j user_state claim_id [] = Raise e.
Proof. intros Hg Hs Hr. unfold claim_body. rewrite Hg. simpl. by rewrite Hs, Hr. Qed.

Lemma solution_body_eq goal_id solution acc :
  solution_body neo4j user_state goal_id solution acc =
    (viable_claims ← viable_claims_of neo4j user_state solution;
     match viable_claims with
     | [] => Ok acc
     | _ =>
         strategy_data ← get_strategy_for_goal neo4j goal_id;
         Ok (acc ++ [solution_data_of solution viable_claims strategy_data])
     end).
Proof.
  unfold solution_body, viable_claims_of.
  destruct (get_assessed_claims_for_solution neo4j (Solution.id solution))
    as [[|c cs]|e]; simpl; [done| |done].
  destruct (claim_body neo4j user_state c [] ≫= _) as [[|g gs]|e']; simpl;
    [done| |done].
  by destruct (get_strategy_for_goal neo4j goal_id) as [[d|]|e'].
Qed.

Lemma solution_body_appending goal_id :
  appending (solution_body neo4j user_state goal_id).
Proof.
  intros solution acc. rewrite !solution_body_eq.
  destruct (viable_claims_of neo4j user_state solution) as [[|g gs]|e]; simpl;
    rewrite ?app_nil_r; try done.
  by destruct (get_strategy_for_goal neo4j goal_id) as [d|e].
Qed.

Lemma goal_body_eq goal acc :
  goal_body neo4j user_state goal acc =
    (solutions ← get_solutions_for_goal neo4j (Goal.id goal);
     viable_solutions ←
       for_each (solution_body neo4j user_state (Goal.id goal)) solutions [];
     match viable_solutions with
     | [] => Ok acc
     | _ => Ok (acc ++ [goal_data_of goal viable_solutions])
     end).
Proof.
  unfold goal_body.
  by destruct (get_solutions_for_goal neo4j (Goal.id goal)) as [[|s ss]|e].
Qed.

Lemma goal_body_appending : appending (goal_body neo4j user_state).
Proof.
  intros goal acc. rewrite !goal_body_eq.
  destruct (get_solutions_for_goal neo4j (Goal.id goal)) as [ss|e]; simpl;
    [|done].
  destruct (for_each _ ss []) as [[|d ds]|e]; simpl; by rewrite ?app_nil_r.
Qed.

(** The roadmap, by the outcome of its two steps. *)
Lemma roadmap_eq :
  roadmap neo4j user_state =
    match get_goals_by_phase neo4j None with
    | Raise e => roadmap_failure (exn_msg e)
    | Ok [] =>
        roadmap_failure
          "No goals found in database - system not properly initialized"
    | Ok all_goals =>
        match for_each (goal_body neo4j user_state) all_goals [] with
        | Raise e => roadmap_failure (exn_msg e)
        | Ok viable_goals =>
            Ok {| Out.user_id := UserState.user_id user_state;
                  Out.generated_at := "2025-09-09T16:27:00Z";
                  Out.total_goals := length viable_goals;
                  Out.goals := map goal_dict_of viable_goals |}
        end
    end.
Proof.
  unfold roadmap, try_except, roadmap_failure.
  destruct (get_goals_by_phase neo4j None) as [[|g gs]|e]; simpl; try done.
  by destruct (goal_body neo4j user_state g [] ≫= _).
Qed.

(** The roadmap returns, or fails with the wrapped message. *)
Lemma roadmap_Ok_or_failure :
  (∃ r, roadmap neo4j user_state = Ok r) ∨
  (∃ msg, roadmap neo4j user_state = roadmap_failure msg).
Proof.
  rewrite roadmap_eq.
  destruct (get_goals_by_phase neo4j None) as [[|g gs]|e]; eauto.
  destruct (for_each _ _ _); eauto.
Qed.

Lemma roadmap_Ok_inv r :
  roadmap neo4j user_state = Ok r →
  ∃ all_goals viable_goals,
    get_goals_by_phase neo4j None = Ok all_goals ∧
    for_each (goal_body neo4j user_state) all_goals [] = Ok viable_goals ∧
    r = {| Out.user_id := UserState.user_id user_state;
           Out.generated_at := "2025-09-09T16:27:00Z";
           Out.total_goals := length viable_goals;
           Out.goals := map goal_dict_of viable_goals |}.
Proof.
  rewrite roadmap_eq.
  destruct (get_goals_by_phase neo4j None) as [[|g gs]|e]; try done.
  destruct (for_each _ _ _) as [vg|e] eqn:Hloop; [|done].
  intros [= <-]. by exists (g :: gs), vg.
Qed.

End Loops.
End PlannerCoreFacts.

(** ** Ranking *)


Lemma ranking_position_absent (R : list (option string)) (s : option string) :
  s ∉ R → PlannerCore.ranking_position R s = length R.
Proof.
  intros Hs. unfold PlannerCore.ranking_position.
  by rewrite (proj2 (list_index_None R s)).
Qed.

Lemma ranking_position_elem (R : list (option string)) (s : option string) :
  s ∈ R →
  R !! PlannerCore.ranking_position R s = Some s ∧
  ∀ j, j < PlannerCore.ranking_position R s → R !! j ≠ Some s.
Proof.
  intros Hs. unfold PlannerCore.ranking_position.
  destruct (list_index R s) as [i|] eqn:Hi.
  - by apply list_index_Some.
  - by apply list_index_None in Hi.
Qed.

(** What the solution loop appends for a solution: nothing, or the
    solution's data with the rank computed from the goal's strategy. *)
Lemma solution_body_Ok neo4j user_state goal_id solution acc acc' :
  PlannerCore.solution_body neo4j user_state goal_id solution acc = Ok acc' →
  (viable_claims_of neo4j user_state solution = Ok [] ∧ acc' = acc) ∨
  ∃ viable_claims strategy_data,
    viable_claims_of neo4j user_state solution = Ok viable_claims ∧
    viable_claims ≠ [] ∧
    get_strategy_for_goal neo4j goal_id = Ok strategy_data ∧
    acc' = acc ++ [solution_data_of solution viable_claims strategy_data].
Proof.
  rewrite PlannerCoreFacts.solution_body_eq.
  destruct (viable_claims_of neo4j user_state solution) as [[|g gs]|e]; simpl;
    [intros [= <-]; by left | | done].
  destruct (get_strategy_for_goal neo4j goal_id) as [d|e]; simpl; [|done].
  intros [= <-]. right. by exists (g :: gs), d.
Qed.


(** ** The sample catalog *)

Lemma sample_roadmap_computed :
  PlannerCore.roadmap sample_neo4j sample_user_state = Ok sample_roadmap.
Proof. vm_compute. reflexivity. Qed.

Lemma sample_roadmap_untracked :
  PlannerCore.roadmap sample_neo4j untracked_user_state =
    roadmap_failure
      "Required capability 'Passport' (req_613e1063) not tracked in user facts - system error".
Proof. vm_compute. reflexivity. Qed.

(** ** The roadmap *)

(** C10.  Whenever the roadmap is returned, its [generated_at] field is the
    constant ["2025-09-09T16:27:00Z"], whatever the user state and the
    catalog. *)
Theorem roadmap_generated_at_constant
    (neo4j : PlannerNeo4j) (user_state : UserState.t) (r : Out.roadmap_data) :
  PlannerCore.roadmap neo4j user_state = Ok r →
  Out.generated_at r = "2025-09-09T16:27:00Z".
Proof.
  intros (goals & viable_goals & _ & _ & ->)%PlannerCoreFacts.roadmap_Ok_inv.
  reflexivity.
Qed.

Lemma roadmap_generated_at_constant_witness :
  Out.generated_at sample_roadmap = "2025-09-09T16:27:00Z".
Proof.
  apply (roadmap_generated_at_constant sample_neo4j sample_user_state).
  vm_compute. reflexivity.
Defined.

(** C8.  With zero goals in the catalog the roadmap raises a failure whose
    message says that no goals were found, and returns no roadmap: the
    store method [get_goals_by_phase] raises on the empty result, and the
    planner itself raises when the method hands it an empty list. *)
Theorem roadmap_no_goals_raises
    (json_decode : string → option pyval) (driver : Neo4j.driver)
    (user_state : UserState.t) :
  Neo4j.match_all_goals driver = Ok [] →
  PlannerNeo4jImpl.get_goals_by_phase driver None =
    raise_Exception
      "Failed to get goals by phase: No goals found in database - check goal seeding"
  ∧ PlannerCore.roadmap (PlannerNeo4jImpl.planner_neo4j json_decode driver)
      user_state =
    roadmap_failure
      "Failed to get goals by phase: No goals found in database - check goal seeding"
  ∧ contains
      "Roadmap generation failed: Failed to get goals by phase: No goals found in database - check goal seeding"
      "No goals found"
  ∧ (∀ neo4j : PlannerNeo4j,
       get_goals_by_phase neo4j None = Ok [] →
       PlannerCore.roadmap neo4j user_state =
         roadmap_failure
           "No goals found in database - system not properly initialized").
Proof.
  intros Hempty.
  assert (Hget : PlannerNeo4jImpl.get_goals_by_phase driver None =
    raise_Exception
      "Failed to get goals by phase: No goals found in database - check goal seeding").
  { unfold PlannerNeo4jImpl.get_goals_by_phase. simpl. by rewrite Hempty. }
  split; [done|]. split; [|split].
  - rewrite PlannerCoreFacts.roadmap_eq. simpl. by rewrite Hget.
  - by exists "Roadmap generation failed: Failed to get goals by phase: ",
      " in database - check goal seeding".
  - intros neo4j Hnone. rewrite PlannerCoreFacts.roadmap_eq. by rewrite Hnone.
Qed.

Lemma roadmap_no_goals_raises_witness :
  PlannerCore.roadmap (PlannerNeo4jImpl.planner_neo4j no_json empty_driver)
    sample_user_state =
  roadmap_failure
    "Failed to get goals by phase: No goals found in database - check goal seeding".
Proof.
  apply (roadmap_no_goals_raises no_json empty_driver sample_user_state).
  reflexivity.
Defined.

(** The viable claims of a solution come from claims that target it and
    pass both gates. *)
Lemma viable_claims_of_origin neo4j user_state solution viable_claims g :
  viable_claims_of neo4j user_state solution = Ok viable_claims →
  g ∈ viable_claims →
  ∃ assessed_claims claim_id,
    get_assessed_claims_for_solution neo4j (Solution.id solution)
      = Ok assessed_claims ∧
    claim_id ∈ assessed_claims ∧
    passes_both_gates neo4j user_state claim_id.
Proof.
  unfold viable_claims_of.
  intros (claims & Hclaims & Hloop)%bind_Ok_inv Hg.
  destruct (for_each_Ok_origin _ _ _ _
              (PlannerCoreFacts.claim_body_appending neo4j user_state) Hloop Hg)
    as (claim_id & items & Hin & Hbody & Hitem).
  exists claims, claim_id. split; [done|]. split; [done|].
  apply PlannerCoreFacts.claim_body_Ok in Hbody
    as [-> | (g' & -> & ? & ? & ?)]; [by apply elem_of_nil in Hitem|].
  by exists g'.
Qed.

(** Every solution the solution loop collects is well formed. *)
Lemma solution_loop_well_formed neo4j user_state goal_id solutions viable d :
  for_each (PlannerCore.solution_body neo4j user_state goal_id) solutions []
    = Ok viable →
  d ∈ viable →
  well_formed_solution neo4j user_state (PlannerCore.solution_dict_of d).
Proof.
  intros Hloop Hd.
  destruct (for_each_Ok_origin _ _ _ _
              (PlannerCoreFacts.solution_body_appending neo4j user_state goal_id)
              Hloop Hd)
    as (solution & items & _ & Hbody & Hitem).
  apply solution_body_Ok in Hbody
    as [[_ ->] | (vc & sd & Hvc & Hne & _ & ->)];
    [by apply elem_of_nil in Hitem|].
  apply list_elem_of_singleton in Hitem as ->.
  destruct vc as [|g vc]; [done|]. split; [simpl; lia|].
  apply (viable_claims_of_origin _ _ _ _ g Hvc). by left.
Qed.

(** Every goal the goal loop collects is well formed. *)
Lemma goal_loop_well_formed neo4j user_state all_goals viable_goals gd :
  for_each (PlannerCore.goal_body neo4j user_state) all_goals [] = Ok viable_goals →
  gd ∈ viable_goals →
  well_formed_goal neo4j user_state (PlannerCore.goal_dict_of gd).
Proof.
  intros Hloop Hgd.
  destruct (for_each_Ok_origin _ _ _ _
              (PlannerCoreFacts.goal_body_appending neo4j user_state) Hloop Hgd)
    as (goal & items & _ & Hbody & Hitem).
  rewrite PlannerCoreFacts.goal_body_eq in Hbody.
  apply bind_Ok_inv in Hbody as (solutions & _ & Hbody).
  apply bind_Ok_inv in Hbody as (viable & Hsols & Hbody).
  destruct viable as [|d ds] eqn:Hviable;
    injection Hbody as <-; [by apply elem_of_nil in Hitem|].
  rewrite <- Hviable in *. apply list_elem_of_singleton in Hitem as ->.
  unfold well_formed_goal. simpl. repeat split.
  - intros Hnil%map_eq_nil%sort_by_key_nil_inv. congruence.
  - apply Forall_forall. intros sd (d' & -> & Hd')%list_elem_of_fmap.
    apply (solution_loop_well_formed _ _ _ _ _ _ Hsols).
    by rewrite sort_by_key_perm in Hd'.
  - rewrite map_map. apply (sort_by_key_sorted strategy_ranking).
Qed.

(** C6.  In every roadmap that is returned, each goal has at least one
    solution, each solution counts at least one claim (and one of the
    claims targeting it passes the scope gate and the requirement gate),
    and the solutions of a goal are in ascending order of
    [strategy_ranking]. *)
Theorem roadmap_goals_well_formed
    (neo4j : PlannerNeo4j) (user_state : UserState.t) (r : Out.roadmap_data) :
  PlannerCore.roadmap neo4j user_state = Ok r →
  Forall (well_formed_goal neo4j user_state) (Out.goals r).
Proof.
  intros (goals & viable_goals & _ & Hloop & ->)%PlannerCoreFacts.roadmap_Ok_inv.
  simpl. apply Forall_forall. intros g (gd & -> & Hgd)%list_elem_of_fmap.
  by apply (goal_loop_well_formed _ _ _ _ _ Hloop).
Qed.

Lemma roadmap_goals_well_formed_witness :
  Forall (well_formed_goal sample_neo4j sample_user_state)
    (Out.goals sample_roadmap).
Proof.
  apply (roadmap_goals_well_formed sample_neo4j sample_user_state).
  vm_compute. reflexivity.
Defined.

(** A raising requirement check makes the claim's solution, and then its
    goal, raise. *)
Lemma solution_body_claim_raises neo4j user_state goal_id solution claims claim_id e :
  get_assessed_claims_for_solution neo4j (Solution.id solution) = Ok claims →
  claim_id ∈ claims →
  requirement_check_raises neo4j user_state claim_id e →
  ∃ e', PlannerCore.solution_body neo4j user_state goal_id solution [] = Raise e'.
Proof.
  intros Hclaims Hin (g & Hg & Hs & Hr).
  rewrite PlannerCoreFacts.solution_body_eq. unfold viable_claims_of.
  rewrite Hclaims. simpl.
  destruct (for_each_raises _ claims claim_id e
              (PlannerCoreFacts.claim_body_appending neo4j user_state) Hin)
    as [e' ->]; [by apply PlannerCoreFacts.claim_body_requirement_raises with g|].
  by exists e'.
Qed.

Lemma goal_body_solution_raises neo4j user_state goal solutions solution e :
  get_solutions_for_goal neo4j (Goal.id goal) = Ok solutions →
  solution ∈ solutions →
  PlannerCore.solution_body neo4j user_state (Goal.id goal) solution [] = Raise e →
  ∃ e', PlannerCore.goal_body neo4j user_state goal [] = Raise e'.
Proof.
  intros Hsols Hin Hraise. rewrite PlannerCoreFacts.goal_body_eq, Hsols. simpl.
  destruct (for_each_raises _ solutions solution e
              (PlannerCoreFacts.solution_body_appending neo4j user_state _)
              Hin Hraise) as [e' ->].
  by exists e'.
Qed.

Lemma roadmap_goal_raises neo4j user_state all_goals goal e :
  get_goals_by_phase neo4j None = Ok all_goals →
  goal ∈ all_goals →
  PlannerCore.goal_body neo4j user_state goal [] = Raise e →
  ∃ e', PlannerCore.roadmap neo4j user_state = roadmap_failure (exn_msg e').
Proof.
  intros Hgoals Hin Hraise. rewrite PlannerCoreFacts.roadmap_eq, Hgoals.
  destruct (for_each_raises _ all_goals goal e
              (PlannerCoreFacts.goal_body_appending neo4j user_state)
              Hin Hraise) as [e' ->].
  destruct all_goals; [by apply elem_of_nil in Hin | by exists e'].
Qed.

(** When the raising claim is the first point of failure, the roadmap fails
    with the message of the requirement check. *)
Lemma roadmap_first_requirement_failure neo4j user_state claim_id e :
  first_failure_at neo4j user_state claim_id →
  requirement_check_raises neo4j user_state claim_id e →
  PlannerCore.roadmap neo4j user_state = roadmap_failure (exn_msg e).
Proof.
  intros (gb & goal & ga & vg & sb & sol & sa & vs & cb & ca & vc
          & Hgoals & Hgb & Hsols & Hsb & Hclaims & Hcb) (g & Hg & Hs & Hr).
  assert (Hsol : PlannerCore.solution_body neo4j user_state (Goal.id goal) sol []
                 = Raise e).
  { rewrite PlannerCoreFacts.solution_body_eq. unfold viable_claims_of.
    rewrite Hclaims. simpl.
    rewrite (for_each_first_raise _ cb claim_id ca vc e); [done | | done |].
    - apply PlannerCoreFacts.claim_body_appending.
    - by apply PlannerCoreFacts.claim_body_requirement_raises with g. }
  assert (Hgoal : PlannerCore.goal_body neo4j user_state goal [] = Raise e).
  { rewrite PlannerCoreFacts.goal_body_eq, Hsols. simpl.
    rewrite (for_each_first_raise _ sb sol sa vs e); [done | | done | done].
    apply PlannerCoreFacts.solution_body_appending. }
  rewrite PlannerCoreFacts.roadmap_eq, Hgoals.
  rewrite (for_each_first_raise _ gb goal ga vg e); [| | done | done].
  - by destruct gb.
  - apply PlannerCoreFacts.goal_body_appending.
Qed.

(** C7.  If the requirement check raises for a claim the planner evaluates,
    the roadmap computation returns no roadmap: it fails with a message of
    the form "Roadmap generation failed: ...", and when that claim is the
    first point of failure of the run the message is that of the
    requirement check.  In every case the caller receives either a roadmap
    or such a failure. *)
Theorem roadmap_aborts_when_requirement_check_raises
    (neo4j : PlannerNeo4j) (user_state : UserState.t)
    (claim_id : option string) (e : exn) :
  evaluated_claim neo4j claim_id →
  requirement_check_raises neo4j user_state claim_id e →
  (∃ msg, PlannerCore.roadmap neo4j user_state = roadmap_failure msg)
  ∧ (∀ r, PlannerCore.roadmap neo4j user_state ≠ Ok r)
  ∧ (first_failure_at neo4j user_state claim_id →
     PlannerCore.roadmap neo4j user_state = roadmap_failure (exn_msg e))
  ∧ ((∃ r, PlannerCore.roadmap neo4j user_state = Ok r) ∨
     (∃ msg, PlannerCore.roadmap neo4j user_state = roadmap_failure msg)).
Proof.
  intros (goals & goal & sols & sol & claims & Hgoals & Hgoal & Hsols & Hsol
          & Hclaims & Hclaim) Hraise.
  assert (Hfail : ∃ msg,
             PlannerCore.roadmap neo4j user_state = roadmap_failure msg).
  { destruct (solution_body_claim_raises _ _ (Goal.id goal) _ _ _ _
                Hclaims Hclaim Hraise) as [e1 He1].
    destruct (goal_body_solution_raises _ _ _ _ _ _ Hsols Hsol He1) as [e2 He2].
    destruct (roadmap_goal_raises _ _ _ _ _ Hgoals Hgoal He2) as [e3 He3].
    by exists (exn_msg e3). }
  split; [done|]. split; [|split].
  - intros r Hr. destruct Hfail as [msg Hmsg]. by rewrite Hmsg in Hr.
  - intros Hfirst. by apply roadmap_first_requirement_failure with claim_id.
  - apply PlannerCoreFacts.roadmap_Ok_or_failure.
Qed.

Lemma roadmap_aborts_when_requirement_check_raises_witness :
  PlannerCore.roadmap sample_neo4j untracked_user_state =
    roadmap_failure (exn_msg passport_not_tracked).
Proof.
  apply (roadmap_aborts_when_requirement_check_raises
           sample_neo4j untracked_user_state (Some "ac_chase_ca")
           passport_not_tracked).
  - exists [goal_bank_account; goal_credit_card], goal_bank_account,
      [sol_chase_checking; sol_online_bank], sol_chase_checking,
      [Some "ac_chase_ca"].
    repeat split; try reflexivity; by left.
  - exists graphlet_chase_ca. repeat split; vm_compute; reflexivity.
  - exists [], goal_bank_account, [goal_credit_card], [],
      [], sol_chase_checking, [sol_online_bank], [],
      [], [], [].
    repeat split; reflexivity.
Defined.

(** ** A goal without a strategy *)

Lemma default_ranked_rank neo4j user_state solutions :
  Forall (λ d, strategy_ranking d = 0 ∧
               user_rationale d = PlannerCore.default_rationale)
    (default_ranked neo4j user_state solutions).
Proof.
  unfold default_ranked. induction solutions as [|s ss IH]; simpl; [done|].
  apply Forall_app. split; [|done].
  destruct (viable_claims_of neo4j user_state s) as [[|g gs]|e]; by repeat constructor.
Qed.

Lemma default_ranked_elem neo4j user_state solutions solution vc :
  solution ∈ solutions →
  viable_claims_of neo4j user_state solution = Ok vc → vc ≠ [] →
  solution_data_of solution vc None ∈ default_ranked neo4j user_state solutions.
Proof.
  intros Hin Hvc Hne. unfold default_ranked.
  apply list_elem_of_In, in_flat_map. exists solution.
  split; [by apply list_elem_of_In|]. rewrite Hvc.
  destruct vc; [done | by left].
Qed.

(** Without a strategy, the solution loop collects every solution that has
    a viable claim, in catalog order. *)
Lemma solution_loop_without_strategy neo4j user_state goal_id solutions :
  get_strategy_for_goal neo4j goal_id = Ok None →
  Forall (λ s, ∃ vc, viable_claims_of neo4j user_state s = Ok vc) solutions →
  for_each (PlannerCore.solution_body neo4j user_state goal_id) solutions []
    = Ok (default_ranked neo4j user_state solutions).
Proof.
  intros Hnone. induction 1 as [|s ss [vc Hvc] _ IH]; [done|].
  rewrite for_each_cons_appending
    by apply PlannerCoreFacts.solution_body_appending.
  rewrite IH, PlannerCoreFacts.solution_body_eq, Hvc. unfold default_ranked.
  simpl. rewrite Hvc. destruct vc as [|g gs]; simpl; [done|].
  by rewrite Hnone.
Qed.

(** C4.  When the store returns no strategy for a goal that has at least
    one viable solution (and the evaluation of its claims does not fail),
    the goal is not abandoned: the goal loop emits it with every solution
    that has a viable claim, each ranked [len([]) = 0] with the
    default-ranking notice as its rationale, and a roadmap that is returned
    contains it. *)
Theorem goal_without_strategy_is_emitted
    (neo4j : PlannerNeo4j) (user_state : UserState.t)
    (goal : Goal.t) (solutions : list Solution.t) :
  get_strategy_for_goal neo4j (Goal.id goal) = Ok None →
  get_solutions_for_goal neo4j (Goal.id goal) = Ok solutions →
  Forall (λ s, ∃ vc, viable_claims_of neo4j user_state s = Ok vc) solutions →
  Exists (λ s, ∃ vc, viable_claims_of neo4j user_state s = Ok vc ∧ vc ≠ [])
    solutions →
  (∀ viable_goals,
     PlannerCore.goal_body neo4j user_state goal viable_goals =
       Ok (viable_goals ++
             [goal_data_with goal (default_ranked neo4j user_state solutions)]))
  ∧ (∀ s vc, s ∈ solutions →
       viable_claims_of neo4j user_state s = Ok vc → vc ≠ [] →
       ∃ d, d ∈ default_ranked neo4j user_state solutions ∧
            solution_id d = Solution.id s ∧ viable_assessed_claims d = vc)
  ∧ Forall (λ d, strategy_ranking d = 0 ∧
                 user_rationale d = PlannerCore.default_rationale)
      (default_ranked neo4j user_state solutions)
  ∧ (∀ all_goals r,
       get_goals_by_phase neo4j None = Ok all_goals → goal ∈ all_goals →
       PlannerCore.roadmap neo4j user_state = Ok r →
       PlannerCore.goal_dict_of
         (goal_data_with goal (default_ranked neo4j user_state solutions))
         ∈ Out.goals r).
Proof.
  intros Hnone Hsols Hall Hex.
  assert (Hbody : ∀ viable_goals,
     PlannerCore.goal_body neo4j user_state goal viable_goals =
       Ok (viable_goals ++
             [goal_data_with goal (default_ranked neo4j user_state solutions)])).
  { intros viable_goals.
    rewrite PlannerCoreFacts.goal_body_eq, Hsols. simpl.
    rewrite (solution_loop_without_strategy _ _ _ _ Hnone Hall). simpl.
    assert (default_ranked neo4j user_state solutions ≠ []) as Hne.
    { apply Exists_exists in Hex as (s & Hs & vc & Hvc & Hne).
      intros Hnil.
      pose proof (default_ranked_elem _ _ _ _ _ Hs Hvc Hne) as Hin.
      rewrite Hnil in Hin. by apply elem_of_nil in Hin. }
    destruct (default_ranked neo4j user_state solutions) as [|d ds] eqn:Hdr;
      [done|].
    unfold goal_data_of, goal_data_with.
    rewrite (sort_by_key_constant strategy_ranking 0); [done|].
    rewrite <- Hdr.
    eapply Forall_impl; [apply default_ranked_rank | by intros ? [? _]]. }
  split; [done|]. split; [|split; [apply default_ranked_rank|]].
  - intros s vc Hs Hvc Hne. exists (solution_data_of s vc None).
    split; [by apply default_ranked_elem | done].
  - intros all_goals r Hgoals Hin
      (goals' & viable_goals & Hgoals' & Hloop & ->)%PlannerCoreFacts.roadmap_Ok_inv.
    rewrite Hgoals in Hgoals'. injection Hgoals' as <-. simpl.
    destruct (for_each_Ok_elem _ _ _ _
                (PlannerCoreFacts.goal_body_appending neo4j user_state)
                Hloop Hin) as (items & Hitems & Hsub).
    rewrite Hbody in Hitems. injection Hitems as <-.
    apply list_elem_of_fmap. eexists. split; [done|]. apply Hsub. by left.
Qed.

Lemma goal_without_strategy_is_emitted_witness :
  PlannerCore.goal_dict_of
    (goal_data_with goal_credit_card
       (default_ranked sample_neo4j sample_user_state [sol_secured_card]))
    ∈ Out.goals sample_roadmap.
Proof.
  apply (goal_without_strategy_is_emitted sample_neo4j sample_user_state
           goal_credit_card [sol_secured_card])
    with (all_goals := [goal_bank_account; goal_credit_card]).
  - reflexivity.
  - reflexivity.
  - constructor; [|constructor]. exists [graphlet_secured].
    vm_compute. reflexivity.
  - constructor. exists [graphlet_secured]. split; [|done].
    vm_compute. reflexivity.
  - reflexivity.
  - by right; left.
  - vm_compute. reflexivity.
Defined.

(** ** The logic-tree extraction *)








Section LogicTreeFacts.

Variable json_decode : string → option pyval.


Lemma extract_from_string (s : string) :
  _extract_requirement_ids_from_logic_tree json_decode (PyStr s) =
    Ok (if String.eqb s "" then []
        else match json_decode s with
             | Some t => extract_ids_recursive t
             | None => []
             end).
Proof.
  unfold _extract_requirement_ids_from_logic_tree, try_except, json_loads.
  simpl. destruct (String.eqb s ""); simpl; [done|].
  by destruct (json_decode s).
Qed.





End LogicTreeFacts.

(** ** The set of requirement identities *)

Lemma py_eqb_refl (x : pyval) : py_hashable x = true → py_eqb x x = true.
Proof.
  destruct x as [|b|n|q|s| |]; simpl; intros H; try done;
    first [apply QArith_base.Qeq_bool_refl | apply String.eqb_refl].
Qed.

Lemma set_update_extends (s ids s1 : list pyval) :
  set_update s ids = Ok s1 → ∃ more, s1 = s ++ more.
Proof.
  revert s. induction ids as [|x ids IH]; intros s; simpl.
  - intros [= <-]. exists []. by rewrite app_nil_r.
  - destruct (py_hashable x); [|done].
    destruct (existsb (py_eqb x) s); intros (more & ->)%IH; [by exists more|].
    exists ([x] ++ more). by rewrite app_assoc.
Qed.

Lemma set_update_members (s ids s1 : list pyval) :
  set_update s ids = Ok s1 →
  Forall (λ x, py_hashable x = true ∧ existsb (py_eqb x) s1 = true) ids.
Proof.
  revert s. induction ids as [|x ids IH]; intros s; simpl; [done|].
  destruct (py_hashable x) eqn:Hx; [|done]. intros Hrest.
  constructor; [|by eapply IH]. split; [done|].
  apply set_update_extends in Hrest as (more & ->).
  rewrite existsb_app. apply orb_true_iff. left.
  destruct (existsb (py_eqb x) s) eqn:Hin; [done|].
  rewrite existsb_app. simpl. by rewrite py_eqb_refl, orb_true_r.
Qed.




(** The statement at the tests' trees: the serialized leaf yields its
    identity, and the serialized [null] and an undecodable text yield
    nothing. *)
Lemma logic_tree_extraction_examples :
  _extract_requirement_ids_from_logic_tree decode_sample (PyStr simple_tree_text)
    = Ok [PyStr "req_ssn"]
  ∧ _extract_requirement_ids_from_logic_tree decode_sample (PyStr "null") = Ok []
  ∧ _extract_requirement_ids_from_logic_tree decode_sample (PyStr "invalid json")
    = Ok []
  ∧ _extract_requirement_ids_from_logic_tree decode_sample (PyStr "") = Ok [].
Proof. repeat split; vm_compute; reflexivity. Qed.

(** ** The repository's unit tests, replayed on the model *)

Example test_no_constraints_passes :
  ScopeValidator.is_viable sample_user_scopes [] = true.
Proof. reflexivity. Qed.

Example test_matching_constraints_passes :
  ScopeValidator.is_viable sample_user_scopes
    [scope_of "state" "CA"; scope_of "visa_type" "H-1B"] = true.
Proof. vm_compute. reflexivity. Qed.

Example test_non_matching_constraints_fails :
  ScopeValidator.is_viable sample_user_scopes [scope_of "state" "NY"] = false.
Proof. vm_compute. reflexivity. Qed.

Example test_provider_scopes_are_optional :
  ScopeValidator.is_viable sample_user_scopes [scope_of "provider" "Chase"] = true.
Proof. vm_compute. reflexivity. Qed.

Example test_missing_user_scope_fails :
  ScopeValidator.is_viable {[ "state" := "CA" ]} [scope_of "nationality" "CH"]
    = false.
Proof. vm_compute. reflexivity. Qed.

Example test_get_missing_scopes :
  ScopeValidator.get_missing_scopes sample_user_scopes
    [scope_of "state" "NY"; scope_of "visa_type" "H-1B";
     scope_of "provider" "Chase"]
  = [ScopeValidator.MissingScope (Some "state") (Some "NY") "CA"].
Proof. vm_compute. reflexivity. Qed.

Example test_satisfied_requirements_pass :
  RequirementChecker.is_viable sample_user_facts
    [requirement "req_ssn" "Social Security Number";
     requirement "req_address_proof" "Proof of Address"] = Ok true.
Proof. vm_compute. reflexivity. Qed.

Example test_unsatisfied_requirements_fail :
  RequirementChecker.is_viable sample_user_facts
    [requirement "req_ssn" "Social Security Number";
     requirement "req_itin" "ITIN"] = Ok false.
Proof. vm_compute. reflexivity. Qed.

Example test_blocked_requirements_fail :
  RequirementChecker.is_viable sample_user_facts
    [requirement "req_credit_history" "Credit History"] = Ok false.
Proof. vm_compute. reflexivity. Qed.

Example test_untracked_requirements_raise_error :
  RequirementChecker.is_viable sample_user_facts
    [requirement "req_unknown" "Unknown Requirement"]
  = raise_Exception
      "Required capability 'Unknown Requirement' (req_unknown) not tracked in user facts - system error".
Proof. vm_compute. reflexivity. Qed.

Example test_extract_complex_tree :
  _extract_requirement_ids_from_logic_tree decode_sample complex_tree
  = Ok [PyStr "req_ssn"; PyStr "req_passport"; PyStr "req_driver_license"].
Proof. vm_compute. reflexivity. Qed.

Example test_roadmap_filters_non_viable_solutions :
  PlannerCore.roadmap mock_neo4j sample_user_state =
    Ok {| Out.user_id := "u_test_123";
          Out.generated_at := "2025-09-09T16:27:00Z";
          Out.total_goals := 0;
          Out.goals := [] |}.
Proof. vm_compute. reflexivity. Qed.

(** * Further properties *)

(** ** The diagnostic queries of planner_utils.py *)

Module DiagnosticsFacts.
Import ScopeValidator RequirementChecker RequirementDiagnostics.





Lemma get_missing_requirements_satisfied uf r reqs :
  satisfied uf r →
  get_missing_requirements uf (r :: reqs) = get_missing_requirements uf reqs.
Proof.
  intros [Hskip | (i & Hid & Hi)]; simpl.
  - by rewrite Hskip.
  - rewrite Hid. destruct (truthy (Some i)); [|done]. simpl. by rewrite Hi.
Qed.

Lemma get_missing_requirements_app uf pre rest :
  Forall (satisfied uf) pre →
  get_missing_requirements uf (pre ++ rest) = get_missing_requirements uf rest.
Proof.
  induction 1 as [|r pre Hr _ IH]; [done|].
  by rewrite <- app_comm_cons, get_missing_requirements_satisfied.
Qed.

Lemma get_missing_requirements_unsatisfied uf r reqs (i : string) :
  py_get r "id" = Some i → i ≠ "" → uf !! i ≠ Some "have" →
  get_missing_requirements uf (r :: reqs) =
    MissingRequirement (Some i) (py_get_default r "name" (Some i))
      (default "unknown" (uf !! i))
    :: get_missing_requirements uf reqs.
Proof.
  intros Hid Hne Hi. simpl. rewrite Hid.
  apply truthy_Some in Hne as ->. simpl.
  destruct (String.eqb_spec (default "unknown" (uf !! i)) "have") as [Heq|];
    [|done].
  destruct (uf !! i) as [st|]; simpl in Heq; [by subst | done].
Qed.



End DiagnosticsFacts.



Lemma requirement_is_viable_true_iff uf reqs :
  RequirementChecker.is_viable uf reqs = Ok true ↔ Forall (satisfied uf) reqs.
Proof.
  rewrite RequirementCheckerFacts.requirement_is_viable_eq_loop. split.
  - intros Hok.
    destruct (RequirementCheckerFacts.satisfied_or_first_unsatisfied uf reqs)
      as [Hall | (pre & r & post & i & -> & Hpre & Hid & Hne & Hi)]; [done|].
    rewrite RequirementCheckerFacts.is_viable_loop_app in Hok by done.
    destruct (uf !! i) as [st|] eqn:Hst.
    + rewrite (RequirementCheckerFacts.is_viable_loop_not_have _ _ _ i st)
        in Hok by congruence. done.
    + by rewrite (RequirementCheckerFacts.is_viable_loop_untracked _ _ _ i)
        in Hok.
  - intros Hall. rewrite <- (app_nil_r reqs).
    by rewrite RequirementCheckerFacts.is_viable_loop_app.
Qed.

(** X2.  The requirement gate and its diagnostic query agree:
    [RequirementChecker.is_viable] returns [True] exactly when
    [get_missing_requirements] returns the empty list; whenever the gate
    returns [False] or raises, the query (which never raises) reports at
    least one requirement. *)
Theorem requirement_is_viable_iff_no_missing_requirements
    (user_facts : gmap string string)
    (requirements : list (gmap string (option string))) :
  RequirementChecker.is_viable user_facts requirements = Ok true ↔
  RequirementDiagnostics.get_missing_requirements user_facts requirements = [].
Proof.
  rewrite requirement_is_viable_true_iff. split.
  - intros Hall. rewrite <- (app_nil_r requirements).
    by rewrite DiagnosticsFacts.get_missing_requirements_app.
  - intros Hnil.
    destruct (RequirementCheckerFacts.satisfied_or_first_unsatisfied
                user_facts requirements)
      as [Hall | (pre & r & post & i & -> & Hpre & Hid & Hne & Hi)]; [done|].
    rewrite DiagnosticsFacts.get_missing_requirements_app in Hnil by done.
    by rewrite (DiagnosticsFacts.get_missing_requirements_unsatisfied _ _ _ i)
      in Hnil.
Qed.

(** X3.  The first record of [get_missing_requirements] tells the outcome of
    the gate: if its requirement is not tracked in the user's facts, the
    record's status is ["unknown"] and [is_viable] raises the "not tracked"
    failure naming that requirement; if it is tracked, the record carries the
    user's status (which is not ["have"]) and [is_viable] returns [False]. *)
Theorem first_missing_requirement_decides
    (user_facts : gmap string string)
    (requirements : list (gmap string (option string)))
    (m : RequirementDiagnostics.missing_requirement)
    (others : list RequirementDiagnostics.missing_requirement) :
  RequirementDiagnostics.get_missing_requirements user_facts requirements
    = m :: others →
  ∃ i : string,
    RequirementDiagnostics.mr_req_id m = Some i ∧ i ≠ "" ∧
    RequirementDiagnostics.mr_status m ≠ "have" ∧
    ((user_facts !! i = None ∧
      RequirementDiagnostics.mr_status m = "unknown" ∧
      RequirementChecker.is_viable user_facts requirements =
        raise_Exception
          (RequirementChecker.not_tracked_message
             (RequirementDiagnostics.mr_req_name m) (Some i)))
     ∨ (user_facts !! i = Some (RequirementDiagnostics.mr_status m) ∧
        RequirementChecker.is_viable user_facts requirements = Ok false)).
Proof.
  intros Hm.
  destruct (RequirementCheckerFacts.satisfied_or_first_unsatisfied
              user_facts requirements)
    as [Hall | (pre & r & post & i & -> & Hpre & Hid & Hne & Hi)].
  { rewrite <- (app_nil_r requirements) in Hm.
    by rewrite DiagnosticsFacts.get_missing_requirements_app in Hm. }
  rewrite DiagnosticsFacts.get_missing_requirements_app in Hm by done.
  rewrite (DiagnosticsFacts.get_missing_requirements_unsatisfied _ _ _ i)
    in Hm by done.
  injection Hm as <- _. exists i. simpl.
  rewrite RequirementCheckerFacts.requirement_is_viable_eq_loop,
    RequirementCheckerFacts.is_viable_loop_app by done.
  split; [done|]. split; [done|].
  destruct (user_facts !! i) as [st|] eqn:Hst; simpl.
  - split; [congruence|]. right. split; [done|].
    apply (RequirementCheckerFacts.is_viable_loop_not_have _ _ _ i st);
      [done..|congruence].
  - split; [done|]. left. split; [done|]. split; [done|].
    by apply RequirementCheckerFacts.is_viable_loop_untracked.
Qed.

Lemma first_missing_requirement_decides_witness :
  ∃ i : string,
    Some "req_itin" = Some i ∧ i ≠ "" ∧ "need" ≠ "have" ∧
    ((sample_user_facts !! i = None ∧ "need" = "unknown" ∧
      RequirementChecker.is_viable sample_user_facts need_then_untracked =
        raise_Exception
          (RequirementChecker.not_tracked_message
             (Some "Individual Taxpayer ID") (Some i)))
     ∨ (sample_user_facts !! i = Some "need" ∧
        RequirementChecker.is_viable sample_user_facts need_then_untracked
          = Ok false)).
Proof.
  apply (first_missing_requirement_decides sample_user_facts need_then_untracked
           (RequirementDiagnostics.MissingRequirement (Some "req_itin")
              (Some "Individual Taxpayer ID") "need")
           [RequirementDiagnostics.MissingRequirement (Some "req_unknown")
              (Some "Unknown Requirement") "unknown"]).
  vm_compute. reflexivity.
Defined.




(** X5.  The rank never exceeds the length of the ranking list; it equals
    that length exactly for the identities the list does not contain; and
    two different identities of the list never share a rank, so ties occur
    only among unlisted solutions. *)
Theorem ranking_position_bounds (R : list (option string)) (s : option string) :
  (PlannerCore.ranking_position R s ≤ length R)%nat
  ∧ (PlannerCore.ranking_position R s = length R ↔ s ∉ R)
  ∧ (∀ s', s ∈ R → s' ∈ R →
       PlannerCore.ranking_position R s = PlannerCore.ranking_position R s' →
       s = s').
Proof.
  assert (Hlt : ∀ x, x ∈ R → (PlannerCore.ranking_position R x < length R)%nat).
  { intros x Hx. destruct (ranking_position_elem R x Hx) as [Hl _].
    by apply lookup_lt_Some in Hl. }
  split; [|split].
  - destruct (decide (s ∈ R)) as [Hs | Hs].
    + specialize (Hlt s Hs). lia.
    + by rewrite ranking_position_absent.
  - split.
    + intros Heq Hs. specialize (Hlt s Hs). lia.
    + apply ranking_position_absent.
  - intros s' Hs Hs' Heq.
    destruct (ranking_position_elem R s Hs) as [Hl _].
    destruct (ranking_position_elem R s' Hs') as [Hl' _].
    rewrite Heq in Hl. congruence.
Qed.

(** ** The failures of the roadmap *)

Lemma for_each_raise_origin {A B} (body : A → list B → result (list B)) xs e :
  appending body → for_each body xs [] = Raise e →
  ∃ x, x ∈ xs ∧ body x [] = Raise e.
Proof.
  intros Happ. induction xs as [|y xs IH]; [done|].
  rewrite for_each_cons_appending by done.
  destruct (body y []) as [items|e1] eqn:Hy; simpl.
  - destruct (for_each body xs []) as [more|e2]; simpl; [done|].
    intros [= <-]. destruct (IH eq_refl) as (x & Hx & Hbody).
    exists x. split; [by right | done].
  - intros [= <-]. exists y. split; [by left | done].
Qed.

Lemma claim_body_raise_inv neo4j user_state claim_id e :
  PlannerCore.claim_body neo4j user_state claim_id [] = Raise e →
  get_complete_graphlet neo4j claim_id = Raise e ∨
  requirement_check_raises neo4j user_state claim_id e.
Proof.
  unfold PlannerCore.claim_body, requirement_check_raises.
  destruct (get_complete_graphlet neo4j claim_id) as [[g|]|e1]; simpl;
    [|done | intros [= <-]; by left].
  destruct (ScopeValidator.is_viable _ _) eqn:Hs; simpl; [|done].
  destruct (RequirementChecker.is_viable _ _) as [[]|e1] eqn:Hr; simpl;
    try done.
  intros [= <-]. right. by exists g.
Qed.

Lemma solution_body_raise_inv neo4j user_state goal_id solution e :
  PlannerCore.solution_body neo4j user_state goal_id solution [] = Raise e →
  get_assessed_claims_for_solution neo4j (Solution.id solution) = Raise e
  ∨ (∃ claims claim_id,
       get_assessed_claims_for_solution neo4j (Solution.id solution) = Ok claims ∧
       claim_id ∈ claims ∧
       PlannerCore.claim_body neo4j user_state claim_id [] = Raise e)
  ∨ get_strategy_for_goal neo4j goal_id = Raise e.
Proof.
  rewrite PlannerCoreFacts.solution_body_eq. unfold viable_claims_of.
  destruct (get_assessed_claims_for_solution neo4j (Solution.id solution))
    as [claims|e1]; simpl; [|intros [= <-]; by left].
  destruct (for_each _ claims []) as [[|g gs]|e1] eqn:Hloop; simpl; [done| |].
  - destruct (get_strategy_for_goal neo4j goal_id) as [d|e1]; simpl; [done|].
    intros [= <-]. by right; right.
  - intros [= <-]. right; left.
    destruct (for_each_raise_origin _ _ _
                (PlannerCoreFacts.claim_body_appending neo4j user_state) Hloop)
      as (claim_id & Hin & Hbody).
    by exists claims, claim_id.
Qed.

Lemma goal_body_raise_inv neo4j user_state goal e :
  PlannerCore.goal_body neo4j user_state goal [] = Raise e →
  get_solutions_for_goal neo4j (Goal.id goal) = Raise e
  ∨ ∃ solutions solution,
      get_solutions_for_goal neo4j (Goal.id goal) = Ok solutions ∧
      solution ∈ solutions ∧
      PlannerCore.solution_body neo4j user_state (Goal.id goal) solution []
        = Raise e.
Proof.
  rewrite PlannerCoreFacts.goal_body_eq.
  destruct (get_solutions_for_goal neo4j (Goal.id goal)) as [sols|e1]; simpl;
    [|intros [= <-]; by left].
  destruct (for_each _ sols []) as [[|d ds]|e1] eqn:Hloop; simpl; try done.
  intros [= <-]. right.
  destruct (for_each_raise_origin _ _ _
              (PlannerCoreFacts.solution_body_appending neo4j user_state _) Hloop)
    as (solution & Hin & Hbody).
  by exists sols, solution.
Qed.

(** Every failure of the roadmap wraps an exception raised at one of the
    places of [failure_cause]. *)
Lemma roadmap_failure_inv neo4j user_state e :
  PlannerCore.roadmap neo4j user_state = Raise e →
  ∃ e0, failure_cause neo4j user_state e0 ∧
        e = MkExn Exception ("Roadmap generation failed: " +:+ exn_msg e0).
Proof.
  rewrite PlannerCoreFacts.roadmap_eq.
  destruct (get_goals_by_phase neo4j None) as [[|g gs]|e1] eqn:Hgoals.
  - intros [= <-]. eexists. split; [by apply cause_no_goals | done].
  - destruct (for_each _ (g :: gs) []) as [vg|e1] eqn:Hloop; [done|].
    intros [= <-]. exists e1. split; [|done].
    destruct (for_each_raise_origin _ _ _
                (PlannerCoreFacts.goal_body_appending neo4j user_state) Hloop)
      as (goal & Hgoal & Hbody).
    apply goal_body_raise_inv in Hbody
      as [Hsols | (sols & sol & Hsols & Hsol & Hbody)];
      [by eapply cause_solutions|].
    apply solution_body_raise_inv in Hbody
      as [Hclaims | [(claims & cid & Hclaims & Hcid & Hbody) | Hstrategy]];
      [by eapply cause_claims | | by eapply cause_strategy].
    assert (evaluated_claim neo4j cid) as Hev
      by (by exists (g :: gs), goal, sols, sol, claims).
    apply claim_body_raise_inv in Hbody as [Hg | Hr];
      [by eapply cause_graphlet | by eapply cause_requirement].
  - intros [= <-]. exists e1. split; [by apply cause_goals | done].
Qed.

(** X6.  The roadmap fails only for a cause: whenever it raises, the
    exception is a plain [Exception] whose message is "Roadmap generation
    failed: " followed by the message of an exception raised by one of the
    five store calls on an entity the loops reach, by the planner's check
    that the goal list is not empty, or by the requirement check of a claim
    that passed the scope gate.  So when none of these raises, the roadmap
    is returned. *)
Theorem roadmap_fails_only_for_a_cause
    (neo4j : PlannerNeo4j) (user_state : UserState.t) :
  (∀ e, PlannerCore.roadmap neo4j user_state = Raise e →
        ∃ e0, failure_cause neo4j user_state e0 ∧
              e = MkExn Exception ("Roadmap generation failed: " +:+ exn_msg e0))
  ∧ ((∀ e0, ¬ failure_cause neo4j user_state e0) →
     ∃ r, PlannerCore.roadmap neo4j user_state = Ok r).
Proof.
  split; [apply roadmap_failure_inv|].
  intros Hnone. destruct (PlannerCore.roadmap neo4j user_state) as [r|e] eqn:Hr;
    [by exists r|].
  apply roadmap_failure_inv in Hr as (e0 & Hcause & _). by destruct (Hnone e0).
Qed.

Lemma roadmap_fails_only_for_a_cause_witness :
  ∃ e0, failure_cause sample_neo4j untracked_user_state e0 ∧
        MkExn Exception
          ("Roadmap generation failed: " +:+ exn_msg passport_not_tracked)
        = MkExn Exception ("Roadmap generation failed: " +:+ exn_msg e0).
Proof.
  apply (proj1 (roadmap_fails_only_for_a_cause sample_neo4j untracked_user_state)).
  vm_compute. reflexivity.
Defined.

(** ** The store methods of planner_neo4j.py *)

Lemma sample_driver_roadmap :
  PlannerCore.roadmap (PlannerNeo4jImpl.planner_neo4j decode_sample sample_driver)
    test_user_state =
  Ok {| Out.user_id := "u_test_123";
        Out.generated_at := "2025-09-09T16:27:00Z";
        Out.total_goals := 1;
        Out.goals :=
          [ {| Out.goal_id := Some "goal_bank_account";
               Out.goal_name := Some "Open a bank account";
               Out.goal_phase := Some "ARRIVE";
               Out.goal_description := Some "";
               Out.solutions :=
                 [ {| Out.solution_id := Some "sol_online_bank";
                      Out.solution_name := Some "Online Bank";
                      Out.solution_description := Some "An account opened online";
                      Out.strategy_ranking := 0;
                      Out.user_rationale :=
                        "Strategy data not available - using default ranking";
                      Out.assessed_claims_count := 1 |} ] |} ] |}.
Proof. vm_compute. reflexivity. Qed.

Lemma sample_driver_graphlet :
  PlannerNeo4jImpl.get_complete_graphlet decode_sample sample_driver
    (Some "ac_online_ca") =
  Ok (Some (Graphlet.mk
              {[ "id" := Some "ac_online_ca"; "outcome" := Some "consensus";
                 "rationale" := None; "confidence" := None ]}
              [sample_clause_row] [sample_scope_row] []
              [sample_requirement_row])).
Proof. vm_compute. reflexivity. Qed.

Lemma try_except_wrap_inv {A} (body : result A) (wrap : string → string) e :
  try_except body (λ e0, raise_Exception (wrap (exn_msg e0))) = Raise e →
  ∃ e0, body = Raise e0 ∧ e = MkExn Exception (wrap (exn_msg e0)).
Proof. destruct body as [a|e0]; simpl; [done|]. intros [= <-]. by exists e0. Qed.

Lemma try_except_Ok_inv {A} (body : result A) (handler : exn → result A) a :
  (∀ e, handler e ≠ Ok a) → try_except body handler = Ok a → body = Ok a.
Proof. intros Hh. destruct body as [b|e]; simpl; [done|]. intros H. by destruct (Hh e). Qed.

Lemma get_goals_by_phase_Ok_inv (driver : Neo4j.driver) phase goals :
  PlannerNeo4jImpl.get_goals_by_phase driver phase = Ok goals →
  goals ≠ [] ∧
  ∃ rows,
    (if truthy phase then Neo4j.match_goals_of_phase driver phase
     else Neo4j.match_all_goals driver) = Ok rows ∧
    goals = goal_of_node <$> rows.
Proof.
  unfold PlannerNeo4jImpl.get_goals_by_phase.
  intros Hok%try_except_Ok_inv; [|done].
  apply bind_Ok_inv in Hok as (rows & Hrows & Hgoals).
  destruct rows as [|n rows]; simpl in Hgoals; [by destruct (truthy phase)|].
  injection Hgoals as <-. split; [done|]. by exists (n :: rows).
Qed.

(** X7.  [get_goals_by_phase] never returns an empty list: when it returns,
    the goals are the nodes the query found, one goal per node and in the
    query's order, and there is at least one.  An empty phase string is
    treated as no phase (all goals), and a phase for which the query finds
    nothing raises a failure that names the phase. *)
Theorem get_goals_by_phase_never_empty
    (driver : Neo4j.driver) (phase : option string) :
  (∀ goals,
     PlannerNeo4jImpl.get_goals_by_phase driver phase = Ok goals →
     goals ≠ [] ∧
     ∃ rows,
       (if truthy phase then Neo4j.match_goals_of_phase driver phase
        else Neo4j.match_all_goals driver) = Ok rows ∧
       goals = goal_of_node <$> rows)
  ∧ PlannerNeo4jImpl.get_goals_by_phase driver (Some "")
    = PlannerNeo4jImpl.get_goals_by_phase driver None
  ∧ (∀ p : string,
       phase = Some p → p ≠ "" →
       Neo4j.match_goals_of_phase driver phase = Ok [] →
       PlannerNeo4jImpl.get_goals_by_phase driver phase =
         raise_Exception
           ("Failed to get goals by phase: No goals found for phase '" +:+ p
              +:+ "' - check goal seeding")).
Proof.
  split; [|split].
  - intros goals. apply get_goals_by_phase_Ok_inv.
  - done.
  - intros p -> Hp Hnone. unfold PlannerNeo4jImpl.get_goals_by_phase.
    apply truthy_Some in Hp. rewrite Hp, Hnone. reflexivity.
Qed.

Lemma get_goals_by_phase_never_empty_witness :
  [goal_of_node sample_goal_node] ≠ [] ∧
  ∃ rows,
    (if truthy (Some "ARRIVE")
     then Neo4j.match_goals_of_phase sample_driver (Some "ARRIVE")
     else Neo4j.match_all_goals sample_driver) = Ok rows ∧
    [goal_of_node sample_goal_node] = goal_of_node <$> rows.
Proof.
  apply (proj1 (get_goals_by_phase_never_empty sample_driver (Some "ARRIVE"))).
  vm_compute. reflexivity.
Defined.

(** Every exception a store method raises is the one its handler builds. *)
Lemma store_method_failures (json_decode : string → option pyval)
    (driver : Neo4j.driver) (x : option string) (e : exn) :
  (PlannerNeo4jImpl.get_goals_by_phase driver x = Raise e →
   ∃ m, e = MkExn Exception ("Failed to get goals by phase: " +:+ m))
  ∧ (PlannerNeo4jImpl.get_solutions_for_goal driver x = Raise e →
     ∃ m, e = MkExn Exception ("Failed to get solutions for goal " +:+ m))
  ∧ (PlannerNeo4jImpl.get_assessed_claims_for_solution driver x = Raise e →
     ∃ m, e = MkExn Exception
                ("Failed to get AssessedClaims for solution " +:+ m))
  ∧ (PlannerNeo4jImpl.get_complete_graphlet json_decode driver x = Raise e →
     ∃ m, e = MkExn Exception ("Failed to get complete graphlet for " +:+ m))
  ∧ (PlannerNeo4jImpl.get_strategy_for_goal driver x = Raise e →
     ∃ m, e = MkExn Exception ("Failed to get strategy for goal " +:+ m)).
Proof.
  repeat split.
  - intros (e0 & _ & ->)%try_except_wrap_inv. by eexists.
  - unfold PlannerNeo4jImpl.get_solutions_for_goal.
    intros (e0 & _ & ->)%(try_except_wrap_inv _
      (λ m, "Failed to get solutions for goal " +:+ py_str x +:+ ": " +:+ m)).
    by eexists.
  - unfold PlannerNeo4jImpl.get_assessed_claims_for_solution.
    intros (e0 & _ & ->)%(try_except_wrap_inv _
      (λ m, "Failed to get AssessedClaims for solution " +:+ py_str x
              +:+ ": " +:+ m)).
    by eexists.
  - unfold PlannerNeo4jImpl.get_complete_graphlet.
    intros (e0 & _ & ->)%(try_except_wrap_inv _
      (λ m, "Failed to get complete graphlet for " +:+ py_str x
              +:+ ": " +:+ m)).
    by eexists.
  - unfold PlannerNeo4jImpl.get_strategy_for_goal.
    intros (e0 & _ & ->)%(try_except_wrap_inv _
      (λ m, "Failed to get strategy for goal " +:+ py_str x +:+ ": " +:+ m)).
    by eexists.
Qed.

Lemma requirement_is_viable_raise_inv uf reqs e :
  RequirementChecker.is_viable uf reqs = Raise e →
  ∃ n i, e = MkExn Exception (RequirementChecker.not_tracked_message n i).
Proof.
  rewrite RequirementCheckerFacts.requirement_is_viable_eq_loop.
  induction reqs as [|r reqs IH]; simpl; [done|].
  destruct (negb (truthy (py_get r "id"))); [done|].
  destruct (py_get r "id" ≫= (uf !!.)) as [st|].
  - by destruct (negb (String.eqb st "have")).
  - intros [= <-]. by eexists _, _.
Qed.

(** Membership in an explicit list. *)
Ltac solve_elem :=
  repeat first [apply list_elem_of_here | apply list_elem_of_further].

Lemma failure_prefix_not_no_goals (p m : string) :
  p ∈ failure_prefixes →
  p +:+ m ≠ "No goals found in database - system not properly initialized".
Proof.
  unfold failure_prefixes. rewrite !elem_of_cons.
  intros [-> | [-> | [-> | [-> | [-> | [-> | []%elem_of_nil]]]]]]; done.
Qed.

(** X8.  Over the store methods of planner_neo4j.py every failure of the
    roadmap is a plain [Exception] whose message is "Roadmap generation
    failed: " followed by the message of a store method ("Failed to get
    goals by phase: ", "Failed to get solutions for goal ", "Failed to get
    AssessedClaims for solution ", "Failed to get complete graphlet for ",
    "Failed to get strategy for goal ") or of the requirement check
    ("Required capability '").  The planner's own "No goals found in
    database - system not properly initialized" is never raised: the store
    method raises first. *)
Theorem roadmap_failure_messages
    (json_decode : string → option pyval) (driver : Neo4j.driver)
    (user_state : UserState.t) (e : exn) :
  PlannerCore.roadmap (PlannerNeo4jImpl.planner_neo4j json_decode driver)
    user_state = Raise e →
  exn_cls e = Exception
  ∧ (∃ p m, p ∈ failure_prefixes ∧
            exn_msg e = "Roadmap generation failed: " +:+ p +:+ m)
  ∧ exn_msg e ≠
      "Roadmap generation failed: No goals found in database - system not properly initialized".
Proof.
  intros Hraise.
  assert (Hform : ∃ p m, p ∈ failure_prefixes ∧
            e = MkExn Exception ("Roadmap generation failed: " +:+ p +:+ m)).
  { apply roadmap_failure_inv in Hraise as (e0 & Hcause & ->).
    assert (∃ p m, p ∈ failure_prefixes ∧ exn_msg e0 = p +:+ m)
      as (p & m & Hp & ->); [|by exists p, m].
    pose proof (store_method_failures json_decode driver) as Hstore.
    destruct Hcause as [e0 Hg | Hg | gs g e0 _ _ Hs | gs g ss s0 e0 _ _ _ _ Hc
                       | cid e0 _ Hgl | cid e0 _ (gl & _ & _ & Hr)
                       | gs g e0 _ _ Hst].
    - apply (Hstore None) in Hg as [m ->]. eexists _, m.
      split; [|done]. solve_elem.
    - by apply get_goals_by_phase_Ok_inv in Hg as [? _].
    - apply (Hstore (Goal.id g)) in Hs as [m ->]. eexists _, m.
      split; [|done]. solve_elem.
    - apply (Hstore (Solution.id s0)) in Hc as [m ->]. eexists _, m.
      split; [|done]. solve_elem.
    - apply (Hstore cid) in Hgl as [m ->]. eexists _, m.
      split; [|done]. solve_elem.
    - apply requirement_is_viable_raise_inv in Hr as (n & i & ->).
      eexists _, _. split; [|done]. solve_elem.
    - apply (Hstore (Goal.id g)) in Hst as [m ->]. eexists _, m.
      split; [|done]. solve_elem. }
  destruct Hform as (p & m & Hp & ->). split; [done|].
  split; [by exists p, m|]. simpl.
  intros Heq. apply (failure_prefix_not_no_goals p m Hp).
  exact (String.app_inj "Roadmap generation failed: " (p +:+ m)
           "No goals found in database - system not properly initialized" Heq).
Qed.

Lemma roadmap_failure_messages_witness :
  ∃ p m, p ∈ failure_prefixes ∧
         "Roadmap generation failed: Failed to get goals by phase: Connection refused"
         = "Roadmap generation failed: " +:+ p +:+ m.
Proof.
  apply (roadmap_failure_messages no_json failing_driver sample_user_state
           (MkExn Exception
              "Roadmap generation failed: Failed to get goals by phase: Connection refused")).
  vm_compute. reflexivity.
Defined.

(** ** The graphlet *)

Lemma rows_with_id_Ok rows kept :
  rows_with_id rows = Ok kept →
  kept = filter has_id rows ∧ Forall (λ r, is_Some (r !! "id")) rows.
Proof.
  revert kept. induction rows as [|r rows IH]; intros kept; simpl.
  - by intros [= <-].
  - unfold py_getitem. destruct (r !! "id") as [v|] eqn:Hr; simpl; [|done].
    destruct (rows_with_id rows) as [kept'|e]; simpl; [|done].
    intros [= <-]. destruct (IH kept' eq_refl) as [-> Hall].
    split; [|by constructor].
    assert (has_id r ↔ truthy v = true) as Hiff
      by (unfold has_id, py_get; by rewrite Hr).
    rewrite filter_cons.
    destruct (truthy v); case_decide as Hd; try done;
      [by destruct Hd; apply Hiff | by apply Hiff in Hd].
Qed.

Lemma rows_with_id_keys rows :
  Forall (λ r, is_Some (r !! "id")) rows →
  rows_with_id rows = Ok (filter has_id rows).
Proof.
  induction 1 as [|r rows [v Hv] _ IH]; simpl; [done|].
  unfold py_getitem. rewrite Hv, IH. simpl.
  assert (has_id r ↔ truthy v = true) as Hiff
    by (unfold has_id, py_get; by rewrite Hv).
  rewrite filter_cons.
  destruct (truthy v); case_decide as Hd; try done;
    [by destruct Hd; apply Hiff | by apply Hiff in Hd].
Qed.

Lemma rows_with_id_Raise rows e :
  rows_with_id rows = Raise e →
  exn_cls e = KeyError ∧ ∃ r, r ∈ rows ∧ r !! "id" = None.
Proof.
  induction rows as [|r rows IH]; simpl; [done|].
  unfold py_getitem. destruct (r !! "id") as [v|] eqn:Hr; simpl.
  - destruct (rows_with_id rows) as [kept'|e'] eqn:Hrows; simpl; [done|].
    intros [= <-]. destruct (IH eq_refl) as [? (r' & ? & ?)].
    split; [done|]. exists r'. split; [by right | done].
  - intros [= <-]. split; [done|]. exists r. split; [by left | done].
Qed.

Lemma py_eqb_sym (x y : pyval) : py_eqb x y = py_eqb y x.
Proof.
  assert (Hq : ∀ p q, QArith_base.Qeq_bool p q = QArith_base.Qeq_bool q p).
  { intros p q. apply eq_true_iff_eq.
    rewrite !QArith_base.Qeq_bool_iff. split; intros H; by symmetry. }
  destruct x, y; simpl; try done; try apply Hq.
  apply String.eqb_sym.
Qed.

Lemma set_update_Ok_inv (s xs s' : list pyval) :
  set_update s xs = Ok s' →
  Forall (λ x, py_hashable x = true) xs ∧
  (∀ x, x ∈ s' → x ∈ s ∨ x ∈ xs) ∧ (∀ x, x ∈ s → x ∈ s').
Proof.
  revert s. induction xs as [|x xs IH]; intros s; simpl.
  - intros [= <-]. split; [done|]. split; [by left | done].
  - destruct (py_hashable x) eqn:Hx; [|done].
    intros (Hall & Hsound & Hmono)%IH. split; [by constructor|]. split.
    + intros y [Hy | Hy]%Hsound; [|by right; right].
      destruct (existsb (py_eqb x) s); [by left|].
      apply elem_of_app in Hy as [Hy | ->%list_elem_of_singleton];
        [by left | by right; left].
    + intros y Hy. apply Hmono.
      destruct (existsb (py_eqb x) s); [done|]. apply elem_of_app. by left.
Qed.

Lemma set_update_py_set (s xs s' : list pyval) :
  set_update s xs = Ok s' → py_set s → py_set s'.
Proof.
  revert s. induction xs as [|x xs IH]; intros s; simpl; [by intros [= <-]|].
  destruct (py_hashable x) eqn:Hx; [|done].
  intros Hrest Hs. apply (IH _ Hrest).
  destruct (existsb (py_eqb x) s) eqn:Hin; [done|].
  destruct Hs as [Hhash Hdist]. split.
  - apply Forall_app. split; [done | by constructor].
  - assert (Hfresh : ∀ y, y ∈ s → py_eqb x y = false).
    { intros y Hy. destruct (py_eqb x y) eqn:Hxy; [|done].
      assert (existsb (py_eqb x) s = true) as Hc; [|congruence].
      apply existsb_exists. exists y. split; [by apply list_elem_of_In | done]. }
    intros i j a b Hi Hj Hab.
    apply lookup_app_Some in Hi as [Hi | [Hil Hi]];
      apply lookup_app_Some in Hj as [Hj | [Hjl Hj]].
    + by eapply Hdist.
    + apply list_lookup_singleton_Some in Hj as [_ <-].
      rewrite py_eqb_sym, Hfresh in Hab; [done|].
      by eapply list_elem_of_lookup_2.
    + apply list_lookup_singleton_Some in Hi as [_ <-].
      rewrite Hfresh in Hab; [done|]. by eapply list_elem_of_lookup_2.
    + apply list_lookup_singleton_Some in Hi as [? _].
      apply list_lookup_singleton_Some in Hj as [? _]. lia.
Qed.

Lemma set_update_Raise_iff (s xs : list pyval) :
  (∃ e, set_update s xs = Raise e) ↔ ∃ x, x ∈ xs ∧ py_hashable x = false.
Proof.
  revert s. induction xs as [|x xs IH]; intros s; simpl.
  - split; [by intros [? ?] | by intros (? & ?%elem_of_nil & _)].
  - destruct (py_hashable x) eqn:Hx.
    + rewrite IH. split.
      * intros (y & ? & ?). exists y. split; [by right | done].
      * intros (y & [-> | ?]%elem_of_cons & Hy); [congruence | by exists y].
    + split; [|by eexists]. intros _. exists x. split; [by left | done].
Qed.

Lemma set_update_Raise_class (s xs : list pyval) e :
  set_update s xs = Raise e → exn_cls e = TypeError.
Proof.
  revert s. induction xs as [|x xs IH]; intros s; simpl; [done|].
  destruct (py_hashable x); [apply IH | by intros [= <-]].
Qed.

Section GraphletFacts.

Variable json_decode : string → option pyval.

Lemma collect_requirement_ids_cons clause rest ids :
  PlannerNeo4jImpl.collect_requirement_ids json_decode (clause :: rest) ids =
    (ids' ← set_update ids (clause_ids json_decode clause);
     PlannerNeo4jImpl.collect_requirement_ids json_decode rest ids').
Proof.
  simpl. unfold clause_ids.
  destruct (py_get clause "logic_tree") as [s|]; [|done].
  rewrite extract_from_string. unfold truthy.
  by destruct (String.eqb s "").
Qed.

Lemma referenced_by_iff clauses x :
  referenced_by json_decode clauses x ↔
  ∃ clause, clause ∈ clauses ∧ x ∈ clause_ids json_decode clause.
Proof.
  unfold referenced_by, clause_ids. split.
  - intros (clause & s & t & Hc & Hl & Hs & Ht & Hx). exists clause.
    split; [done|]. rewrite Hl, Ht. by destruct (String.eqb_spec s "").
  - intros (clause & Hc & Hx). exists clause.
    destruct (py_get clause "logic_tree") as [s|]; [|by apply elem_of_nil in Hx].
    destruct (String.eqb_spec s ""); [by apply elem_of_nil in Hx|].
    destruct (json_decode s) as [t|] eqn:Ht; [|by apply elem_of_nil in Hx].
    by exists s, t.
Qed.

Lemma existsb_py_eqb_mono x (s s' : list pyval) :
  (∀ y, y ∈ s → y ∈ s') →
  existsb (py_eqb x) s = true → existsb (py_eqb x) s' = true.
Proof.
  intros Hsub (y & Hy & Hxy)%existsb_exists. apply existsb_exists.
  exists y. split; [|done]. by apply list_elem_of_In, Hsub, list_elem_of_In.
Qed.

Lemma collect_requirement_ids_Ok clauses ids ids' :
  PlannerNeo4jImpl.collect_requirement_ids json_decode clauses ids = Ok ids' →
  (py_set ids → py_set ids')
  ∧ (∀ x, x ∈ ids' → x ∈ ids ∨ referenced_by json_decode clauses x)
  ∧ (∀ x, x ∈ ids → x ∈ ids')
  ∧ (∀ x, referenced_by json_decode clauses x →
          py_hashable x = true ∧ existsb (py_eqb x) ids' = true).
Proof.
  revert ids. induction clauses as [|clause rest IH]; intros ids.
  - simpl. intros [= <-]. split; [done|]. split; [by left|]. split; [done|].
    by intros x (? & ? & ? & ?%elem_of_nil & _).
  - rewrite collect_requirement_ids_cons.
    intros (ids1 & Hupd & Hrest)%bind_Ok_inv.
    destruct (IH _ Hrest) as (Hset & Hsound & Hmono & Hcomplete).
    destruct (set_update_Ok_inv _ _ _ Hupd) as (Hhash & Hsound1 & Hmono1).
    split; [|split; [|split]].
    + intros Hs. by apply Hset, (set_update_py_set ids (clause_ids json_decode clause)).
    + intros x [Hx | Hx]%Hsound.
      * apply Hsound1 in Hx as [Hx | Hx]; [by left|]. right.
        apply referenced_by_iff. exists clause. split; [by left | done].
      * right. apply referenced_by_iff in Hx as (c & Hc & Hx).
        apply referenced_by_iff. exists c. split; [by right | done].
    + intros x Hx. by apply Hmono, Hmono1.
    + intros x (c & [-> | Hc]%elem_of_cons & Hx)%referenced_by_iff.
      * pose proof (set_update_members _ _ _ Hupd) as Hmem.
        rewrite Forall_forall in Hmem. destruct (Hmem x Hx) as [Hh Hin].
        split; [done|]. by apply (existsb_py_eqb_mono x ids1).
      * apply Hcomplete, referenced_by_iff. by exists c.
Qed.

Lemma collect_requirement_ids_Raise_iff clauses ids :
  (∃ e, PlannerNeo4jImpl.collect_requirement_ids json_decode clauses ids = Raise e)
  ↔ ∃ x, referenced_by json_decode clauses x ∧ py_hashable x = false.
Proof.
  revert ids. induction clauses as [|clause rest IH]; intros ids.
  - simpl. split; [by intros [? ?]|].
    by intros (? & (? & ? & ? & ?%elem_of_nil & _) & _).
  - rewrite collect_requirement_ids_cons. split.
    + intros [e He].
      destruct (set_update ids (clause_ids json_decode clause)) as [ids1|e1] eqn:Hupd.
      * simpl in He. destruct (proj1 (IH ids1)) as (x & Hx & Hh); [by exists e|].
        exists x. split; [|done].
        apply referenced_by_iff in Hx as (c & Hc & Hx).
        apply referenced_by_iff. exists c. split; [by right | done].
      * destruct (proj1 (set_update_Raise_iff ids (clause_ids json_decode clause)))
          as (x & Hx & Hh); [by exists e1|].
        exists x. split; [|done]. apply referenced_by_iff.
        exists clause. split; [by left | done].
    + intros (x & (c & [-> | Hc]%elem_of_cons & Hx)%referenced_by_iff & Hh).
      * destruct (proj2 (set_update_Raise_iff ids (clause_ids json_decode clause)))
          as [e ->]; [by exists x|]. by exists e.
      * destruct (set_update ids (clause_ids json_decode clause)) as [ids1|e1];
          simpl; [|by exists e1].
        apply IH. exists x. split; [|done]. apply referenced_by_iff. by exists c.
Qed.

Lemma collect_requirement_ids_Raise_class clauses ids e :
  PlannerNeo4jImpl.collect_requirement_ids json_decode clauses ids = Raise e →
  exn_cls e = TypeError.
Proof.
  revert ids. induction clauses as [|clause rest IH]; intros ids; [done|].
  rewrite collect_requirement_ids_cons.
  destruct (set_update ids (clause_ids json_decode clause)) as [ids1|e1] eqn:Hupd;
    simpl; [apply IH|].
  intros [= <-]. by eapply set_update_Raise_class.
Qed.

End GraphletFacts.

Lemma get_complete_graphlet_None_iff json_decode driver claim_id :
  PlannerNeo4jImpl.get_complete_graphlet json_decode driver claim_id = Ok None ↔
  Neo4j.match_graphlet driver claim_id = Ok None.
Proof.
  unfold PlannerNeo4jImpl.get_complete_graphlet.
  destruct (Neo4j.match_graphlet driver claim_id) as [[record|]|e]; simpl;
    [|done | done].
  destruct (rows_with_id (Neo4j.clauses record)) as [cs|e]; simpl; [|done].
  destruct (rows_with_id (Neo4j.scopes record)) as [ss|e]; simpl; [|done].
  destruct (rows_with_id (Neo4j.qualifiers record)) as [qs|e]; simpl; [|done].
  destruct (PlannerNeo4jImpl.collect_requirement_ids json_decode cs [])
    as [[|x ids]|e]; simpl; [done | | done].
  by destruct (Neo4j.match_requirements driver (x :: ids)).
Qed.

Lemma get_complete_graphlet_Some_inv json_decode driver claim_id g :
  PlannerNeo4jImpl.get_complete_graphlet json_decode driver claim_id
    = Ok (Some g) →
  ∃ record ids,
    Neo4j.match_graphlet driver claim_id = Ok (Some record) ∧
    Graphlet.clauses g = filter has_id (Neo4j.clauses record) ∧
    Graphlet.scopes g = filter has_id (Neo4j.scopes record) ∧
    Graphlet.qualifiers g = filter has_id (Neo4j.qualifiers record) ∧
    PlannerNeo4jImpl.collect_requirement_ids json_decode (Graphlet.clauses g) []
      = Ok ids ∧
    ((ids = [] ∧ Graphlet.requirements g = []) ∨
     (ids ≠ [] ∧ ∃ rows, Neo4j.match_requirements driver ids = Ok rows ∧
                         Graphlet.requirements g = requirement_of_row <$> rows)).
Proof.
  unfold PlannerNeo4jImpl.get_complete_graphlet.
  destruct (Neo4j.match_graphlet driver claim_id) as [[record|]|e]; simpl;
    [|done | done].
  destruct (rows_with_id (Neo4j.clauses record)) as [cs|e] eqn:Hcs; simpl; [|done].
  destruct (rows_with_id (Neo4j.scopes record)) as [ss|e] eqn:Hss; simpl; [|done].
  destruct (rows_with_id (Neo4j.qualifiers record)) as [qs|e] eqn:Hqs; simpl;
    [|done].
  apply rows_with_id_Ok in Hcs as [-> _]. apply rows_with_id_Ok in Hss as [-> _].
  apply rows_with_id_Ok in Hqs as [-> _].
  destruct (PlannerNeo4jImpl.collect_requirement_ids json_decode _ [])
    as [[|x ids]|e] eqn:Hids; simpl; [| | done].
  - intros [= <-]. exists record, []. simpl. repeat split; try done. by left.
  - destruct (Neo4j.match_requirements driver (x :: ids)) as [rows|e] eqn:Hrows;
      simpl; [|done].
    intros [= <-]. exists record, (x :: ids). simpl. repeat split; try done.
    right. split; [done|]. by exists rows.
Qed.

(** X9.  [get_complete_graphlet] tells "not found" from "found but empty":
    it returns [None] exactly when the graphlet query has no record, and a
    record always yields a graphlet, whose clauses, scopes and qualifiers
    are the rows of the record that carry a non-empty id, in the record's
    order (the rows of nulls that an unmatched OPTIONAL MATCH leaves are
    dropped). *)
Theorem graphlet_keeps_rows_with_ids
    (json_decode : string → option pyval) (driver : Neo4j.driver)
    (claim_id : option string) :
  (PlannerNeo4jImpl.get_complete_graphlet json_decode driver claim_id = Ok None ↔
   Neo4j.match_graphlet driver claim_id = Ok None)
  ∧ (∀ g,
       PlannerNeo4jImpl.get_complete_graphlet json_decode driver claim_id
         = Ok (Some g) →
       ∃ record,
         Neo4j.match_graphlet driver claim_id = Ok (Some record) ∧
         Graphlet.clauses g = filter has_id (Neo4j.clauses record) ∧
         Graphlet.scopes g = filter has_id (Neo4j.scopes record) ∧
         Graphlet.qualifiers g = filter has_id (Neo4j.qualifiers record) ∧
         Forall has_id (Graphlet.clauses g ++ Graphlet.scopes g
                          ++ Graphlet.qualifiers g)).
Proof.
  split; [apply get_complete_graphlet_None_iff|].
  intros g (record & ids & Hrec & Hc & Hs & Hq & _)%get_complete_graphlet_Some_inv.
  exists record. repeat (split; [done|]). rewrite Hc, Hs, Hq.
  rewrite !Forall_app. repeat split; apply Forall_forall;
    by intros r [? _]%list_elem_of_filter.
Qed.

Lemma graphlet_keeps_rows_with_ids_witness :
  ∃ record,
    Neo4j.match_graphlet sample_driver (Some "ac_online_ca") = Ok (Some record) ∧
    [sample_clause_row] = filter has_id (Neo4j.clauses record) ∧
    [sample_scope_row] = filter has_id (Neo4j.scopes record) ∧
    [] = filter has_id (Neo4j.qualifiers record) ∧
    Forall has_id ([sample_clause_row] ++ [sample_scope_row] ++ []).
Proof.
  apply (proj2 (graphlet_keeps_rows_with_ids decode_sample sample_driver
                  (Some "ac_online_ca"))
           (Graphlet.mk
              {[ "id" := Some "ac_online_ca"; "outcome" := Some "consensus";
                 "rationale" := None; "confidence" := None ]}
              [sample_clause_row] [sample_scope_row] []
              [sample_requirement_row])).
  vm_compute. reflexivity.
Defined.

(** X10.  The identities [get_complete_graphlet] sends to the requirement
    query form a set: each is hashable, no two are equal, every one is
    referenced by the logic tree of a kept clause, and every referenced
    identity is among them.  The query is not run when nothing is
    referenced, and the graphlet's requirements are exactly the rows the
    query returns, one requirement per row. *)
Theorem graphlet_requirement_ids_form_a_set
    (json_decode : string → option pyval) (driver : Neo4j.driver)
    (claim_id : option string) (g : Graphlet.t) :
  PlannerNeo4jImpl.get_complete_graphlet json_decode driver claim_id
    = Ok (Some g) →
  ∃ ids,
    py_set ids
    ∧ (∀ x, x ∈ ids → referenced_by json_decode (Graphlet.clauses g) x)
    ∧ (∀ x, referenced_by json_decode (Graphlet.clauses g) x →
            existsb (py_eqb x) ids = true)
    ∧ ((ids = [] ∧ Graphlet.requirements g = []) ∨
       (ids ≠ [] ∧ ∃ rows, Neo4j.match_requirements driver ids = Ok rows ∧
                           Graphlet.requirements g = requirement_of_row <$> rows)).
Proof.
  intros (record & ids & _ & _ & _ & _ & Hids & Hreqs)%get_complete_graphlet_Some_inv.
  destruct (collect_requirement_ids_Ok _ _ _ _ Hids)
    as (Hset & Hsound & _ & Hcomplete).
  exists ids. split; [|split; [|split]]; [| | |done].
  - apply Hset. split; [done|]. intros i j x y Hi. by rewrite lookup_nil in Hi.
  - intros x [?%elem_of_nil | Hx]%Hsound; done.
  - intros x Hx. by apply Hcomplete.
Qed.

Lemma graphlet_requirement_ids_form_a_set_witness :
  ∃ ids,
    py_set ids
    ∧ (∀ x, x ∈ ids → referenced_by decode_sample [sample_clause_row] x)
    ∧ (∀ x, referenced_by decode_sample [sample_clause_row] x →
            existsb (py_eqb x) ids = true)
    ∧ ((ids = [] ∧ [sample_requirement_row] = []) ∨
       (ids ≠ [] ∧
        ∃ rows, Neo4j.match_requirements sample_driver ids = Ok rows ∧
                [sample_requirement_row] = requirement_of_row <$> rows)).
Proof.
  apply (graphlet_requirement_ids_form_a_set decode_sample sample_driver
           (Some "ac_online_ca")
           (Graphlet.mk
              {[ "id" := Some "ac_online_ca"; "outcome" := Some "consensus";
                 "rationale" := None; "confidence" := None ]}
              [sample_clause_row] [sample_scope_row] []
              [sample_requirement_row])).
  vm_compute. reflexivity.
Defined.

(** A claim the planner evaluates and whose evaluation raises aborts the
    roadmap. *)
Lemma roadmap_claim_raises neo4j user_state claim_id e :
  evaluated_claim neo4j claim_id →
  PlannerCore.claim_body neo4j user_state claim_id [] = Raise e →
  ∃ e', PlannerCore.roadmap neo4j user_state = roadmap_failure (exn_msg e').
Proof.
  intros (all_goals & goal & solutions & solution & claims
          & Hgoals & Hgoal & Hsols & Hsol & Hclaims & Hclaim) Hraise.
  assert (∃ e1, PlannerCore.solution_body neo4j user_state (Goal.id goal)
                  solution [] = Raise e1) as [e1 He1].
  { rewrite PlannerCoreFacts.solution_body_eq. unfold viable_claims_of.
    rewrite Hclaims. simpl.
    destruct (for_each_raises _ claims claim_id e
                (PlannerCoreFacts.claim_body_appending neo4j user_state)
                Hclaim Hraise) as [e' ->].
    by exists e'. }
  destruct (goal_body_solution_raises _ _ _ _ _ _ Hsols Hsol He1) as [e2 He2].
  by apply (roadmap_goal_raises _ _ _ _ _ Hgoals Hgoal He2).
Qed.

(** X11.  A logic tree with a leaf whose id is not hashable (a JSON list
    or object) makes [get_complete_graphlet] fail: the extraction returns
    the id, [requirement_ids.update] raises on it, and the method re-raises
    with its own message.  A roadmap that evaluates such a claim fails, for
    every user. *)
Theorem unhashable_requirement_id_fails_the_graphlet
    (json_decode : string → option pyval) (driver : Neo4j.driver)
    (claim_id : option string) (record : Neo4j.graphlet_record) (x : pyval) :
  Neo4j.match_graphlet driver claim_id = Ok (Some record) →
  referenced_by json_decode (filter has_id (Neo4j.clauses record)) x →
  py_hashable x = false →
  evaluated_claim (PlannerNeo4jImpl.planner_neo4j json_decode driver) claim_id →
  (∃ m, PlannerNeo4jImpl.get_complete_graphlet json_decode driver claim_id
          = raise_Exception ("Failed to get complete graphlet for "
                               +:+ py_str claim_id +:+ ": " +:+ m))
  ∧ ∀ user_state, ∃ m,
      PlannerCore.roadmap (PlannerNeo4jImpl.planner_neo4j json_decode driver)
        user_state = roadmap_failure m.
Proof.
  intros Hrec Hx Hhash Heval.
  assert (∃ m, PlannerNeo4jImpl.get_complete_graphlet json_decode driver claim_id
                 = raise_Exception ("Failed to get complete graphlet for "
                                      +:+ py_str claim_id +:+ ": " +:+ m))
    as [m Hm].
  { unfold PlannerNeo4jImpl.get_complete_graphlet. rewrite Hrec. simpl.
    destruct (rows_with_id (Neo4j.clauses record)) as [cs|e] eqn:Hcs; simpl;
      [|by eexists].
    apply rows_with_id_Ok in Hcs as [-> _].
    destruct (rows_with_id (Neo4j.scopes record)) as [ss|e]; simpl; [|by eexists].
    destruct (rows_with_id (Neo4j.qualifiers record)) as [qs|e]; simpl;
      [|by eexists].
    destruct (proj2 (collect_requirement_ids_Raise_iff json_decode
                       (filter has_id (Neo4j.clauses record)) []))
      as [e ->]; [by exists x|].
    simpl. by eexists. }
  split; [by exists m|]. intros user_state.
  destruct (roadmap_claim_raises _ user_state claim_id
              (MkExn Exception ("Failed to get complete graphlet for "
                                  +:+ py_str claim_id +:+ ": " +:+ m)) Heval)
    as [e' He'].
  - unfold PlannerCore.claim_body.
    change (get_complete_graphlet
              (PlannerNeo4jImpl.planner_neo4j json_decode driver) claim_id)
      with (PlannerNeo4jImpl.get_complete_graphlet json_decode driver claim_id).
    by rewrite Hm.
  - by exists (exn_msg e').
Qed.

Lemma unhashable_requirement_id_fails_the_graphlet_witness :
  (∃ m, PlannerNeo4jImpl.get_complete_graphlet decode_list_id list_id_driver
          (Some "ac_online_ca")
          = raise_Exception ("Failed to get complete graphlet for "
                               +:+ py_str (Some "ac_online_ca") +:+ ": " +:+ m))
  ∧ ∀ user_state, ∃ m,
      PlannerCore.roadmap (PlannerNeo4jImpl.planner_neo4j decode_list_id
                             list_id_driver) user_state = roadmap_failure m.
Proof.
  apply (unhashable_requirement_id_fails_the_graphlet decode_list_id
           list_id_driver (Some "ac_online_ca")
           {| Neo4j.ac := {[ "id" := Some "ac_online_ca" ]};
              Neo4j.clauses :=
                [ {[ "id" := Some "clause_1";
                     "logic_tree" := Some list_id_text ]} ];
              Neo4j.scopes := [];
              Neo4j.qualifiers := [] |}
           (PyList [PyStr "req_a"; PyStr "req_b"])).
  - reflexivity.
  - exists {[ "id" := Some "clause_1"; "logic_tree" := Some list_id_text ]},
      list_id_text, list_id_leaf.
    split; [vm_compute; left | split; [reflexivity|]].
    split; [discriminate|]. split; [reflexivity | vm_compute; left].
  - reflexivity.
  - exists [goal_of_node sample_goal_node], (goal_of_node sample_goal_node),
      [Solution.mk (Some "sol_online_bank") (Some "Online Bank")
         (Some "An account opened online")],
      (Solution.mk (Some "sol_online_bank") (Some "Online Bank")
         (Some "An account opened online")),
      [Some "ac_online_ca"].
    repeat split; try (vm_compute; reflexivity); by left.
Defined.

(** X12.  Requirements the database does not know are silently dropped: a
    claim without a scope whose logic trees name only requirements for
    which the requirement query returns no row (or name none at all) has
    an empty list of requirements, so it passes both gates for every user,
    also one with no facts. *)
Theorem unresolved_requirements_are_dropped
    (json_decode : string → option pyval) (driver : Neo4j.driver)
    (claim_id : option string) (record : Neo4j.graphlet_record)
    (ids : list pyval) :
  Neo4j.match_graphlet driver claim_id = Ok (Some record) →
  Forall (λ r, is_Some (r !! "id"))
    (Neo4j.clauses record ++ Neo4j.scopes record ++ Neo4j.qualifiers record) →
  Forall (λ r, ¬ has_id r) (Neo4j.scopes record) →
  PlannerNeo4jImpl.collect_requirement_ids json_decode
    (filter has_id (Neo4j.clauses record)) [] = Ok ids →
  ids = [] ∨ Neo4j.match_requirements driver ids = Ok [] →
  ∀ user_state,
    passes_both_gates (PlannerNeo4jImpl.planner_neo4j json_decode driver)
      user_state claim_id.
Proof.
  intros Hrec Hkeys Hnone Hids Hrows user_state.
  rewrite !Forall_app in Hkeys. destruct Hkeys as (Hc & Hs & Hq).
  assert (filter has_id (Neo4j.scopes record) = []) as Hscopes.
  { clear Hs. induction Hnone as [|r rows Hr _ IH]; [done|].
    rewrite filter_cons. by case_decide. }
  eexists. split; [|split].
  - change (get_complete_graphlet
              (PlannerNeo4jImpl.planner_neo4j json_decode driver) claim_id)
      with (PlannerNeo4jImpl.get_complete_graphlet json_decode driver claim_id).
    unfold PlannerNeo4jImpl.get_complete_graphlet. rewrite Hrec. simpl.
    rewrite (rows_with_id_keys _ Hc), (rows_with_id_keys _ Hs),
      (rows_with_id_keys _ Hq). simpl. rewrite Hids. simpl.
    destruct Hrows as [-> | Hrows]; [reflexivity|].
    destruct ids as [|x ids]; [reflexivity|]. rewrite Hrows. reflexivity.
  - simpl. by rewrite Hscopes.
  - simpl. destruct Hrows as [-> | Hrows]; [done|]. by destruct ids.
Qed.

Lemma unresolved_requirements_are_dropped_witness :
  passes_both_gates (PlannerNeo4jImpl.planner_neo4j decode_sample dangling_driver)
    blank_user_state (Some "ac_online_ca").
Proof.
  apply (unresolved_requirements_are_dropped decode_sample dangling_driver
           (Some "ac_online_ca") dangling_graphlet_record [PyStr "req_ssn"]).
  - reflexivity.
  - repeat constructor; vm_compute; by eexists.
  - repeat constructor. vm_compute. discriminate.
  - vm_compute. reflexivity.
  - right. reflexivity.
Defined.

(** ** Order and size of the roadmap *)

(** A loop whose body appends at most one item, which carries the key of
    the element it was built from, yields the keys of a sublist of its
    input. *)
Lemma for_each_sublist {A B C} (body : A → list B → result (list B))
    (f : B → C) (h : A → C) xs all :
  appending body →
  (∀ x items, x ∈ xs → body x [] = Ok items →
     items = [] ∨ ∃ b, items = [b] ∧ f b = h x) →
  for_each body xs [] = Ok all →
  f <$> all `sublist_of` h <$> xs.
Proof.
  intros Happ. revert all. induction xs as [|x xs IH]; intros all Hone.
  - simpl. by intros [= <-].
  - rewrite for_each_cons_appending by done.
    intros (items & Hx & (more & Hxs & [= <-])%bind_Ok_inv)%bind_Ok_inv.
    assert (f <$> more `sublist_of` h <$> xs) as Hsub.
    { apply IH; [|done]. intros y its Hy. apply Hone. by right. }
    destruct (Hone x items (list_elem_of_here _ _) Hx) as [-> | (b & -> & Hb)].
    + simpl. by apply sublist_cons.
    + simpl. rewrite Hb. by apply sublist_skip.
Qed.

(** The loop returns nothing exactly when every element's body returns
    nothing. *)
Lemma for_each_Ok_nil {A B} (body : A → list B → result (list B)) xs :
  appending body →
  for_each body xs [] = Ok [] ↔ ∀ x, x ∈ xs → body x [] = Ok [].
Proof.
  intros Happ. induction xs as [|x xs IH].
  - simpl. split; [by intros _ x ?%elem_of_nil | done].
  - rewrite for_each_cons_appending by done. split.
    + intros (items & Hx & (more & Hxs & [= Hnil])%bind_Ok_inv)%bind_Ok_inv.
      apply app_eq_nil in Hnil as [-> ->].
      intros y [-> | Hy]%elem_of_cons; [done|]. by apply IH.
    + intros Hall. rewrite (Hall x (list_elem_of_here _ _)). simpl.
      rewrite (proj2 IH); [done|]. intros y Hy. apply Hall. by right.
Qed.

Lemma filter_fmap {A B} (f : A → B) (P : B → Prop) `{!∀ y, Decision (P y)}
    (l : list A) :
  filter P (f <$> l) = f <$> filter (λ x, P (f x)) l.
Proof.
  induction l as [|x l IH]; [done|]. rewrite fmap_cons, !filter_cons.
  case_decide; rewrite ?fmap_cons; by rewrite IH.
Qed.

Lemma goal_body_Ok neo4j user_state goal items :
  PlannerCore.goal_body neo4j user_state goal [] = Ok items →
  ∃ solutions viable,
    get_solutions_for_goal neo4j (Goal.id goal) = Ok solutions ∧
    for_each (PlannerCore.solution_body neo4j user_state (Goal.id goal))
      solutions [] = Ok viable ∧
    ((viable = [] ∧ items = []) ∨
     (viable ≠ [] ∧ items = [goal_data_of goal viable])).
Proof.
  rewrite PlannerCoreFacts.goal_body_eq.
  intros (solutions & Hsols & (viable & Hviable & Hitems)%bind_Ok_inv)%bind_Ok_inv.
  exists solutions, viable. split; [done|]. split; [done|].
  destruct viable; injection Hitems as <-; [by left | by right].
Qed.

Lemma solution_loop_fields neo4j user_state goal_id solutions viable :
  for_each (PlannerCore.solution_body neo4j user_state goal_id) solutions []
    = Ok viable →
  (λ d, (solution_id d, solution_name d, solution_description d)) <$> viable
    `sublist_of` solution_fields <$> solutions.
Proof.
  apply for_each_sublist.
  - apply PlannerCoreFacts.solution_body_appending.
  - intros solution items _ [[_ ->] | (vc & sd & _ & _ & _ & ->)]%solution_body_Ok;
      [by left | right]. by eexists.
Qed.

(** X13.  The goals of a returned roadmap are goals of the catalog, in the
    catalog's order, with the catalog's id, name, phase and description;
    [total_goals] is their number and never exceeds the size of the
    catalog. *)
Theorem roadmap_goals_in_catalog_order
    (neo4j : PlannerNeo4j) (user_state : UserState.t) (r : Out.roadmap_data) :
  PlannerCore.roadmap neo4j user_state = Ok r →
  ∃ all_goals,
    get_goals_by_phase neo4j None = Ok all_goals ∧
    emitted_goal_fields <$> Out.goals r `sublist_of` goal_fields <$> all_goals ∧
    Out.total_goals r = length (Out.goals r) ∧
    (Out.total_goals r ≤ length all_goals)%nat.
Proof.
  intros (all_goals & viable_goals & Hgoals & Hloop & ->)%PlannerCoreFacts.roadmap_Ok_inv.
  exists all_goals. simpl.
  assert (emitted_goal_fields <$> (PlannerCore.goal_dict_of <$> viable_goals)
            `sublist_of` goal_fields <$> all_goals) as Hsub.
  { rewrite <-list_fmap_compose.
    apply (for_each_sublist (PlannerCore.goal_body neo4j user_state)); [| |done].
    - apply PlannerCoreFacts.goal_body_appending.
    - intros goal items _ (solutions & viable & _ & _ & [[_ ->] | [_ ->]])%goal_body_Ok;
        [by left | right]. by eexists. }
  split; [done|]. split; [done|]. rewrite length_fmap.
  apply sublist_length in Hsub. by rewrite !length_fmap in Hsub.
Qed.

Lemma roadmap_goals_in_catalog_order_witness :
  ∃ all_goals,
    get_goals_by_phase sample_neo4j None = Ok all_goals ∧
    emitted_goal_fields <$> Out.goals sample_roadmap
      `sublist_of` goal_fields <$> all_goals ∧
    Out.total_goals sample_roadmap = length (Out.goals sample_roadmap) ∧
    (Out.total_goals sample_roadmap ≤ length all_goals)%nat.
Proof.
  apply (roadmap_goals_in_catalog_order sample_neo4j sample_user_state).
  vm_compute. reflexivity.
Defined.

(** X14.  The solutions of an emitted goal are solutions the catalog lists
    for that goal, each with the catalog's id, name and description: up to
    order they are a sublist of the catalog's list, and the sort by
    [strategy_ranking] is stable, so the solutions of any one rank appear
    in the catalog's order. *)
Theorem roadmap_solutions_stable_catalog_order
    (neo4j : PlannerNeo4j) (user_state : UserState.t) (r : Out.roadmap_data)
    (g : Out.goal_dict) :
  PlannerCore.roadmap neo4j user_state = Ok r →
  g ∈ Out.goals r →
  ∃ all_goals goal solutions kept,
    get_goals_by_phase neo4j None = Ok all_goals ∧ goal ∈ all_goals ∧
    emitted_goal_fields g = goal_fields goal ∧
    get_solutions_for_goal neo4j (Goal.id goal) = Ok solutions ∧
    kept `sublist_of` solution_fields <$> solutions ∧
    emitted_solution_fields <$> Out.solutions g ≡ₚ kept ∧
    ∀ k : nat,
      emitted_solution_fields
        <$> filter (λ d, Out.strategy_ranking d = k) (Out.solutions g)
      `sublist_of` solution_fields <$> solutions.
Proof.
  intros (all_goals & viable_goals & Hgoals & Hloop & ->)%PlannerCoreFacts.roadmap_Ok_inv.
  simpl. intros (gd & -> & Hgd)%list_elem_of_fmap.
  destruct (for_each_Ok_origin _ _ _ _
              (PlannerCoreFacts.goal_body_appending neo4j user_state) Hloop Hgd)
    as (goal & items & Hgoal & Hbody & Hitem).
  apply goal_body_Ok in Hbody
    as (solutions & viable & Hsols & Hviable & [[_ ->] | [_ ->]]);
    [by apply elem_of_nil in Hitem|].
  apply list_elem_of_singleton in Hitem as ->.
  pose proof (solution_loop_fields _ _ _ _ _ Hviable) as Hsub.
  exists all_goals, goal, solutions,
    ((λ d, (solution_id d, solution_name d, solution_description d)) <$> viable).
  repeat (split; [done|]). simpl. split.
  - rewrite <-list_fmap_compose. apply fmap_Permutation, sort_by_key_perm.
  - intros k.
    rewrite (filter_fmap PlannerCore.solution_dict_of
               (λ d, Out.strategy_ranking d = k)).
    simpl. rewrite (sort_by_key_stable strategy_ranking k viable).
    rewrite <-list_fmap_compose. etrans; [|exact Hsub].
    apply (fmap_sublist
             (λ d, (solution_id d, solution_name d, solution_description d))).
    apply sublist_filter.
Qed.

Lemma roadmap_solutions_stable_catalog_order_witness :
  ∃ all_goals goal solutions kept,
    get_goals_by_phase sample_neo4j None = Ok all_goals ∧ goal ∈ all_goals ∧
    emitted_goal_fields sample_bank_goal = goal_fields goal ∧
    get_solutions_for_goal sample_neo4j (Goal.id goal) = Ok solutions ∧
    kept `sublist_of` solution_fields <$> solutions ∧
    emitted_solution_fields <$> Out.solutions sample_bank_goal ≡ₚ kept ∧
    ∀ k : nat,
      emitted_solution_fields
        <$> filter (λ d, Out.strategy_ranking d = k)
              (Out.solutions sample_bank_goal)
      `sublist_of` solution_fields <$> solutions.
Proof.
  apply (roadmap_solutions_stable_catalog_order sample_neo4j sample_user_state
           sample_roadmap).
  - vm_compute. reflexivity.
  - vm_compute. left.
Defined.

Lemma passes_gates_iff neo4j user_state claim_id :
  passes_gates neo4j user_state claim_id = true ↔
  passes_both_gates neo4j user_state claim_id.
Proof.
  unfold passes_gates, passes_both_gates. split.
  - destruct (get_complete_graphlet neo4j claim_id) as [[g|]|e]; [|done|done].
    intros [Hs Hr]%andb_true_iff. exists g. split; [done|]. split; [done|].
    destruct (RequirementChecker.is_viable _ _) as [b|e]; [by rewrite Hr | done].
  - intros (g & Hg & Hs & Hr). rewrite Hg. simpl. by rewrite Hs, Hr.
Qed.

Lemma claim_body_passes_gates neo4j user_state claim_id items :
  PlannerCore.claim_body neo4j user_state claim_id [] = Ok items →
  length items = if passes_gates neo4j user_state claim_id then 1%nat else 0%nat.
Proof.
  unfold PlannerCore.claim_body, passes_gates.
  destruct (get_complete_graphlet neo4j claim_id) as [[g|]|e]; simpl;
    [| by intros [= <-] | done].
  destruct (ScopeValidator.is_viable _ _); simpl; [|by intros [= <-]].
  destruct (RequirementChecker.is_viable _ _) as [[|]|e]; simpl;
    [by intros [= <-] | by intros [= <-] | done].
Qed.

Lemma claim_loop_counts neo4j user_state claims viable :
  for_each (PlannerCore.claim_body neo4j user_state) claims [] = Ok viable →
  length viable
    = length (filter (λ c, passes_gates neo4j user_state c = true) claims).
Proof.
  revert viable. induction claims as [|c claims IH]; intros viable.
  - simpl. by intros [= <-].
  - rewrite for_each_cons_appending
      by apply PlannerCoreFacts.claim_body_appending.
    intros (items & Hc & (more & Hrest & [= <-])%bind_Ok_inv)%bind_Ok_inv.
    rewrite length_app, (IH _ Hrest), (claim_body_passes_gates _ _ _ _ Hc).
    rewrite filter_cons.
    destruct (passes_gates neo4j user_state c); by case_decide.
Qed.

(** X15.  [assessed_claims_count] of an emitted solution is the number of
    entries of the solution's claim list that pass both gates: at least
    one, at most the length of the list. *)
Theorem assessed_claims_count_counts_viable_claims
    (neo4j : PlannerNeo4j) (user_state : UserState.t) (r : Out.roadmap_data)
    (g : Out.goal_dict) (d : Out.solution_dict) :
  PlannerCore.roadmap neo4j user_state = Ok r →
  g ∈ Out.goals r →
  d ∈ Out.solutions g →
  ∃ assessed_claims,
    get_assessed_claims_for_solution neo4j (Out.solution_id d)
      = Ok assessed_claims ∧
    Out.assessed_claims_count d
      = length (filter (λ c, passes_gates neo4j user_state c = true)
                  assessed_claims) ∧
    (∀ c, passes_gates neo4j user_state c = true ↔
          passes_both_gates neo4j user_state c) ∧
    (1 ≤ Out.assessed_claims_count d ≤ length assessed_claims)%nat.
Proof.
  intros (all_goals & viable_goals & Hgoals & Hloop & ->)%PlannerCoreFacts.roadmap_Ok_inv.
  simpl. intros (gd & -> & Hgd)%list_elem_of_fmap.
  destruct (for_each_Ok_origin _ _ _ _
              (PlannerCoreFacts.goal_body_appending neo4j user_state) Hloop Hgd)
    as (goal & items & Hgoal & Hbody & Hitem).
  apply goal_body_Ok in Hbody
    as (solutions & viable & Hsols & Hviable & [[_ ->] | [_ ->]]);
    [by apply elem_of_nil in Hitem|].
  apply list_elem_of_singleton in Hitem as ->. simpl.
  intros (sd & -> & Hsd)%list_elem_of_fmap.
  rewrite sort_by_key_perm in Hsd.
  destruct (for_each_Ok_origin _ _ _ _
              (PlannerCoreFacts.solution_body_appending neo4j user_state _)
              Hviable Hsd)
    as (solution & sitems & Hsolution & Hsbody & Hsitem).
  apply solution_body_Ok in Hsbody
    as [[_ ->] | (vc & strategy & Hvc & Hne & _ & ->)];
    [by apply elem_of_nil in Hsitem|].
  apply list_elem_of_singleton in Hsitem as ->. simpl.
  unfold viable_claims_of in Hvc.
  apply bind_Ok_inv in Hvc as (claims & Hclaims & Hcloop).
  exists claims. split; [done|].
  pose proof (claim_loop_counts _ _ _ _ Hcloop) as Hcount.
  split; [done|]. split; [intros c; apply passes_gates_iff|].
  rewrite Hcount. split; [|apply length_filter].
  rewrite <-Hcount. destruct vc; [done | simpl; lia].
Qed.

Lemma assessed_claims_count_counts_viable_claims_witness :
  ∃ assessed_claims,
    get_assessed_claims_for_solution sample_neo4j (Some "sol_online_bank")
      = Ok assessed_claims ∧
    1%nat
      = length (filter (λ c, passes_gates sample_neo4j sample_user_state c = true)
                  assessed_claims) ∧
    (∀ c, passes_gates sample_neo4j sample_user_state c = true ↔
          passes_both_gates sample_neo4j sample_user_state c) ∧
    (1 ≤ 1 ≤ length assessed_claims)%nat.
Proof.
  apply (assessed_claims_count_counts_viable_claims sample_neo4j
           sample_user_state sample_roadmap sample_bank_goal
           {| Out.solution_id := Some "sol_online_bank";
              Out.solution_name := Some "Online Bank";
              Out.solution_description := Some "";
              Out.strategy_ranking := 0;
              Out.user_rationale := "Online banks open accounts faster";
              Out.assessed_claims_count := 1 |}).
  - vm_compute. reflexivity.
  - vm_compute. left.
  - vm_compute. left.
Defined.

Lemma claim_body_nil_iff neo4j user_state claim_id :
  PlannerCore.claim_body neo4j user_state claim_id [] = Ok [] ↔
  rejected neo4j user_state claim_id.
Proof.
  unfold PlannerCore.claim_body, rejected. split.
  - destruct (get_complete_graphlet neo4j claim_id) as [[g|]|e]; simpl;
      [|by left | done].
    intros H. right. exists g. split; [done|].
    destruct (ScopeValidator.is_viable _ _); simpl in *; [|by left]. right.
    destruct (RequirementChecker.is_viable _ _) as [[|]|e]; simpl in *; done.
  - intros [-> | (g & -> & Hg)]; simpl; [done|].
    destruct Hg as [-> | Hr]; simpl; [done|].
    destruct (ScopeValidator.is_viable _ _); simpl; [|done]. by rewrite Hr.
Qed.

Lemma solution_body_nil_iff neo4j user_state goal_id solution :
  PlannerCore.solution_body neo4j user_state goal_id solution [] = Ok [] ↔
  ∃ assessed_claims,
    get_assessed_claims_for_solution neo4j (Solution.id solution)
      = Ok assessed_claims ∧
    ∀ claim_id, claim_id ∈ assessed_claims → rejected neo4j user_state claim_id.
Proof.
  rewrite PlannerCoreFacts.solution_body_eq. unfold viable_claims_of. split.
  - destruct (get_assessed_claims_for_solution neo4j (Solution.id solution))
      as [claims|e]; simpl; [|done].
    destruct (for_each _ claims []) as [[|v vs]|e] eqn:Hloop; simpl; [| |done].
    + intros _. exists claims. split; [done|]. intros c Hc.
      apply claim_body_nil_iff.
      by apply (proj1 (for_each_Ok_nil _ claims
                         (PlannerCoreFacts.claim_body_appending neo4j user_state))
                  Hloop).
    + by destruct (get_strategy_for_goal neo4j goal_id).
  - intros (claims & -> & Hall). simpl.
    rewrite (proj2 (for_each_Ok_nil _ claims
                      (PlannerCoreFacts.claim_body_appending neo4j user_state)));
      [done|].
    intros c Hc. by apply claim_body_nil_iff, Hall.
Qed.

Lemma goal_body_nil_iff neo4j user_state goal :
  PlannerCore.goal_body neo4j user_state goal [] = Ok [] ↔
  ∃ solutions,
    get_solutions_for_goal neo4j (Goal.id goal) = Ok solutions ∧
    ∀ solution, solution ∈ solutions →
      ∃ assessed_claims,
        get_assessed_claims_for_solution neo4j (Solution.id solution)
          = Ok assessed_claims ∧
        ∀ claim_id, claim_id ∈ assessed_claims →
          rejected neo4j user_state claim_id.
Proof.
  rewrite PlannerCoreFacts.goal_body_eq. split.
  - destruct (get_solutions_for_goal neo4j (Goal.id goal)) as [solutions|e];
      simpl; [|done].
    destruct (for_each _ solutions []) as [[|v vs]|e] eqn:Hloop; simpl;
      [|done|done].
    intros _. exists solutions. split; [done|]. intros s Hs.
    apply (solution_body_nil_iff neo4j user_state (Goal.id goal)).
    by apply (proj1 (for_each_Ok_nil _ solutions
                       (PlannerCoreFacts.solution_body_appending neo4j user_state _))
                Hloop).
  - intros (solutions & -> & Hall). simpl.
    rewrite (proj2 (for_each_Ok_nil _ solutions
                      (PlannerCoreFacts.solution_body_appending neo4j user_state
                         (Goal.id goal)))); [done|].
    intros s Hs. by apply solution_body_nil_iff, Hall.
Qed.

(** X16.  A roadmap without goals is a success, not a failure: the
    roadmap is returned with [total_goals = 0] and no goal exactly when
    the catalog has a goal, its solutions and claims are read without
    failure and every claim is rejected.  The strategy of a goal is then
    never asked for. *)
Theorem roadmap_empty_iff_no_viable_claim
    (neo4j : PlannerNeo4j) (user_state : UserState.t) :
  PlannerCore.roadmap neo4j user_state = Ok (empty_roadmap user_state) ↔
  no_viable_claim neo4j user_state.
Proof.
  rewrite PlannerCoreFacts.roadmap_eq. unfold no_viable_claim, empty_roadmap.
  split.
  - destruct (get_goals_by_phase neo4j None) as [[|goal goals]|e]; [done| |done].
    destruct (for_each _ (goal :: goals) []) as [viable|e] eqn:Hloop; [|done].
    intros [= Hlen Hmap]. destruct viable; [|done].
    exists (goal :: goals). split; [done|]. split; [done|]. intros g Hg.
    apply goal_body_nil_iff.
    by apply (proj1 (for_each_Ok_nil _ (goal :: goals)
                       (PlannerCoreFacts.goal_body_appending neo4j user_state))
                Hloop).
  - intros (all_goals & -> & Hne & Hall).
    rewrite (proj2 (for_each_Ok_nil _ all_goals
                      (PlannerCoreFacts.goal_body_appending neo4j user_state))).
    + by destruct all_goals.
    + intros g Hg. by apply goal_body_nil_iff, Hall.
Qed.

Lemma roadmap_empty_iff_no_viable_claim_witness :
  PlannerCore.roadmap hollow_neo4j blank_user_state
    = Ok (empty_roadmap blank_user_state).
Proof.
  apply (proj2 (roadmap_empty_iff_no_viable_claim hollow_neo4j blank_user_state)).
  exists [goal_bank_account]. split; [reflexivity|]. split; [done|].
  intros goal _. exists [sol_online_bank]. split; [reflexivity|].
  intros solution _. exists [Some "ac_gone"]. split; [reflexivity|].
  intros claim_id _. by left.
Defined.

(** ** The endpoint *)

Lemma get_planner_Ok construct _planner planner :
  (Api.get_planner construct _planner).1 = Ok planner ↔
  planner_in_use construct _planner planner.
Proof.
  unfold Api.get_planner, planner_in_use.
  destruct _planner as [p|]; [|destruct construct as [p|e]]; simpl.
  - split; [intros [= ->]; by left | intros [[= ->] | [? _]]; done].
  - split; [intros [= ->]; by right | intros [? | [_ [= ->]]]; done].
  - split; [done | intros [? | [_ ?]]; done].
Qed.

Section EndpointFacts.

Variable validation_error : string → list string → string.
Variable str_http_exception : nat → string → string.
Variable utcnow : string.

#[local] Notation sol_body := (Api.sol_body validation_error).
#[local] Notation goal_data_body := (Api.goal_data_body validation_error).
#[local] Notation get_roadmap :=
  (Api.get_roadmap validation_error str_http_exception utcnow).

Lemma sol_body_appending : appending sol_body.
Proof.
  intros sol acc. unfold Api.sol_body.
  destruct (Api.new_SolutionResponse _ _ _ _ _ _ _) as [r|e]; simpl; done.
Qed.

Lemma goal_data_body_appending : appending goal_data_body.
Proof.
  intros goal_data acc. unfold Api.goal_data_body.
  destruct (for_each _ _ _) as [rs|e]; simpl; [|done].
  destruct (Api.new_GoalResponse _ _ _ _ _ _) as [r|e]; simpl; done.
Qed.

Lemma sol_body_Ok sol items :
  sol_body sol [] = Ok items →
  ∃ response, items = [response] ∧ mirrors_solution response sol ∧
              Api.assessed_claims_count response = 0%nat.
Proof.
  unfold Api.sol_body, Api.new_SolutionResponse, mirrors_solution.
  destruct (Out.solution_id sol), (Out.solution_name sol),
    (Out.solution_description sol); simpl; try done.
  intros [= <-]. by eexists.
Qed.

Lemma sol_body_Raise sol e :
  sol_body sol [] = Raise e →
  ¬ complete_solution sol ∧
  ∃ fields, exn_msg e = validation_error "SolutionResponse" fields.
Proof.
  unfold Api.sol_body, Api.new_SolutionResponse, complete_solution.
  destruct (Out.solution_id sol), (Out.solution_name sol),
    (Out.solution_description sol); simpl; try done;
    intros [= <-]; (split; [|by eexists]);
    intros (H1 & H2 & H3); by (apply is_Some_None in H1 || apply is_Some_None in H2
                               || apply is_Some_None in H3).
Qed.

(** The loop over the solutions of a goal: it completes exactly on complete
    solutions, and then mirrors them one by one. *)
Lemma sol_loop_Ok sols responses :
  for_each sol_body sols [] = Ok responses →
  Forall2 (λ response sol, mirrors_solution response sol ∧
                           Api.assessed_claims_count response = 0%nat)
    responses sols.
Proof.
  revert responses. induction sols as [|sol sols IH]; intros responses.
  - simpl. intros [= <-]. constructor.
  - rewrite for_each_cons_appending by apply sol_body_appending.
    intros (items & Hsol & (more & Hrest & [= <-])%bind_Ok_inv)%bind_Ok_inv.
    apply sol_body_Ok in Hsol as (response & -> & Hm & Hc). simpl.
    constructor; [done | by apply IH].
Qed.

Lemma sol_loop_Raise sols e :
  for_each sol_body sols [] = Raise e →
  ¬ Forall complete_solution sols ∧
  ∃ fields, exn_msg e = validation_error "SolutionResponse" fields.
Proof.
  induction sols as [|sol sols IH]; [done|].
  rewrite for_each_cons_appending by apply sol_body_appending.
  destruct (sol_body sol []) as [items|e1] eqn:Hsol; simpl.
  - destruct (for_each sol_body sols []) as [more|e2]; simpl; [done|].
    intros [= <-]. destruct (IH eq_refl) as [Hn Hf]. split; [|done].
    intros Hall. apply Hn. by inversion Hall.
  - intros [= <-]. apply sol_body_Raise in Hsol as [Hn Hf]. split; [|done].
    intros Hall. apply Hn. by inversion Hall.
Qed.

Lemma goal_data_body_Ok goal_data items :
  goal_data_body goal_data [] = Ok items →
  ∃ response, items = [response] ∧ mirrors_goal response goal_data ∧
              Forall (λ s, Api.assessed_claims_count s = 0%nat)
                (Api.solutions response).
Proof.
  unfold Api.goal_data_body.
  intros (responses & Hloop & Hnew)%bind_Ok_inv.
  apply sol_loop_Ok in Hloop. revert Hnew.
  unfold Api.new_GoalResponse, mirrors_goal.
  destruct (Out.goal_id goal_data), (Out.goal_name goal_data),
    (Out.goal_phase goal_data), (Out.goal_description goal_data); simpl;
    try done.
  intros [= <-]. eexists. split; [done|]. simpl. split.
  - repeat (split; [done|]). eapply Forall2_impl; [exact Hloop|]. by intros ?? [? _].
  - clear -Hloop. induction Hloop as [|???? [_ ?]]; by constructor.
Qed.

Lemma goal_data_body_Raise goal_data e :
  goal_data_body goal_data [] = Raise e →
  ¬ complete_goal goal_data ∧
  ∃ model fields, exn_msg e = validation_error model fields.
Proof.
  unfold Api.goal_data_body, complete_goal.
  destruct (for_each sol_body (Out.solutions goal_data) []) as [responses|e1]
    eqn:Hloop; simpl.
  - unfold Api.new_GoalResponse.
    destruct (Out.goal_id goal_data), (Out.goal_name goal_data),
      (Out.goal_phase goal_data), (Out.goal_description goal_data); simpl;
      try done;
      intros [= <-]; (split; [|by do 2 eexists]);
      intros (H1 & H2 & H3 & H4 & _);
      by (apply is_Some_None in H1 || apply is_Some_None in H2
          || apply is_Some_None in H3 || apply is_Some_None in H4).
  - intros [= <-]. apply sol_loop_Raise in Hloop as [Hn [fields Hf]].
    split; [|by do 2 eexists]. by intros (_ & _ & _ & _ & Hall).
Qed.

Lemma goal_data_loop_Ok goals responses :
  for_each goal_data_body goals [] = Ok responses →
  Forall2 (λ response goal_data,
             mirrors_goal response goal_data ∧
             Forall (λ s, Api.assessed_claims_count s = 0%nat)
               (Api.solutions response))
    responses goals.
Proof.
  revert responses. induction goals as [|goal_data goals IH]; intros responses.
  - simpl. intros [= <-]. constructor.
  - rewrite for_each_cons_appending by apply goal_data_body_appending.
    intros (items & Hgoal & (more & Hrest & [= <-])%bind_Ok_inv)%bind_Ok_inv.
    apply goal_data_body_Ok in Hgoal as (response & -> & Hm & Hc). simpl.
    constructor; [done | by apply IH].
Qed.

Lemma goal_data_loop_Raise goals e :
  for_each goal_data_body goals [] = Raise e →
  ¬ Forall complete_goal goals ∧
  ∃ model fields, exn_msg e = validation_error model fields.
Proof.
  induction goals as [|goal_data goals IH]; [done|].
  rewrite for_each_cons_appending by apply goal_data_body_appending.
  destruct (goal_data_body goal_data []) as [items|e1] eqn:Hgoal; simpl.
  - destruct (for_each goal_data_body goals []) as [more|e2]; simpl; [done|].
    intros [= <-]. destruct (IH eq_refl) as [Hn Hf]. split; [|done].
    intros Hall. apply Hn. by inversion Hall.
  - intros [= <-]. apply goal_data_body_Raise in Hgoal as [Hn Hf]. split; [|done].
    intros Hall. apply Hn. by inversion Hall.
Qed.



(** The outcome of a request, by what happens on its way. *)
Lemma get_roadmap_cases construct user_id _planner :
  (∃ e, (Api.get_planner construct _planner).1 = Raise e ∧
        (get_roadmap construct user_id _planner).1 = Api.HTTPError 500 (exn_msg e))
  ∨ ∃ planner,
      planner_in_use construct _planner planner ∧
      ((∃ e, Api.get_user_state planner user_id = Raise e ∧
             (get_roadmap construct user_id _planner).1
               = Api.HTTPError 500 (exn_msg e))
       ∨ (Api.get_user_state planner user_id = Ok None ∧
          (get_roadmap construct user_id _planner).1
            = Api.HTTPError 500
                (str_http_exception 404 ("User " +:+ user_id +:+ " not found")))
       ∨ ∃ user_state,
           Api.get_user_state planner user_id = Ok (Some user_state) ∧
           ((∃ e, PlannerCore.roadmap (Api.neo4j planner) user_state = Raise e ∧
                  (get_roadmap construct user_id _planner).1
                    = Api.HTTPError 500 (exn_msg e))
            ∨ ∃ result,
                PlannerCore.roadmap (Api.neo4j planner) user_state = Ok result ∧
                ((∃ e, for_each goal_data_body (Out.goals result) [] = Raise e ∧
                       (get_roadmap construct user_id _planner).1
                         = Api.HTTPError 500 (exn_msg e))
                 ∨ ∃ goals,
                     for_each goal_data_body (Out.goals result) [] = Ok goals ∧
                     (get_roadmap construct user_id _planner).1
                       = Api.Response
                           {| Api.user_id := user_id;
                              Api.generated_at := utcnow;
                              Api.total_goals := length goals;
                              Api.goals := goals |}))).
Proof.
  unfold Api.get_roadmap.
  destruct (Api.get_planner construct _planner) as [[planner|e] st] eqn:Hp;
    simpl; [|left; by exists e].
  right. exists planner. split; [apply get_planner_Ok; by rewrite Hp|].
  destruct (Api.get_user_state planner user_id) as [[user_state|]|e]; simpl;
    [| right; by left | left; by exists e].
  right. right. exists user_state. split; [done|].
  destruct (PlannerCore.roadmap (Api.neo4j planner) user_state) as [result|e];
    simpl; [|left; by exists e].
  right. exists result. split; [done|].
  destruct (for_each goal_data_body (Out.goals result) []) as [goals|e]; simpl;
    [right; by exists goals | left; by exists e].
Qed.


Lemma roadmap_total_goals neo4j user_state result :
  PlannerCore.roadmap neo4j user_state = Ok result →
  Out.total_goals result = length (Out.goals result).
Proof.
  intros (all_goals & viable & _ & _ & ->)%PlannerCoreFacts.roadmap_Ok_inv.
  simpl. by rewrite length_fmap.
Qed.

Lemma roadmap_counts_positive neo4j user_state result :
  PlannerCore.roadmap neo4j user_state = Ok result →
  Forall (λ goal_data,
            Forall (λ sol, (1 ≤ Out.assessed_claims_count sol)%nat)
              (Out.solutions goal_data))
    (Out.goals result).
Proof.
  intros (all_goals & viable & _ & Hloop & ->)%PlannerCoreFacts.roadmap_Ok_inv.
  simpl. apply Forall_forall. intros g (gd & -> & Hgd)%list_elem_of_fmap.
  destruct (goal_loop_well_formed _ _ _ _ _ Hloop Hgd) as (_ & Hall & _).
  eapply Forall_impl; [exact Hall|]. by intros sol [? _].
Qed.

(** X17.  A response mirrors the roadmap: its goals and their solutions are
    those of the roadmap in the same order, with the same ids, names,
    phases, descriptions, ranks and rationales, and [total_goals] is the
    roadmap's.  Its [user_id] is the path parameter and its [generated_at]
    is the reading of the clock, not the roadmap's constant. *)
Theorem endpoint_response_mirrors_roadmap
    (construct : result Api.Planner) (user_id : string)
    (_planner : option Api.Planner) (response : Api.RoadmapResponse) :
  (get_roadmap construct user_id _planner).1 = Api.Response response →
  ∃ planner user_state result,
    planner_in_use construct _planner planner ∧
    Api.get_user_state planner user_id = Ok (Some user_state) ∧
    PlannerCore.roadmap (Api.neo4j planner) user_state = Ok result ∧
    Api.user_id response = user_id ∧
    Api.generated_at response = utcnow ∧
    Api.total_goals response = Out.total_goals result ∧
    Forall2 mirrors_goal (Api.goals response) (Out.goals result).
Proof.
  intros Hresp.
  destruct (get_roadmap_cases construct user_id _planner)
    as [(e & _ & H) | (planner & Hp & [(e & _ & H) | [[_ H] |
         (user_state & Hus & [(e & _ & H) | (result & Hr & [(e & _ & H) |
           (goals & Hgoals & H)])])]])];
    rewrite H in Hresp; try done.
  injection Hresp as <-. exists planner, user_state, result. simpl.
  repeat (split; [done|]).
  apply goal_data_loop_Ok in Hgoals.
  assert (Forall2 mirrors_goal goals (Out.goals result)) as Hm
    by (eapply Forall2_impl; [exact Hgoals|]; by intros ?? [? _]).
  split; [|done].
  rewrite (roadmap_total_goals _ _ _ Hr). by eapply Forall2_length.
Qed.


(** X19.  Every failure of the endpoint is a 500: a planner that cannot
    be constructed, a failing user store, a failing roadmap and a
    [ValidationError] of a response model all end in the handler, and so
    does the [HTTPException] raised for a missing user, whose status 404
    never reaches the client. *)
Theorem endpoint_failures_are_500
    (construct : result Api.Planner) (user_id : string)
    (_planner : option Api.Planner) (status_code : nat) (detail : string) :
  (get_roadmap construct user_id _planner).1 = Api.HTTPError status_code detail →
  status_code = 500%nat ∧
  ((∃ e, (Api.get_planner construct _planner).1 = Raise e ∧ detail = exn_msg e)
   ∨ ∃ planner,
       planner_in_use construct _planner planner ∧
       ((∃ e, Api.get_user_state planner user_id = Raise e ∧ detail = exn_msg e)
        ∨ (Api.get_user_state planner user_id = Ok None ∧
           detail = str_http_exception 404
                      ("User " +:+ user_id +:+ " not found"))
        ∨ ∃ user_state,
            Api.get_user_state planner user_id = Ok (Some user_state) ∧
            ((∃ msg, PlannerCore.roadmap (Api.neo4j planner) user_state
                       = roadmap_failure msg ∧
                     detail = "Roadmap generation failed: " +:+ msg)
             ∨ ∃ result model fields,
                 PlannerCore.roadmap (Api.neo4j planner) user_state = Ok result ∧
                 ¬ Forall complete_goal (Out.goals result) ∧
                 detail = validation_error model fields))).
Proof.
  intros Hout.
  destruct (get_roadmap_cases construct user_id _planner)
    as [(e & Hpl & H) | (planner & Hp & [(e & Hus & H) | [[Hus H] |
         (user_state & Hus & [(e & Hr & H) | (result & Hr & [(e & Hgoals & H) |
           (goals & Hgoals & H)])])]])];
    rewrite H in Hout; try done; injection Hout as <- <-; (split; [done|]).
  - left. by exists e.
  - right. exists planner. split; [done|]. left. by exists e.
  - right. exists planner. split; [done|]. right. by left.
  - right. exists planner. split; [done|]. right. right.
    exists user_state. split; [done|]. left.
    destruct (PlannerCoreFacts.roadmap_Ok_or_failure (Api.neo4j planner) user_state)
      as [[r Hr'] | [msg Hmsg]]; [by rewrite Hr in Hr'|].
    exists msg. split; [done|]. rewrite Hr in Hmsg. by injection Hmsg as ->.
  - right. exists planner. split; [done|]. right. right.
    exists user_state. split; [done|]. right.
    apply goal_data_loop_Raise in Hgoals as [Hn (model & fields & Hf)].
    by exists result, model, fields.
Qed.

(** X20.  The response never reports the roadmap's count of claims: in
    every response every solution has [assessed_claims_count = 0], while
    the roadmap it was built from counts at least one claim for each of
    its solutions.  The endpoint reads a key the roadmap's solution dicts
    do not have. *)
Theorem endpoint_count_is_always_zero
    (construct : result Api.Planner) (user_id : string)
    (_planner : option Api.Planner) (response : Api.RoadmapResponse) :
  (get_roadmap construct user_id _planner).1 = Api.Response response →
  ∃ planner user_state result,
    planner_in_use construct _planner planner ∧
    Api.get_user_state planner user_id = Ok (Some user_state) ∧
    PlannerCore.roadmap (Api.neo4j planner) user_state = Ok result ∧
    Forall2 (λ goal goal_data,
               Forall2 (λ solution sol,
                          Api.assessed_claims_count solution = 0%nat ∧
                          (1 ≤ Out.assessed_claims_count sol)%nat)
                 (Api.solutions goal) (Out.solutions goal_data))
      (Api.goals response) (Out.goals result).
Proof.
  intros Hresp.
  destruct (get_roadmap_cases construct user_id _planner)
    as [(e & _ & H) | (planner & Hp & [(e & _ & H) | [[_ H] |
         (user_state & Hus & [(e & _ & H) | (result & Hr & [(e & _ & H) |
           (goals & Hgoals & H)])])]])];
    rewrite H in Hresp; try done.
  injection Hresp as <-. exists planner, user_state, result. simpl.
  repeat (split; [done|]).
  apply goal_data_loop_Ok in Hgoals.
  pose proof (roadmap_counts_positive _ _ _ Hr) as Hpos.
  clear -Hgoals Hpos.
  induction Hgoals as [|r g rs gs [Hm Hzero] _ IH]; [constructor|].
  inversion Hpos as [|?? Hg Hgs]; subst. constructor; [|by apply IH].
  destruct Hm as (_ & _ & _ & _ & Hsols). clear -Hsols Hzero Hg.
  induction Hsols as [|s s0 ss ss0 _ _ IH]; [constructor|].
  inversion Hzero; subst. inversion Hg; subst. constructor; [done | by apply IH].
Qed.

End EndpointFacts.

Lemma sample_request :
  (Api.get_roadmap sample_validation_error sample_str_http_exception sample_clock
     (Ok sample_planner) "u_test_123" None).1
  = Api.Response sample_response.
Proof. vm_compute. reflexivity. Qed.

Lemma endpoint_response_mirrors_roadmap_witness :
  ∃ planner user_state result,
    planner_in_use (Ok sample_planner) None planner ∧
    Api.get_user_state planner "u_test_123" = Ok (Some user_state) ∧
    PlannerCore.roadmap (Api.neo4j planner) user_state = Ok result ∧
    Api.user_id sample_response = "u_test_123" ∧
    Api.generated_at sample_response = sample_clock ∧
    Api.total_goals sample_response = Out.total_goals result ∧
    Forall2 mirrors_goal (Api.goals sample_response) (Out.goals result).
Proof.
  apply (endpoint_response_mirrors_roadmap sample_validation_error
           sample_str_http_exception sample_clock (Ok sample_planner)
           "u_test_123" None sample_response).
  vm_compute. reflexivity.
Defined.


Lemma endpoint_failures_are_500_witness :
  500%nat = 500%nat ∧
  ((∃ e, (Api.get_planner (Ok sample_planner) None).1 = Raise e ∧
         "User nobody not found" = exn_msg e)
   ∨ ∃ planner,
       planner_in_use (Ok sample_planner) None planner ∧
       ((∃ e, Api.get_user_state planner "nobody" = Raise e ∧
              "User nobody not found" = exn_msg e)
        ∨ (Api.get_user_state planner "nobody" = Ok None ∧
           "User nobody not found"
             = sample_str_http_exception 404 ("User " +:+ "nobody" +:+ " not found"))
        ∨ ∃ user_state,
            Api.get_user_state planner "nobody" = Ok (Some user_state) ∧
            ((∃ msg, PlannerCore.roadmap (Api.neo4j planner) user_state
                       = roadmap_failure msg ∧
                     "User nobody not found"
                       = "Roadmap generation failed: " +:+ msg)
             ∨ ∃ result model fields,
                 PlannerCore.roadmap (Api.neo4j planner) user_state = Ok result ∧
                 ¬ Forall complete_goal (Out.goals result) ∧
                 "User nobody not found"
                   = sample_validation_error model fields))).
Proof.
  apply (endpoint_failures_are_500 sample_validation_error
           sample_str_http_exception sample_clock (Ok sample_planner)
           "nobody" None 500 "User nobody not found").
  vm_compute. reflexivity.
Defined.

Lemma endpoint_count_is_always_zero_witness :
  ∃ planner user_state result,
    planner_in_use (Ok sample_planner) None planner ∧
    Api.get_user_state planner "u_test_123" = Ok (Some user_state) ∧
    PlannerCore.roadmap (Api.neo4j planner) user_state = Ok result ∧
    Forall2 (λ goal goal_data,
               Forall2 (λ solution sol,
                          Api.assessed_claims_count solution = 0%nat ∧
                          (1 ≤ Out.assessed_claims_count sol)%nat)
                 (Api.solutions goal) (Out.solutions goal_data))
      (Api.goals sample_response) (Out.goals result).
Proof.
  apply (endpoint_count_is_always_zero sample_validation_error
           sample_str_http_exception sample_clock (Ok sample_planner)
           "u_test_123" None sample_response).
  vm_compute. reflexivity.
Defined.
